(** * Stock price reports: the diff pipeline and the HTML report pipeline

    A shallow embedding of [generate_diff.py] and [generate_report.py].

    - Python [str] values are Rocq strings, one character per code point,
      so the development covers texts whose code points are below 256.
    - Python [float] values are the kernel's binary64 floats; arithmetic
      rounds to nearest even as CPython's does.
    - Exceptions are explicit: a computation returns [Ok v] or [Raise e].
    - The version-control history is a value of type [Git.repo]; what the
      operating system and the interpreter add to it, a value of type
      [Host.t].
    - The [git] executable is taken to be installed, and the working
      directory to be writable: [subprocess.run] starts its command, and
      [os.makedirs] and [open] succeed. *)

From Stdlib Require Import ZArith List String Ascii Bool Lia.
From Stdlib Require Import Floats.
From Stdlib Require Import Sorting.Permutation Sorting.Sorted.
From Stdlib Require Import DecimalString.
Import ListNotations.

Set Warnings "-inexact-float".

Local Open Scope string_scope.
Local Open Scope list_scope.

(** ** Exceptions *)

Inductive exn : Type :=
| ValueError
| TypeError
| ZeroDivisionError
| UnicodeDecodeError
| FileNotFoundError.

Inductive result (A : Type) : Type :=
| Ok (a : A)
| Raise (e : exn).

Arguments Ok {A} a.
Arguments Raise {A} e.

Definition bind {A B : Type} (m : result A) (k : A -> result B) : result B :=
  match m with
  | Ok a => k a
  | Raise e => Raise e
  end.

Notation "x <- m ;; k" := (bind m (fun x => k))
  (at level 61, m at next level, right associativity).

(** [try: body except ValueError: handler] *)
Definition try_except_ValueError {A : Type} (body : result A) (handler : result A)
  : result A :=
  match body with
  | Raise ValueError => handler
  | r => r
  end.

Fixpoint mapM {A B : Type} (f : A -> result B) (l : list A) : result (list B) :=
  match l with
  | [] => Ok []
  | x :: xs => y <- f x ;; ys <- mapM f xs ;; Ok (y :: ys)
  end.

(** ** The [str] methods the two scripts call *)

Module PyStr.

Definition code (c : ascii) : N := N_of_ascii c.

(** [str.isspace] on one code point below 256: tab to carriage return,
    the four separators 0x1c-0x1f, space, NEL and the no-break space. *)
Definition isspace (c : ascii) : bool :=
  let n := code c in
  ((9 <=? n) && (n <=? 13) || (28 <=? n) && (n <=? 32)
   || (n =? 133) || (n =? 160))%N.

Fixpoint lstrip (s : string) : string :=
  match s with
  | String c s' => if isspace c then lstrip s' else s
  | EmptyString => EmptyString
  end.

Fixpoint rstrip (s : string) : string :=
  match s with
  | String c s' =>
      match rstrip s' with
      | EmptyString => if isspace c then EmptyString else String c EmptyString
      | r => String c r
      end
  | EmptyString => EmptyString
  end.

(** [s.strip()] *)
Definition strip (s : string) : string := rstrip (lstrip s).

(** [s.startswith(p)] *)
Definition startswith (s p : string) : bool := String.prefix p s.

(** [s.split(sep)] for a one-character separator: never an empty list. *)
Fixpoint split (sep : ascii) (s : string) : list string :=
  match s with
  | EmptyString => [EmptyString]
  | String c s' =>
      if Ascii.eqb c sep then EmptyString :: split sep s'
      else match split sep s' with
           | h :: t => String c h :: t
           | [] => [String c EmptyString]
           end
  end.

(** [sep.join(l)] *)
Fixpoint join (sep : string) (l : list string) : string :=
  match l with
  | [] => EmptyString
  | [x] => x
  | x :: xs => x ++ sep ++ join sep xs
  end.

(** [s.replace(old, new)] for a non-empty [old]: every occurrence, found
    left to right without overlap.  [skip] counts the characters of the
    occurrence being replaced that are still to be dropped. *)
Fixpoint replace_from (old new : string) (skip : nat) (s : string) : string :=
  match s with
  | EmptyString => EmptyString
  | String c s' =>
      match skip with
      | S k => replace_from old new k s'
      | O =>
          if String.prefix old s
          then new ++ replace_from old new (String.length old - 1) s'
          else String c (replace_from old new 0 s')
      end
  end.

Definition replace (s old new : string) : string := replace_from old new 0 s.

(** [s[:n]] *)
Fixpoint take (n : nat) (s : string) : string :=
  match n, s with
  | S k, String c s' => String c (take k s')
  | _, _ => EmptyString
  end.

(** [os.path.basename] of posixpath: what follows the last slash. *)
Definition basename (p : string) : string :=
  List.last (split "/" p) EmptyString.

Definition nl : ascii := ascii_of_nat 10.
Definition nl_s : string := String nl EmptyString.

(** Truth value of a string: empty is false. *)
Definition truthy (s : string) : bool :=
  match s with
  | EmptyString => false
  | _ => true
  end.

End PyStr.

(** ** The [float] built-in on a string *)

Module PyFloat.

Local Open Scope Z_scope.

(** The nearest binary64 to [(-1)^neg * m * 10^e10], ties to even; values
    beyond the largest finite float become infinities. *)
Definition decimal_to_float (neg : bool) (m e10 : Z) : float :=
  SF2Prim
    match m with
    | Zpos p =>
        if 0 <=? e10
        then binary_round prec emax neg (Z.to_pos (Zpos p * 10 ^ e10)) 0
        else
          let d := 10 ^ (- e10) in
          let k := Z.log2 d + 64 in
          let '(q, r) := Z.div_eucl (Z.shiftl (Zpos p) k) d in
          binary_round_aux prec emax neg q (- k) (new_location d r)
    | _ => S754_zero neg
    end.

Definition is_digit (c : ascii) : bool :=
  let n := N_of_ascii c in ((48 <=? n) && (n <=? 57))%N.

Definition digit_val (c : ascii) : Z := Z.of_N (N_of_ascii c) - 48.

Definition lower (c : ascii) : ascii :=
  let n := N_of_ascii c in
  if ((65 <=? n) && (n <=? 90))%N then ascii_of_N (n + 32) else c.

Fixpoint lower_s (s : string) : string :=
  match s with
  | EmptyString => EmptyString
  | String c s' => String (lower c) (lower_s s')
  end.

(** The white space [float] removes at both ends: the ASCII white space,
    and NEL and the no-break space, which it first turns into spaces. *)
Definition isspace (c : ascii) : bool :=
  let n := N_of_ascii c in
  ((9 <=? n) && (n <=? 13) || (n =? 32) || (n =? 133) || (n =? 160))%N.

Fixpoint lstrip (s : string) : string :=
  match s with
  | String c s' => if isspace c then lstrip s' else s
  | EmptyString => EmptyString
  end.

Fixpoint rstrip (s : string) : string :=
  match s with
  | String c s' =>
      match rstrip s' with
      | EmptyString => if isspace c then EmptyString else String c EmptyString
      | r => String c r
      end
  | EmptyString => EmptyString
  end.

(** Underscores may only stand between two digits; they are removed.
    [prev] is the previous character. *)
Fixpoint drop_underscores (prev : ascii) (s : string) : option string :=
  match s with
  | EmptyString => if Ascii.eqb prev "_" then None else Some EmptyString
  | String c s' =>
      if Ascii.eqb c "_" then
        if is_digit prev then drop_underscores c s' else None
      else if Ascii.eqb prev "_" && negb (is_digit c) then None
      else option_map (String c) (drop_underscores c s')
  end.

(** Reads a maximal run of digits: its value continuing [acc], how many
    digits were read, and the rest. *)
Fixpoint digits (acc : Z) (n : Z) (s : string) : Z * Z * string :=
  match s with
  | String c s' =>
      if is_digit c then digits (10 * acc + digit_val c) (n + 1) s'
      else (acc, n, s)
  | EmptyString => (acc, n, s)
  end.

Definition sign (s : string) : bool * string :=
  match s with
  | String "-" s' => (true, s')
  | String "+" s' => (false, s')
  | _ => (false, s)
  end.

(** The exponent part: [e] or [E], an optional sign, at least one digit,
    and nothing after it. *)
Definition exponent (s : string) : option Z :=
  match s with
  | EmptyString => Some 0
  | String c s' =>
      if Ascii.eqb (lower c) "e" then
        let '(neg, s1) := sign s' in
        match digits 0 0 s1 with
        | (v, n, EmptyString) =>
            if 0 <? n then Some (if neg then - v else v) else None
        | _ => None
        end
      else None
  end.

(** A decimal literal: digits, an optional point and digits, with at
    least one digit in all, then an optional exponent. *)
Definition number (neg : bool) (s : string) : option float :=
  let '(i, ni, s1) := digits 0 0 s in
  let '(m, nf, s2) :=
    match s1 with
    | String "." s1' => digits i 0 s1'
    | _ => (i, 0, s1)
    end in
  if 0 <? ni + nf then
    match exponent s2 with
    | Some e => Some (decimal_to_float neg m (e - nf))
    | None => None
    end
  else None.

Definition parse (s : string) : option float :=
  let '(neg, body) := sign s in
  let w := lower_s body in
  if String.eqb w "inf" || String.eqb w "infinity"
  then Some (if neg then neg_infinity else infinity)
  else if String.eqb w "nan" then Some nan
  else number neg body.

(** [float(s)]: [ValueError] when [s] is not a float literal. *)
Definition float (s : string) : result PrimFloat.float :=
  match drop_underscores " " (rstrip (lstrip s)) with
  | Some t =>
      match parse t with
      | Some x => Ok x
      | None => Raise ValueError
      end
  | None => Raise ValueError
  end.

End PyFloat.

(** ** Arithmetic and the list built-ins on floats *)

Module PyNum.

Local Open Scope float_scope.

(** [x / y]: division by a zero of either sign raises. *)
Definition truediv (x y : float) : result float :=
  if y =? 0 then Raise ZeroDivisionError else Ok (x / y).

(** An integer length as a float. *)
Definition of_nat (n : nat) : float :=
  PyFloat.decimal_to_float false (Z.of_nat n) 0.

(** [x / n] for an integer [n], here a length: it raises when [n] is
    zero, and no other integer converts to a zero float. *)
Definition truediv_int (x : float) (n : nat) : result float :=
  match n with
  | O => Raise ZeroDivisionError
  | S _ => Ok (x / of_nat n)
  end.

(** [min(l)] keeps the first smallest item, [max(l)] the first largest. *)
Fixpoint min_from (cur : float) (l : list float) : float :=
  match l with
  | [] => cur
  | x :: xs => min_from (if x <? cur then x else cur) xs
  end.

Fixpoint max_from (cur : float) (l : list float) : float :=
  match l with
  | [] => cur
  | x :: xs => max_from (if cur <? x then x else cur) xs
  end.

(** [sum(l)]: the items added from the left onto zero, as CPython does
    up to version 3.11. *)
Definition sum (l : list float) : float := fold_left add l 0.

End PyNum.

(** [l.sort(key=key, reverse=True)].  The built-in sort compares keys with
    [<] only and keeps items of equal key in their original order, also
    when reversed.  Where [<] orders the keys, which it does when none of
    them is a NaN, that fixes the result, which the insertion sort
    [sort_ordered] computes.  With a NaN among the keys the result is an
    arrangement of the list that depends on the version of the interpreter
    (the runs and merges of its sort); [unordered] stands for it: from the
    keys in input order it gives the exchanges of neighbours, each named by
    the position of its first item, that lead from the input order to the
    one the interpreter returns. *)
Module PyList.

Section Sort.
Context {A : Type}.
Variable unordered : list float -> list nat.
Variable key : A -> float.

Fixpoint insert_reverse (x : A) (l : list A) : list A :=
  match l with
  | [] => [x]
  | y :: ys =>
      if (key x <? key y)%float then y :: insert_reverse x ys
      else x :: y :: ys
  end.

Definition sort_ordered (l : list A) : list A :=
  fold_right insert_reverse [] l.

(** The items at the positions [i] and [i + 1] exchanged. *)
Fixpoint exchange (i : nat) (l : list A) : list A :=
  match i, l with
  | O, x :: y :: rest => y :: x :: rest
  | S j, x :: rest => x :: exchange j rest
  | _, _ => l
  end.

Definition arrange (exchanges : list nat) (l : list A) : list A :=
  fold_left (fun l i => exchange i l) exchanges l.

Definition sort_reverse (l : list A) : list A :=
  if forallb (fun x => negb (is_nan (key x))) l
  then sort_ordered l
  else arrange (unordered (map key l)) l.
End Sort.

End PyList.

(** ** The history source *)

Module Git.

Record commit : Type := { hash : string; author_date : string }.

(** What [subprocess.run] with [text=True] and [check=True] comes to for
    [git show]: the standard output as a text; the exception
    [CalledProcessError] when the command returns a status other than zero;
    the exception [UnicodeDecodeError] ([Undecodable]) when the bytes it
    prints do not decode, which is raised as the output is collected. *)
Inductive shown : Type :=
| Stdout (s : string)
| CalledProcessError
| Undecodable.

(** What the [git] subprocesses answer from: whether [git rev-parse
    --is-inside-work-tree] returns the status zero, which it does inside a
    work tree and also inside a bare repository or a [.git] directory,
    where it prints [false]; the commits, newest first; the paths that
    [git ls-files "*.txt"] lists, in listing order, as their bytes (none
    where that command fails, as it does in a bare repository); and what
    [git show] comes to for an object name [hash:path]. *)
Record repo : Type := {
  rev_parse_ok : bool;
  log : list commit;
  tracked_txt : list string;
  show : string -> shown
}.

(** Standard output of [git log -n --pretty=format:...]: one line per
    commit, separated by newlines. *)
Definition log_stdout (r : repo) (n : nat) (fmt : commit -> string) : string :=
  PyStr.join PyStr.nl_s (map fmt (firstn n (log r))).

(** The bytes of a path that [git ls-files] does not print as they are,
    with [core.quotePath] at its default: the control characters, the
    double quote, the backslash and the bytes from 127 on. *)
Definition must_quote (c : ascii) : bool :=
  let n := N_of_ascii c in
  ((n <? 32) || (n =? 34) || (n =? 92) || (127 <=? n))%N.

Definition octal_digit (n : N) : ascii := ascii_of_N (48 + n mod 8).

(** The escape of one byte inside a quoted path. *)
Definition escape (c : ascii) : string :=
  let n := N_of_ascii c in
  let letter (l : string) := String "\" l in
  if must_quote c then
    if (n =? 7)%N then letter "a"
    else if (n =? 8)%N then letter "b"
    else if (n =? 9)%N then letter "t"
    else if (n =? 10)%N then letter "n"
    else if (n =? 11)%N then letter "v"
    else if (n =? 12)%N then letter "f"
    else if (n =? 13)%N then letter "r"
    else if (n =? 34)%N then letter (String c EmptyString)
    else if (n =? 92)%N then letter (String c EmptyString)
    else String "\" (String (octal_digit (n / 64))
                      (String (octal_digit (n / 8))
                        (String (octal_digit n) EmptyString)))
  else String c EmptyString.

Fixpoint escape_all (p : string) : string :=
  match p with
  | EmptyString => EmptyString
  | String c p' => (escape c ++ escape_all p')%string
  end.

Fixpoint any_char (f : ascii -> bool) (s : string) : bool :=
  match s with
  | EmptyString => false
  | String c s' => f c || any_char f s'
  end.

(** A path as [git ls-files] prints it: as it is, or between double
    quotes with its special bytes escaped. *)
Definition c_quote (p : string) : string :=
  if any_char must_quote p
  then (String (ascii_of_nat 34) (escape_all p) ++ String (ascii_of_nat 34) EmptyString)%string
  else p.

(** Standard output of [git ls-files "*.txt"]: each path ends its line. *)
Definition ls_files_stdout (r : repo) : string :=
  String.concat "" (map (fun p => (c_quote p ++ PyStr.nl_s)%string) (tracked_txt r)).

End Git.

(** ** The operating system and the interpreter *)

Module Host.

(** A repository as a run of either script meets it: with the answers of
    [git], whether [os.chdir] to a directory succeeds, and how the
    interpreter's sort arranges keys that [<] does not order (see
    [PyList]). *)
Record t : Type := {
  repo : Git.repo;
  chdir_ok : string -> bool;
  unordered : list float -> list nat
}.

End Host.

Coercion Host.repo : Host.t >-> Git.repo.

(** ** Console, directories and files *)

Module IO.

Section World.
Variable artifact : Type.

Record world : Type := {
  console : list string;
  dirs : list string;
  files : list (string * artifact)
}.

Definition io (A : Type) : Type := world -> world * result A.

Definition ret {A : Type} (a : A) : io A := fun w => (w, Ok a).

Definition iobind {A B : Type} (m : io A) (k : A -> io B) : io B :=
  fun w =>
    match m w with
    | (w', Ok a) => k a w'
    | (w', Raise e) => (w', Raise e)
    end.

Definition lift {A : Type} (r : result A) : io A := fun w => (w, r).

Definition print (s : string) : io unit :=
  fun w => ({| console := console w ++ [s]; dirs := dirs w; files := files w |},
            Ok tt).

(** [os.makedirs(d, exist_ok=True)] *)
Definition makedirs (d : string) : io unit :=
  fun w => ({| console := console w;
               dirs := if existsb (String.eqb d) (dirs w) then dirs w
                       else dirs w ++ [d];
               files := files w |}, Ok tt).

(** [open(path, 'w')] and the writes up to its close: the file holds
    [a], replacing what it held. *)
Definition write_file (path : string) (a : artifact) : io unit :=
  fun w => ({| console := console w; dirs := dirs w;
               files := (path, a) ::
                        filter (fun f => negb (String.eqb (fst f) path)) (files w) |},
            Ok tt).

Definition empty : world := {| console := []; dirs := []; files := [] |}.

(** A process: its exit status, and the world it leaves.  An uncaught
    exception ends the interpreter with status 1. *)
Definition exit_status (r : result Z) : Z :=
  match r with
  | Ok z => z
  | Raise _ => 1%Z
  end.
End World.

Arguments console {artifact} w.
Arguments dirs {artifact} w.
Arguments files {artifact} w.
Arguments ret {artifact A} a.
Arguments iobind {artifact A B} m k.
Arguments lift {artifact A} r.
Arguments print {artifact} s.
Arguments makedirs {artifact} d.
Arguments write_file {artifact} path a.
Arguments empty {artifact}.

End IO.

Notation "x <~ m ;; k" := (IO.iobind m (fun x => k))
  (at level 61, m at next level, right associativity).
Notation "m ;;; k" := (IO.iobind m (fun _ => k))
  (at level 61, right associativity).

Definition str_of_nat (n : nat) : string := NilEmpty.string_of_uint (Nat.to_uint n).

Definition dquote : string := String (ascii_of_nat 34) EmptyString.

(** [str(t)] for a string or [None]. *)
Definition str_of_opt (t : option string) : string :=
  match t with
  | Some s => s
  | None => "None"
  end.

(** ** Functions the two scripts define alike *)

Module Shared.

(** [get_file_content]: the output of [git show], stripped; [None] when
    the command fails, the one exception that is caught. *)
Definition get_file_content (r : Git.repo) (commit_hash filepath : string)
  : result (option string) :=
  match Git.show r (commit_hash ++ ":" ++ filepath)%string with
  | Git.Stdout s => Ok (Some (PyStr.strip s))
  | Git.CalledProcessError => Ok None
  | Git.Undecodable => Raise UnicodeDecodeError
  end.

(** The pair [(price, timestamp)] that [parse_price_file] builds. *)
Definition fields : Type := option float * option string.

(** One turn of the loop of [parse_price_file]. *)
Definition scan_line (st : fields) (line : string) : result fields :=
  let '(price, timestamp) := st in
  if PyStr.startswith line "Price:" then
    let price_str := PyStr.strip (PyStr.replace line "Price:" "") in
    try_except_ValueError
      (p <- PyFloat.float price_str ;; Ok (Some p, timestamp))
      (Ok (price, timestamp))
  else if PyStr.startswith line "Updated:" then
    Ok (price, Some (PyStr.strip (PyStr.replace line "Updated:" "")))
  else Ok (price, timestamp).

Fixpoint scan_lines (st : fields) (lines : list string) : result fields :=
  match lines with
  | [] => Ok st
  | line :: rest => st' <- scan_line st line ;; scan_lines st' rest
  end.

Definition parse_price_file (content : option string) : result fields :=
  match content with
  | None => Ok (None, None)
  | Some c =>
      if PyStr.truthy c
      then scan_lines (None, None) (PyStr.split PyStr.nl c)
      else Ok (None, None)
  end.

Definition get_all_stock_files (r : Git.repo) : list string :=
  filter (fun f => PyStr.truthy f && negb (String.eqb f "main.txt"))
         (PyStr.split PyStr.nl (PyStr.strip (Git.ls_files_stdout r))).

(** [os.path.basename(filepath).replace('.txt', '')] *)
Definition ticker_of (filepath : string) : string :=
  PyStr.replace (PyStr.basename filepath) ".txt" "".

End Shared.

(** ** [generate_diff.py] *)

Module GenerateDiff.

Import Shared.
Local Open Scope float_scope.

(** The two newest commit hashes, or [None, None] when [git log] prints
    fewer than two lines. *)
Definition get_last_two_commits (r : Git.repo) : option string * option string :=
  match PyStr.split PyStr.nl (PyStr.strip (Git.log_stdout r 2 Git.hash)) with
  | c0 :: c1 :: _ => (Some c0, Some c1)
  | _ => (None, None)
  end.

(** The literal [0] the source returns is the float zero here: it is
    equal to it, and prints alike under the report's formats. *)
Definition calculate_percentage_change (old_price new_price : option float)
  : result float :=
  match old_price with
  | None => Ok 0
  | Some o =>
      if o =? 0 then Ok 0
      else match new_price with
           | Some n => q <- PyNum.truediv (n - o) o ;; Ok (q * 100)
           | None => Raise TypeError
           end
  end.

(** The guarded computation in the loop of [generate_diff_report]: the
    pair [(price_change, percent_change)], or nothing when a price is
    missing. *)
Definition change_of (previous_price current_price : option float)
  : result (option (float * float)) :=
  match current_price, previous_price with
  | Some c, Some p =>
      percent_change <- calculate_percentage_change previous_price current_price ;;
      Ok (Some (c - p, percent_change))
  | _, _ => Ok None
  end.

Record change : Type := {
  ticker : string;
  previous_price : float;
  current_price : float;
  price_change : float;
  percent_change : float;
  previous_time : option string;
  current_time : option string
}.

(** One turn of the loop over the stock files. *)
Definition change_for (r : Git.repo) (current_commit previous_commit filepath : string)
  : result (option change) :=
  let ticker := ticker_of filepath in
  current_content <- get_file_content r current_commit filepath ;;
  previous_content <- get_file_content r previous_commit filepath ;;
  cur <- parse_price_file current_content ;;
  prev <- parse_price_file previous_content ;;
  ch <- change_of (fst prev) (fst cur) ;;
  match ch, fst cur, fst prev with
  | Some (dp, pc), Some c, Some p =>
      Ok (Some {| ticker := ticker; previous_price := p; current_price := c;
                  price_change := dp; percent_change := pc;
                  previous_time := snd prev; current_time := snd cur |})
  | _, _, _ => Ok None
  end.

Fixpoint collect_changes (r : Git.repo) (current_commit previous_commit : string)
         (stock_files : list string) : result (list change) :=
  match stock_files with
  | [] => Ok []
  | filepath :: rest =>
      c <- change_for r current_commit previous_commit filepath ;;
      cs <- collect_changes r current_commit previous_commit rest ;;
      Ok (match c with Some x => x :: cs | None => cs end)
  end.

Definition abs_percent (c : change) : float := abs (percent_change c).

(** [changes.sort(key=lambda x: abs(x['percent_change']), reverse=True)] *)
Definition rank (h : Host.t) (changes : list change) : list change :=
  PyList.sort_reverse (Host.unordered h) abs_percent changes.

(** What [changes.diff] is written from; the fixed-width layout of its
    lines is not modelled. *)
Record diff_report : Type := {
  previous_update : string;
  current_update : string;
  total_stocks : nat;
  gainers : list change;
  losers : list change;
  unchanged : list change;
  top_gainers : list change;
  top_losers : list change;
  detailed : list change
}.

Definition render (changes : list change) : diff_report :=
  let gainers := filter (fun c => 0 <? percent_change c) changes in
  let losers := filter (fun c => percent_change c <? 0) changes in
  let unchanged := filter (fun c => percent_change c =? 0) changes in
  {| previous_update :=
       match changes with c :: _ => str_of_opt (previous_time c) | [] => "N/A" end;
     current_update :=
       match changes with c :: _ => str_of_opt (current_time c) | [] => "N/A" end;
     total_stocks := List.length changes;
     gainers := gainers; losers := losers; unchanged := unchanged;
     top_gainers := firstn 10 gainers;
     top_losers := firstn 10 losers;
     detailed := changes |}.

Definition output_file : string := "artifacts/changes.diff".

Definition generate_diff_report (r : Host.t) : IO.io diff_report unit :=
  IO.makedirs "artifacts" ;;;
  match get_last_two_commits r with
  | (Some current_commit, Some previous_commit) =>
      if PyStr.truthy current_commit && PyStr.truthy previous_commit then
        IO.print "Comparing commits:" ;;;
        IO.print ("  Current:  " ++ PyStr.take 8 current_commit) ;;;
        IO.print ("  Previous: " ++ PyStr.take 8 previous_commit) ;;;
        let stock_files := get_all_stock_files r in
        match stock_files with
        | [] => IO.print "No stock files found"
        | _ =>
            changes <~ IO.lift (collect_changes r current_commit previous_commit
                                                stock_files) ;;
            let changes := rank r changes in
            let rep := render changes in
            IO.write_file output_file rep ;;;
            IO.print (PyStr.nl_s ++ "Diff report generated: " ++ output_file) ;;;
            IO.print ("Total stocks analyzed: " ++ str_of_nat (List.length changes)) ;;;
            IO.print ("Gainers: " ++ str_of_nat (List.length (gainers rep))
                      ++ " | Losers: " ++ str_of_nat (List.length (losers rep))
                      ++ " | Unchanged: " ++ str_of_nat (List.length (unchanged rep)))
        end
      else IO.print "Error: Not enough commits to compare"
  | _ => IO.print "Error: Not enough commits to compare"
  end.

(** [os.chdir(path)] *)
Definition chdir (r : Host.t) (path : string) : IO.io diff_report unit :=
  IO.lift (if Host.chdir_ok r path then Ok tt else Raise FileNotFoundError).

(** The script run as a program with arguments [argv], [r] being the
    repository that [git] finds from the directory the script has changed
    to; [sys.exit(1)] when [git rev-parse] fails. *)
Definition main (argv : list string) (r : Host.t) : IO.io diff_report Z :=
  match argv with
  | _ :: repo_path :: _ =>
      IO.print ("Changing to repository: " ++ repo_path) ;;;
      chdir r repo_path
  | _ => IO.ret tt
  end ;;;
  if Git.rev_parse_ok r then
    generate_diff_report r ;;; IO.ret 0%Z
  else
    IO.print "Error: Not in a Git repository!" ;;;
    IO.print "Usage when testing:" ;;;
    IO.print ("  python generate_diff.py " ++ dquote
              ++ "C:\Users\NITRO\Documents\Git\my-ci-cd-project" ++ dquote) ;;;
    IO.ret 1%Z.

Definition run (argv : list string) (r : Host.t) : Z * IO.world diff_report :=
  let '(w, res) := main argv r IO.empty in (IO.exit_status res, w).

End GenerateDiff.

(** ** [generate_report.py] *)

Module GenerateReport.

Import Shared.
Local Open Scope float_scope.

(** The dictionaries [{'hash': ..., 'timestamp': ...}]. *)
Record commit_entry : Type := { c_hash : string; c_timestamp : string }.

(** One line of [git log --pretty=format:%H|%ai]: skipped without a bar,
    and unpacking fails when it splits into more than two parts. *)
Definition commit_of_line (line : string) : result (option commit_entry) :=
  match PyStr.split "|" line with
  | [_] => Ok None
  | [commit_hash; timestamp] =>
      Ok (Some {| c_hash := commit_hash; c_timestamp := timestamp |})
  | _ => Raise ValueError
  end.

Fixpoint commits_of_lines (lines : list string) : result (list commit_entry) :=
  match lines with
  | [] => Ok []
  | line :: rest =>
      c <- commit_of_line line ;;
      cs <- commits_of_lines rest ;;
      Ok (match c with Some x => x :: cs | None => cs end)
  end.

Definition get_commit_history (r : Git.repo) (max_commits : nat)
  : result (list commit_entry) :=
  commits_of_lines
    (PyStr.split PyStr.nl
       (PyStr.strip
          (Git.log_stdout r max_commits
             (fun c => (Git.hash c ++ "|" ++ Git.author_date c)%string)))).

(** The dictionaries [{'timestamp': ..., 'price': ...}]. *)
Record entry : Type := { timestamp : string; price : float }.

(** [timestamp or commit['timestamp']]: an empty string counts as none. *)
Definition timestamp_or (t : option string) (fallback : string) : string :=
  match t with
  | Some s => if PyStr.truthy s then s else fallback
  | None => fallback
  end.

Fixpoint get_price_history (r : Git.repo) (ticker : string)
         (commits : list commit_entry) : result (list entry) :=
  match commits with
  | [] => Ok []
  | commit :: rest =>
      let filepath := (ticker ++ ".txt")%string in
      content <- get_file_content r (c_hash commit) filepath ;;
      f <- parse_price_file content ;;
      hs <- get_price_history r ticker rest ;;
      Ok (match fst f with
          | Some p => {| timestamp := timestamp_or (snd f) (c_timestamp commit);
                         price := p |} :: hs
          | None => hs
          end)
  end.

Record statistics : Type := {
  current : float;
  previous : float;
  min : float;
  max : float;
  avg : float;
  change : float;
  percent_change : float
}.

Definition calculate_statistics (history : list entry) : result (option statistics) :=
  match map price history with
  | [] => Ok None
  | (current_price :: others) as prices =>
      let previous_price :=
        match others with
        | p1 :: _ => p1
        | [] => current_price
        end in
      let min_price := PyNum.min_from current_price others in
      let max_price := PyNum.max_from current_price others in
      avg_price <- PyNum.truediv_int (PyNum.sum prices) (List.length prices) ;;
      let price_change := current_price - previous_price in
      percent_change <-
        (if negb (previous_price =? 0)
         then q <- PyNum.truediv (current_price - previous_price) previous_price ;;
              Ok (q * 100)
         else Ok 0) ;;
      Ok (Some {| current := current_price; previous := previous_price;
                  min := min_price; max := max_price; avg := avg_price;
                  change := price_change; percent_change := percent_change |})
  end.

(** The dictionaries that [all_stocks_data] collects. *)
Record stock : Type := {
  s_ticker : string;
  stats : statistics;
  history : list entry
}.

Record chart : Type := { labels : list string; prices : list float }.

(** A [dict] with string keys, in insertion order; [d[k] = v] replaces the
    value of a key already there, in place. *)
Fixpoint dict_set {V : Type} (k : string) (v : V) (d : list (string * V))
  : list (string * V) :=
  match d with
  | [] => [(k, v)]
  | (k', v') :: rest =>
      if String.eqb k' k then (k, v) :: rest else (k', v') :: dict_set k v rest
  end.

Fixpoint dict_get {V : Type} (k : string) (d : list (string * V)) : option V :=
  match d with
  | [] => None
  | (k', v') :: rest => if String.eqb k' k then Some v' else dict_get k rest
  end.

(** The chart data of one ticker: the history reversed, labels cut to
    sixteen characters. *)
Definition chart_of (history : list entry) : chart :=
  {| labels := map (fun h => PyStr.take 16 (timestamp h)) (rev history);
     prices := map price (rev history) |}.

(** The loop over [tickers], from the given [all_stocks_data] and
    [chart_data]. *)
Fixpoint collect (r : Git.repo) (commits : list commit_entry) (tickers : list string)
         (all_stocks_data : list stock) (chart_data : list (string * chart))
  : result (list stock * list (string * chart)) :=
  match tickers with
  | [] => Ok (all_stocks_data, chart_data)
  | ticker :: rest =>
      history <- get_price_history r ticker commits ;;
      stats <- calculate_statistics history ;;
      match stats with
      | Some st =>
          collect r commits rest
            (all_stocks_data ++ [{| s_ticker := ticker; stats := st; history := history |}])
            (dict_set ticker (chart_of history) chart_data)
      | None => collect r commits rest all_stocks_data chart_data
      end
  end.

Definition abs_percent (s : stock) : float := abs (percent_change (stats s)).

(** [all_stocks_data.sort(key=lambda x: abs(x['stats']['percent_change']),
    reverse=True)] *)
Definition rank (h : Host.t) (all_stocks_data : list stock) : list stock :=
  PyList.sort_reverse (Host.unordered h) abs_percent all_stocks_data.

Record totals : Type := { t_gainers : nat; t_losers : nat; t_unchanged : nat }.

(** The loop over [all_tickers], on the two newest commits. *)
Fixpoint count_totals (r : Git.repo) (commits2 : list commit_entry)
         (all_tickers : list string) (t : totals) : result totals :=
  match all_tickers with
  | [] => Ok t
  | ticker :: rest =>
      history <- get_price_history r ticker commits2 ;;
      stats <- calculate_statistics history ;;
      count_totals r commits2 rest
        match stats with
        | Some st =>
            if 0 <? percent_change st then
              {| t_gainers := S (t_gainers t); t_losers := t_losers t;
                 t_unchanged := t_unchanged t |}
            else if percent_change st <? 0 then
              {| t_gainers := t_gainers t; t_losers := S (t_losers t);
                 t_unchanged := t_unchanged t |}
            else
              {| t_gainers := t_gainers t; t_losers := t_losers t;
                 t_unchanged := S (t_unchanged t) |}
        | None => t
        end
  end.

(** What [report.html] is written from: the summary cards, the chart
    containers of the gallery, the rows of the table and the dictionary
    embedded as [chartData]; the markup around them is not modelled. *)
Record html_report : Type := {
  summary : totals;
  gallery : list stock;
  table : list stock;
  chart_data : list (string * chart)
}.

Definition output_file : string := "artifacts/report.html".

Definition generate_html_report (r : Host.t) : IO.io html_report unit :=
  IO.makedirs "artifacts" ;;;
  IO.print "Generating HTML report..." ;;;
  commits <~ IO.lift (get_commit_history r 10) ;;
  match commits with
  | [] => IO.print "No commits found"
  | _ =>
      let stock_files := get_all_stock_files r in
      match stock_files with
      | [] => IO.print "No stock files found"
      | _ =>
          let tickers := map ticker_of (firstn 20 stock_files) in
          IO.print ("Processing " ++ str_of_nat (List.length tickers)
                    ++ " stocks for charts...") ;;;
          collected <~ IO.lift (collect r commits tickers [] []) ;;
          let all_stocks_data := rank r (fst collected) in
          let all_tickers := map ticker_of stock_files in
          total_stats <~ IO.lift (count_totals r (firstn 2 commits) all_tickers
                                    {| t_gainers := 0; t_losers := 0; t_unchanged := 0 |}) ;;
          IO.write_file output_file
            {| summary := total_stats;
               gallery := firstn 12 all_stocks_data;
               table := firstn 20 all_stocks_data;
               chart_data := snd collected |} ;;;
          IO.print ("HTML report generated: " ++ output_file) ;;;
          IO.print ("Charts created for "
                    ++ str_of_nat (List.length (firstn 12 all_stocks_data)) ++ " stocks") ;;;
          IO.print ("Table includes "
                    ++ str_of_nat (List.length (firstn 20 all_stocks_data)) ++ " stocks")
      end
  end.

Definition main (r : Host.t) : IO.io html_report Z :=
  generate_html_report r ;;; IO.ret 0%Z.

Definition run (r : Host.t) : Z * IO.world html_report :=
  let '(w, res) := main r IO.empty in (IO.exit_status res, w).

End GenerateReport.

(** * Vocabulary of the statements *)

Local Open Scope float_scope.

(** ** Parsed fields *)

(** A line that begins with [Price:] and whose number does not parse. *)
Definition malformed_price_line (line : string) : Prop :=
  PyStr.startswith line "Price:" = true
  /\ PyFloat.float (PyStr.strip (PyStr.replace line "Price:" "")) = Raise ValueError.

(** What [parse_price_file] reads from the file [filepath] at a commit. *)
Definition fields_at (r : Git.repo) (commit_hash filepath : string)
  : result Shared.fields :=
  bind (Shared.get_file_content r commit_hash filepath) Shared.parse_price_file.

(** The object names that [git show] is asked for. *)
Definition object (commit_hash filepath : string) : string :=
  (commit_hash ++ ":" ++ filepath)%string.

(** The output of [git show] decodes for each of the [objects]. *)
Definition readable (r : Git.repo) (objects : list string) : bool :=
  forallb (fun o => match Git.show r o with Git.Undecodable => false | _ => true end)
          objects.

(** Where the timestamp of a history entry comes from: the parsed one when
    there is one and it is not empty, the commit's otherwise. *)
Definition timestamp_source (ts : option string) (commit_ts result : string) : Prop :=
  ((ts = None \/ ts = Some EmptyString) /\ result = commit_ts)
  \/ (exists t, ts = Some t /\ t <> EmptyString /\ result = t).

(** ** The order of binary64 values *)

Module FloatOrder.

Local Open Scope Z_scope.

(** A ord3 whose lexicographic order is the order of the floats. *)
Definition ord3 (x : spec_float) : option (Z * Z * Z) :=
  match x with
  | S754_nan => None
  | S754_infinity true => Some (-2, 0, 0)
  | S754_infinity false => Some (2, 0, 0)
  | S754_zero _ => Some (0, 0, 0)
  | S754_finite true m e => Some (-1, - e, - Zpos m)
  | S754_finite false m e => Some (1, e, Zpos m)
  end.

Definition lexcmp (a b : Z * Z * Z) : comparison :=
  let '(a1, a2, a3) := a in
  let '(b1, b2, b3) := b in
  match a1 ?= b1 with
  | Eq => match a2 ?= b2 with Eq => a3 ?= b3 | c => c end
  | c => c
  end.

Definition lt3 (a b : Z * Z * Z) : Prop :=
  let '(a1, a2, a3) := a in
  let '(b1, b2, b3) := b in
  a1 < b1 \/ (a1 = b1 /\ (a2 < b2 \/ (a2 = b2 /\ a3 < b3))).

End FloatOrder.

Import FloatOrder.

(** ** Ranked lists *)

(** Each item's key is at least the key of every later item. *)
Definition descending {A : Type} (key : A -> float) (l : list A) : Prop :=
  StronglySorted (fun a b => (key b <=? key a) = true) l.

(** The items whose key is equal to [k], in their order in [l]. *)
Definition with_key {A : Type} (key : A -> float) (k : float) (l : list A) : list A :=
  filter (fun x => key x =? k) l.

(** ** Well-formed histories

    [git log] prints hashes that are not empty and hold no white space and
    no bar, and dates that hold no newline and no bar and do not end in
    white space. *)

(** Every character of [s] satisfies [p]. *)
Fixpoint all_chars (p : ascii -> bool) (s : string) : bool :=
  match s with
  | EmptyString => true
  | String c s' => p c && all_chars p s'
  end.

(** [s] does not end in white space. *)
Fixpoint ends_clean (s : string) : bool :=
  match s with
  | EmptyString => true
  | String c EmptyString => negb (PyStr.isspace c)
  | String _ s' => ends_clean s'
  end.



(** No character of [s] is a colon. *)
Definition no_colon (s : string) : bool :=
  all_chars (fun c => negb (Ascii.eqb c ":")) s.




Definition entry_of (c : Git.commit) : GenerateReport.commit_entry :=
  {| GenerateReport.c_hash := Git.hash c; GenerateReport.c_timestamp := Git.author_date c |}.

(** ** Runs *)

(** The world [w] after [print(s)]. *)
Definition printed {artifact : Type} (s : string) (w : IO.world artifact)
  : IO.world artifact :=
  {| IO.console := IO.console w ++ [s]; IO.dirs := IO.dirs w; IO.files := IO.files w |}.



(** The world in which [generate_diff_report] starts. *)
Definition diff_start (argv : list string) : IO.world GenerateDiff.diff_report :=
  match argv with
  | _ :: repo_path :: _ => printed ("Changing to repository: " ++ repo_path) IO.empty
  | _ => IO.empty
  end.

(** The lines that report the counts of the report pipeline. *)
Definition html_counts (rep : GenerateReport.html_report) : list string :=
  [("Charts created for " ++ str_of_nat (List.length (GenerateReport.gallery rep))
    ++ " stocks")%string;
   ("Table includes " ++ str_of_nat (List.length (GenerateReport.table rep))
    ++ " stocks")%string].

(** The report that [generate_html_report] writes from what its two loops
    return. *)
Definition html_of (h : Host.t) (acc : list GenerateReport.stock)
           (d : list (string * GenerateReport.chart)) (t : GenerateReport.totals)
  : GenerateReport.html_report :=
  {| GenerateReport.summary := t;
     GenerateReport.gallery := firstn 12 (GenerateReport.rank h acc);
     GenerateReport.table := firstn 20 (GenerateReport.rank h acc);
     GenerateReport.chart_data := d |}.

(** The tickers that the report pipeline draws its charts from. *)
Definition candidates (r : Git.repo) : list string :=
  map Shared.ticker_of (firstn 20 (Shared.get_all_stock_files r)).

(** The world in which the report pipeline reads its files. *)
Definition html_start (r : Git.repo) (w0 : IO.world GenerateReport.html_report)
  : IO.world GenerateReport.html_report :=
  printed ("Processing " ++ str_of_nat (List.length (candidates r))
           ++ " stocks for charts...")
    (printed "Generating HTML report..." (fst (IO.makedirs "artifacts" w0))).

(** A record of [all_stocks_data] that holds what the history builder and
    the aggregator give for its ticker, with its chart in [chart_data]. *)
Definition collected (r : Git.repo) (commits : list GenerateReport.commit_entry)
           (among : list string) (chart_data : list (string * GenerateReport.chart))
           (s : GenerateReport.stock) : Prop :=
  In (GenerateReport.s_ticker s) among
  /\ GenerateReport.get_price_history r (GenerateReport.s_ticker s) commits
     = Ok (GenerateReport.history s)
  /\ GenerateReport.calculate_statistics (GenerateReport.history s)
     = Ok (Some (GenerateReport.stats s))
  /\ GenerateReport.dict_get (GenerateReport.s_ticker s) chart_data
     = Some (GenerateReport.chart_of (GenerateReport.history s)).

(** Whether the change of directory that the diff script starts with, when
    it has an argument, fails. *)
Definition chdir_fails (argv : list string) (r : Host.t) : bool :=
  match argv with
  | _ :: repo_path :: _ => negb (Host.chdir_ok r repo_path)
  | _ => false
  end.

(** The objects that the diff pipeline asks [git show] for: each stock
    file at the two newest commits. *)
Definition diff_reads (r : Git.repo) : list string :=
  match GenerateDiff.get_last_two_commits r with
  | (Some c, Some p) =>
      if PyStr.truthy c && PyStr.truthy p
      then flat_map (fun f => [object c f; object p f]) (Shared.get_all_stock_files r)
      else []
  | _ => []
  end.

(** The objects that the history builder asks for. *)
Definition history_reads (ticker : string) (commits : list GenerateReport.commit_entry)
  : list string :=
  map (fun c => object (GenerateReport.c_hash c) (ticker ++ ".txt")%string) commits.

(** The objects that the report pipeline asks for: the file of each
    candidate at the sampled commits, and the file of each ticker at the
    two newest of them. *)
Definition report_reads (r : Git.repo) : list string :=
  match GenerateReport.get_commit_history r 10 with
  | Ok commits =>
      flat_map (fun t => history_reads t commits) (candidates r)
      ++ flat_map (fun t => history_reads t (firstn 2 commits))
                  (map Shared.ticker_of (Shared.get_all_stock_files r))
  | Raise _ => []
  end.





(** ** Sample repositories *)

(** A history source answering [git show] from a table of objects. *)
Definition objects (table : list (string * string)) (object : string) : Git.shown :=
  match find (fun f => String.eqb (fst f) object) table with
  | Some f => Git.Stdout (snd f)
  | None => Git.CalledProcessError
  end.

(** A host on which every change of directory succeeds.  Its sort leaves
    a list with a NaN key in input order; that is what CPython returns for
    the one such list among the samples, of the keys 1, NaN and 2. *)
Definition host_of (r : Git.repo) : Host.t :=
  {| Host.repo := r; Host.chdir_ok := fun _ => true; Host.unordered := fun _ => [] |}.

Definition two_commits : list Git.commit :=
  [ {| Git.hash := "c2"; Git.author_date := "2024-01-02 10:00:00 +0000" |};
    {| Git.hash := "c1"; Git.author_date := "2024-01-01 10:00:00 +0000" |} ].

(** A repository whose one ticker file is [data/main.txt], beside a
    top-level [main.txt]. *)
Definition repo_nested_main : Host.t :=
  host_of
  {| Git.rev_parse_ok := true;
     Git.log := two_commits;
     Git.tracked_txt := ["data/main.txt"; "main.txt"];
     Git.show := objects [("c2:data/main.txt", "Price: 7");
                          ("c1:data/main.txt", "Price: 14");
                          ("c2:main.txt", "Price: 3");
                          ("c1:main.txt", "Price: 2")] |}.

(** A ticker file with an [Updated:] line that has no text after it. *)
Definition repo_empty_updated : Host.t :=
  host_of
  {| Git.rev_parse_ok := true;
     Git.log := two_commits;
     Git.tracked_txt := ["AAA.txt"];
     Git.show := objects [("c2:AAA.txt", ("Price: 1" ++ PyStr.nl_s ++ "Updated:")%string)] |}.

Definition change_of_percent (t : string) (pc : float) : GenerateDiff.change :=
  {| GenerateDiff.ticker := t;
     GenerateDiff.previous_price := 100;
     GenerateDiff.current_price := 100 + pc;
     GenerateDiff.price_change := pc;
     GenerateDiff.percent_change := pc;
     GenerateDiff.previous_time := None;
     GenerateDiff.current_time := None |}.

Definition sample_changes : list GenerateDiff.change :=
  [change_of_percent "AAA" 1; change_of_percent "BBB" (-2);
   change_of_percent "CCC" (-1); change_of_percent "DDD" 3].

Definition stock_of_percent (t : string) (pc : float) : GenerateReport.stock :=
  {| GenerateReport.s_ticker := t;
     GenerateReport.stats :=
       {| GenerateReport.current := 100 + pc; GenerateReport.previous := 100;
          GenerateReport.min := 100; GenerateReport.max := 100 + pc;
          GenerateReport.avg := 100; GenerateReport.change := pc;
          GenerateReport.percent_change := pc |};
     GenerateReport.history := [] |}.

Definition sample_stocks : list GenerateReport.stock :=
  [stock_of_percent "AAA" 1; stock_of_percent "BBB" (-2);
   stock_of_percent "CCC" (-1); stock_of_percent "DDD" 3].

(** Three tickers; the price of [BBB] was written as [nan]. *)
Definition repo_nan_price : Host.t :=
  host_of
  {| Git.rev_parse_ok := true;
     Git.log := two_commits;
     Git.tracked_txt := ["AAA.txt"; "BBB.txt"; "CCC.txt"];
     Git.show := objects [("c2:AAA.txt", "Price: 101"); ("c1:AAA.txt", "Price: 100");
                          ("c2:BBB.txt", "Price: nan"); ("c1:BBB.txt", "Price: 50");
                          ("c2:CCC.txt", "Price: 102"); ("c1:CCC.txt", "Price: 100")] |}.

(** Three commits; [AAA] went 80, 90, 100, [BBB] went from 0 to 5 in the
    last commit, and [CCC] exists in the newest commit only. *)
Definition repo_scenarios : Host.t :=
  host_of
  {| Git.rev_parse_ok := true;
     Git.log :=
       [ {| Git.hash := "c3"; Git.author_date := "2024-01-03 10:00:00 +0000" |};
         {| Git.hash := "c2"; Git.author_date := "2024-01-02 10:00:00 +0000" |};
         {| Git.hash := "c1"; Git.author_date := "2024-01-01 10:00:00 +0000" |} ];
     Git.tracked_txt := ["AAA.txt"; "BBB.txt"; "CCC.txt"];
     Git.show := objects [("c3:AAA.txt", "Price: 100"); ("c2:AAA.txt", "Price: 90");
                          ("c1:AAA.txt", "Price: 80");
                          ("c3:BBB.txt", "Price: 5"); ("c2:BBB.txt", "Price: 0");
                          ("c3:CCC.txt", "Price: 42")] |}.




(** The history of [AAA] over the three commits of [repo_scenarios]. *)
Definition sample_history : list GenerateReport.entry :=
  [ {| GenerateReport.timestamp := "2024-01-03 10:00:00 +0000";
       GenerateReport.price := 100 |};
    {| GenerateReport.timestamp := "2024-01-02 10:00:00 +0000";
       GenerateReport.price := 90 |};
    {| GenerateReport.timestamp := "2024-01-01 10:00:00 +0000";
       GenerateReport.price := 80 |} ].

Definition no_report : GenerateReport.html_report :=
  {| GenerateReport.summary :=
       {| GenerateReport.t_gainers := 0; GenerateReport.t_losers := 0;
          GenerateReport.t_unchanged := 0 |};
     GenerateReport.gallery := [];
     GenerateReport.table := [];
     GenerateReport.chart_data := [] |}.

(** The report that a run on [r] writes, [no_report] when it writes none. *)
Definition report_of (r : Host.t) : GenerateReport.html_report :=
  match IO.files (snd (GenerateReport.run r)) with
  | (_, rep) :: _ => rep
  | [] => no_report
  end.

(** ** Vocabulary of the further properties *)

(** How often the character [c] occurs in [s]. *)
Fixpoint count_char (c : ascii) (s : string) : nat :=
  match s with
  | EmptyString => 0
  | String d s' => (if Ascii.eqb d c then 1 else 0) + count_char c s'
  end.

(** The text of the last line of [lines] that begins with [Updated:],
    stripped, or [start] when there is none. *)
Definition last_updated (start : option string) (lines : list string) : option string :=
  last (map (fun l => Some (PyStr.strip (PyStr.replace l "Updated:" "")))
            (filter (fun l => PyStr.startswith l "Updated:") lines))
       start.

(** The records of [changes] whose percent change is a NaN. *)
Definition undefined_changes (changes : list GenerateDiff.change)
  : list GenerateDiff.change :=
  filter (fun c => is_nan (GenerateDiff.percent_change c)) changes.

(** The percent change of the statistics of a ticker over the [commits],
    when it has a price in one of them. *)
Definition percent_of (r : Git.repo) (commits : list GenerateReport.commit_entry)
           (ticker : string) : option float :=
  match bind (GenerateReport.get_price_history r ticker commits)
             GenerateReport.calculate_statistics with
  | Ok (Some st) => Some (GenerateReport.percent_change st)
  | _ => None
  end.

(** How many of the [tickers] have a percent change that satisfies [f]. *)
Definition count_where (f : float -> bool) (r : Git.repo)
           (commits : list GenerateReport.commit_entry) (tickers : list string) : nat :=
  List.length
    (filter (fun t => match percent_of r commits t with
                      | Some pc => f pc
                      | None => false
                      end)
            tickers).

(** Each item's key is at most the key of every later item. *)
Definition ascending {A : Type} (key : A -> float) (l : list A) : Prop :=
  StronglySorted (fun a b => (key a <=? key b) = true) l.

(** The change record of the stock file [f] holds what the two snapshots
    of [f] parse to, and the change computed from the two prices. *)
Definition record_of (r : Git.repo) (current_commit previous_commit f : string)
           (c : GenerateDiff.change) : Prop :=
  GenerateDiff.ticker c = Shared.ticker_of f
  /\ fields_at r current_commit f
     = Ok (Some (GenerateDiff.current_price c), GenerateDiff.current_time c)
  /\ fields_at r previous_commit f
     = Ok (Some (GenerateDiff.previous_price c), GenerateDiff.previous_time c)
  /\ GenerateDiff.price_change c
     = GenerateDiff.current_price c - GenerateDiff.previous_price c
  /\ GenerateDiff.percent_change c
     = (if GenerateDiff.previous_price c =? 0 then 0
        else (GenerateDiff.current_price c - GenerateDiff.previous_price c)
             / GenerateDiff.previous_price c * 100).

(** Whether both snapshots of the stock file [f] have a price. *)
Definition both_priced (r : Git.repo) (current_commit previous_commit f : string) : bool :=
  match fields_at r current_commit f, fields_at r previous_commit f with
  | Ok (Some _, _), Ok (Some _, _) => true
  | _, _ => false
  end.


(** [s] begins with a character that is no white space. *)
Definition starts_clean (s : string) : bool :=
  match s with
  | String c _ => negb (PyStr.isspace c)
  | EmptyString => false
  end.

(** A path that [git ls-files] prints as it is, and that is read back
    from its line as it is: not empty, none of its bytes among those that
    are quoted (the newline is one of them), no white space at either
    end. *)
Definition path_ok (p : string) : bool :=
  starts_clean p
  && all_chars (fun c => negb (Git.must_quote c)) p
  && ends_clean p.

(** A ticker name: no slash and no dot in it. *)
Definition name_ok (t : string) : bool :=
  all_chars (fun c => negb (Ascii.eqb c "/") && negb (Ascii.eqb c ".")) t.

(** The tickers of the change records in what the diff script writes. *)
Definition diff_tickers (argv : list string) (r : Host.t) : list string :=
  flat_map (fun f => map GenerateDiff.ticker (GenerateDiff.detailed (snd f)))
           (IO.files (snd (GenerateDiff.run argv r))).

(** The tickers of the charts, of the table rows and of the chart data in
    what the report script writes. *)
Definition report_tickers (r : Host.t) : list string :=
  flat_map (fun f => map GenerateReport.s_ticker (GenerateReport.gallery (snd f))
                     ++ map GenerateReport.s_ticker (GenerateReport.table (snd f))
                     ++ map fst (GenerateReport.chart_data (snd f)))
           (IO.files (snd (GenerateReport.run r))).

(** * Properties *)

(** ** Paths as [git ls-files] prints them *)

(** A path with a backslash and a path with the two bytes of an accented
    letter are printed between quotes, escaped; a path with a space is
    printed as it is. *)
Example c_quote_samples :
  Git.c_quote "A\B.txt" = (dquote ++ "A\\B.txt" ++ dquote)%string
  /\ Git.c_quote ("caf" ++ String (ascii_of_nat 195) (String (ascii_of_nat 169) ".txt"))
     = (dquote ++ "caf\303\251.txt" ++ dquote)%string
  /\ Git.c_quote "my file.txt" = "my file.txt".
Proof. repeat split. Qed.

(** ** The [float] built-in on sample texts *)

Example float_accepts :
  map PyFloat.float
    ["100"; " 0.1 "; "1_000.5e-2"; "-.5"; "1."; "1e400"; "2.5e-324"; "2.4e-324";
     "9007199254740993"; "-Infinity"; "NaN"; "1E5"]
  = map Ok [100; 0.1; 10.005; -0.5; 1; infinity; 5e-324; 0; 9007199254740992;
            neg_infinity; nan; 100000]%float.
Proof. vm_compute. reflexivity. Qed.

Example float_rejects :
  forallb (fun s => match PyFloat.float s with Raise ValueError => true | _ => false end)
    [""; "."; "1e"; "1_"; "_1"; "1__0"; "1 0"; "abc"; "0x10"; "1e+"; "--1";
     "infinit"; "1._5"; "$5"; "N/A"]
  = true.
Proof. vm_compute. reflexivity. Qed.

(** ** The change calculator *)

Lemma calculate_percentage_change_some (p c : float) :
  GenerateDiff.calculate_percentage_change (Some p) (Some c)
  = Ok (if p =? 0 then 0 else (c - p) / p * 100).
Proof.
  unfold GenerateDiff.calculate_percentage_change, PyNum.truediv.
  destruct (p =? 0); reflexivity.
Qed.

(** C1: [change_of] gives nothing exactly when the previous or the current
    price is missing, and it never raises; on two prices the absolute change
    is [current - previous], and the percent change is zero when
    [previous == 0] and [(current - previous) / previous * 100] otherwise. *)
Theorem change_of_spec :
  (forall previous current : option float,
      GenerateDiff.change_of previous current = Ok None
      <-> previous = None \/ current = None)
  /\ (forall p c : float,
         GenerateDiff.change_of (Some p) (Some c)
         = Ok (Some (c - p, if p =? 0 then 0 else (c - p) / p * 100))).
Proof.
  split.
  - intros [p|] [c|]; unfold GenerateDiff.change_of.
    + rewrite calculate_percentage_change_some. simpl.
      split; [discriminate | intros [H|H]; discriminate].
    + split; auto.
    + split; auto.
    + split; auto.
  - intros p c. unfold GenerateDiff.change_of.
    rewrite calculate_percentage_change_some. reflexivity.
Qed.

(** ** Statistics of the worked example *)

(** C7: a history with prices 100, 90, 80, newest first, has minimum 80,
    maximum 100, average 90, current 100, previous 90, and the percent
    change [(100 - 90) / 90 * 100], which is within 0.005 of 11.11. *)
Theorem calculate_statistics_100_90_80 :
  forall t1 t2 t3 : string,
    exists st,
      GenerateReport.calculate_statistics
        [ {| GenerateReport.timestamp := t1; GenerateReport.price := 100 |};
          {| GenerateReport.timestamp := t2; GenerateReport.price := 90 |};
          {| GenerateReport.timestamp := t3; GenerateReport.price := 80 |} ]
      = Ok (Some st)
      /\ GenerateReport.min st = 80
      /\ GenerateReport.max st = 100
      /\ GenerateReport.avg st = 90
      /\ GenerateReport.current st = 100
      /\ GenerateReport.previous st = 90
      /\ GenerateReport.change st = 10
      /\ GenerateReport.percent_change st = (100 - 90) / 90 * 100
      /\ (abs (GenerateReport.percent_change st - 11.11) <? 0.005) = true.
Proof.
  intros t1 t2 t3. eexists. split.
  - vm_compute. reflexivity.
  - vm_compute. repeat split.
Qed.

(** The same three prices read from three commits, through the history
    builder. *)
Example statistics_of_three_commits :
  exists commits st,
    GenerateReport.get_commit_history repo_scenarios 10 = Ok commits
    /\ bind (GenerateReport.get_price_history repo_scenarios "AAA" commits)
            GenerateReport.calculate_statistics
       = Ok (Some st)
    /\ (GenerateReport.current st, GenerateReport.previous st, GenerateReport.min st,
        GenerateReport.max st, GenerateReport.avg st)
       = (100, 90, 80, 100, 90)
    /\ GenerateReport.percent_change st = (100 - 90) / 90 * 100.
Proof.
  do 2 eexists. split; [reflexivity|]. split; [reflexivity|]. split; reflexivity.
Qed.

(** The diff pipeline on the two newest of these commits: [AAA] moved by
    10 from 90, [BBB] has the zero baseline, and [CCC], absent from the older
    commit, has no record. *)
Example changes_of_two_commits :
  exists rep a b,
    IO.files (snd (GenerateDiff.run [] repo_scenarios)) = [(GenerateDiff.output_file, rep)]
    /\ GenerateDiff.detailed rep = [a; b]
    /\ (GenerateDiff.ticker a, GenerateDiff.previous_price a, GenerateDiff.current_price a,
        GenerateDiff.price_change a, GenerateDiff.percent_change a)
       = ("AAA", 90, 100, 10, (100 - 90) / 90 * 100)
    /\ (GenerateDiff.ticker b, GenerateDiff.previous_price b, GenerateDiff.current_price b,
        GenerateDiff.price_change b, GenerateDiff.percent_change b)
       = ("BBB", 0, 5, 5, 0).
Proof.
  do 3 eexists. split; [vm_compute; reflexivity|]. split; [reflexivity|].
  split; reflexivity.
Qed.

(** ** The field parser *)

Lemma float_raises_ValueError (s : string) (e : exn) :
  PyFloat.float s = Raise e -> e = ValueError.
Proof.
  unfold PyFloat.float.
  destruct (PyFloat.drop_underscores _ _) as [t|]; [destruct (PyFloat.parse t)|];
    congruence.
Qed.

Lemma scan_line_ok (st : Shared.fields) (line : string) :
  exists st', Shared.scan_line st line = Ok st'.
Proof.
  destruct st as [price timestamp]. unfold Shared.scan_line.
  destruct (PyStr.startswith line "Price:").
  - destruct (PyFloat.float _) as [x|e] eqn:E; simpl.
    + eauto.
    + rewrite (float_raises_ValueError _ _ E). simpl. eauto.
  - destruct (PyStr.startswith line "Updated:"); eauto.
Qed.

Lemma scan_lines_ok (lines : list string) :
  forall st, exists st', Shared.scan_lines st lines = Ok st'.
Proof.
  induction lines as [|line rest IH]; intros st; simpl.
  - eauto.
  - destruct (scan_line_ok st line) as [st1 ->]. simpl. apply IH.
Qed.

Lemma parse_price_file_ok (content : option string) :
  exists f, Shared.parse_price_file content = Ok f.
Proof.
  destruct content as [c|]; simpl; [|eauto].
  destruct (PyStr.truthy c); [apply scan_lines_ok | eauto].
Qed.

Lemma scan_lines_app (l1 l2 : list string) :
  forall st,
    Shared.scan_lines st (l1 ++ l2)
    = bind (Shared.scan_lines st l1) (fun st' => Shared.scan_lines st' l2).
Proof.
  induction l1 as [|x l1 IH]; intros st; simpl; [reflexivity|].
  destruct (Shared.scan_line st x); simpl; [apply IH | reflexivity].
Qed.

Lemma scan_line_malformed (st : Shared.fields) (line : string) :
  malformed_price_line line -> Shared.scan_line st line = Ok st.
Proof.
  intros [Hp Hf]. destruct st as [price timestamp].
  unfold Shared.scan_line. rewrite Hp, Hf. reflexivity.
Qed.

Lemma scan_line_other (st : Shared.fields) (line : string) :
  PyStr.startswith line "Price:" = false ->
  PyStr.startswith line "Updated:" = false ->
  Shared.scan_line st line = Ok st.
Proof.
  intros Hp Hu. destruct st as [price timestamp].
  unfold Shared.scan_line. rewrite Hp, Hu. reflexivity.
Qed.

Lemma scan_line_price_kept (st st' : Shared.fields) (line : string) :
  PyStr.startswith line "Price:" = false ->
  Shared.scan_line st line = Ok st' -> fst st' = fst st.
Proof.
  intros Hp. destruct st as [price timestamp].
  unfold Shared.scan_line. rewrite Hp.
  destruct (PyStr.startswith line "Updated:"); intros [= <-]; reflexivity.
Qed.

Lemma scan_lines_price_kept (lines : list string) :
  forall st st',
    (forall l, In l lines -> PyStr.startswith l "Price:" = false) ->
    Shared.scan_lines st lines = Ok st' -> fst st' = fst st.
Proof.
  induction lines as [|x rest IH]; intros st st' Hall; simpl.
  - intros [= <-]. reflexivity.
  - destruct (Shared.scan_line st x) as [st1|] eqn:E; simpl; [|discriminate].
    intros H. rewrite (IH st1 st'); auto.
    + eapply scan_line_price_kept; eauto. apply Hall. now left.
    + intros l Hl. apply Hall. now right.
Qed.

Lemma split_nonempty (sep : ascii) (s : string) : PyStr.split sep s <> [].
Proof.
  destruct s as [|c s]; simpl; [discriminate|].
  destruct (Ascii.eqb c sep); [discriminate|].
  destruct (PyStr.split sep s); discriminate.
Qed.

(** C4, as the code has it: a [Price:] line whose number does not parse is
    passed over.  The parse returns, with the fields that the other lines
    alone give, later lines included; so the price is the one an earlier or
    later well-formed line sets, and it is absent when no other line begins
    with [Price:]. *)
Theorem malformed_price_line_skipped :
  forall (content : string) (pre post : list string) (bad : string),
    PyStr.split PyStr.nl content = pre ++ bad :: post ->
    malformed_price_line bad ->
    exists f,
      Shared.parse_price_file (Some content) = Ok f
      /\ Shared.scan_lines (None, None) (pre ++ post) = Ok f
      /\ ((forall l, In l (pre ++ post) -> PyStr.startswith l "Price:" = false) ->
          fst f = None).
Proof.
  intros content pre post bad Hsplit Hbad.
  assert (Htruthy : PyStr.truthy content = true).
  { destruct content; [|reflexivity]. simpl in Hsplit.
    destruct pre as [|x pre]; simpl in Hsplit.
    - injection Hsplit as <- _. destruct Hbad as [Hp _]. discriminate.
    - injection Hsplit as _ H. destruct pre; discriminate. }
  destruct (scan_lines_ok (pre ++ post) (None, None)) as [f Hf].
  exists f. split; [|split]; auto.
  - simpl. rewrite Htruthy, Hsplit.
    rewrite scan_lines_app in *.
    destruct (Shared.scan_lines (None, None) pre) as [st|]; simpl in *;
      [|discriminate].
    rewrite (scan_line_malformed st bad Hbad). simpl. exact Hf.
  - intros Hall. apply (scan_lines_price_kept _ _ _ Hall Hf).
Qed.

Lemma malformed_price_line_skipped_witness :
  exists f,
    Shared.parse_price_file (Some ("Price: $12" ++ PyStr.nl_s ++ "Updated: today")%string)
    = Ok f
    /\ Shared.scan_lines (None, None) ([] ++ ["Updated: today"]) = Ok f
    /\ ((forall l, In l ([] ++ ["Updated: today"]) -> PyStr.startswith l "Price:" = false) ->
        fst f = None).
Proof.
  apply (malformed_price_line_skipped
           ("Price: $12" ++ PyStr.nl_s ++ "Updated: today")%string
           [] ["Updated: today"] "Price: $12").
  - reflexivity.
  - split; reflexivity.
Defined.

(** C4 as stated fails: the content below has a [Price:] line whose number
    does not parse, and the parsed price is present all the same. *)
Lemma malformed_price_line_price_present :
  let content := ("Price: 5" ++ PyStr.nl_s ++ "Price: abc")%string in
  In "Price: abc" (PyStr.split PyStr.nl content)
  /\ malformed_price_line "Price: abc"
  /\ Shared.parse_price_file (Some content) = Ok (Some 5, None).
Proof.
  repeat split.
  - right. left. reflexivity.
Qed.

(** C5: the text after [Price:] in the line below is [1Price:2], which is
    no number, yet the parse takes the price 12 from it: [replace] removes
    every occurrence of the prefix, not the leading one alone. *)
Theorem price_line_repeated_prefix :
  PyStr.startswith "Price:1Price:2" "Price:" = true
  /\ PyFloat.float (PyStr.strip "1Price:2") = Raise ValueError
  /\ Shared.parse_price_file (Some "Price:1Price:2") = Ok (Some 12, None).
Proof. repeat split. Qed.

(** ** Price lines that hold a number *)

Section ValidPriceLines.

Local Open Scope string_scope.

Lemma no_colon_cons (c : ascii) (s : string) :
  no_colon (String c s) = negb (Ascii.eqb c ":") && no_colon s.
Proof. reflexivity. Qed.

Lemma str_lstrip_no_colon (s : string) :
  no_colon (PyStr.lstrip s) = true -> no_colon s = true.
Proof.
  induction s as [|c s IH]; [auto|]. simpl PyStr.lstrip.
  destruct (PyStr.isspace c) eqn:E; [|auto].
  intros H. rewrite no_colon_cons, (IH H), andb_true_r.
  destruct (Ascii.eqb_spec c ":") as [->|]; [discriminate E | reflexivity].
Qed.

Lemma str_rstrip_no_colon (s : string) :
  no_colon (PyStr.rstrip s) = true -> no_colon s = true.
Proof.
  induction s as [|c s IH]; [auto|]. simpl PyStr.rstrip.
  destruct (PyStr.rstrip s) as [|d r].
  - intros H. rewrite no_colon_cons, (IH eq_refl), andb_true_r.
    destruct (PyStr.isspace c) eqn:E.
    + destruct (Ascii.eqb_spec c ":") as [->|]; [discriminate E | reflexivity].
    + rewrite no_colon_cons in H. now apply andb_true_iff in H.
  - rewrite !no_colon_cons. intros H. apply andb_true_iff in H. destruct H as [Hc H].
    rewrite Hc, (IH H). reflexivity.
Qed.

Lemma float_lstrip_no_colon (s : string) :
  no_colon (PyFloat.lstrip s) = true -> no_colon s = true.
Proof.
  induction s as [|c s IH]; [auto|]. simpl PyFloat.lstrip.
  destruct (PyFloat.isspace c) eqn:E; [|auto].
  intros H. rewrite no_colon_cons, (IH H), andb_true_r.
  destruct (Ascii.eqb_spec c ":") as [->|]; [discriminate E | reflexivity].
Qed.

Lemma float_rstrip_no_colon (s : string) :
  no_colon (PyFloat.rstrip s) = true -> no_colon s = true.
Proof.
  induction s as [|c s IH]; [auto|]. simpl PyFloat.rstrip.
  destruct (PyFloat.rstrip s) as [|d r].
  - intros H. rewrite no_colon_cons, (IH eq_refl), andb_true_r.
    destruct (PyFloat.isspace c) eqn:E.
    + destruct (Ascii.eqb_spec c ":") as [->|]; [discriminate E | reflexivity].
    + rewrite no_colon_cons in H. now apply andb_true_iff in H.
  - rewrite !no_colon_cons. intros H. apply andb_true_iff in H. destruct H as [Hc H].
    rewrite Hc, (IH H). reflexivity.
Qed.

Lemma drop_underscores_no_colon (s : string) :
  forall prev t,
    PyFloat.drop_underscores prev s = Some t -> no_colon t = true -> no_colon s = true.
Proof.
  induction s as [|c s IH]; intros prev t; simpl; [auto|].
  destruct (Ascii.eqb_spec c "_") as [->|Hc].
  - destruct (PyFloat.is_digit prev); [|discriminate].
    intros H Ht. rewrite no_colon_cons. simpl. eauto.
  - destruct (Ascii.eqb prev "_" && negb (PyFloat.is_digit c)); [discriminate|].
    destruct (PyFloat.drop_underscores c s) as [u|] eqn:E; [|discriminate].
    simpl. intros [= <-]. rewrite !no_colon_cons. intros H.
    apply andb_true_iff in H. destruct H as [H1 H2].
    rewrite H1. simpl. eauto.
Qed.

Lemma is_digit_not_colon (c : ascii) :
  PyFloat.is_digit c = true -> negb (Ascii.eqb c ":") = true.
Proof.
  destruct (Ascii.eqb_spec c ":") as [->|]; [discriminate | reflexivity].
Qed.

Lemma digits_no_colon (s : string) :
  forall acc n v k rest,
    PyFloat.digits acc n s = (v, k, rest) -> no_colon rest = true -> no_colon s = true.
Proof.
  induction s as [|c s IH]; intros acc n v k rest; simpl.
  - intros [= _ _ <-]. auto.
  - destruct (PyFloat.is_digit c) eqn:E.
    + intros H Hr. rewrite no_colon_cons, (is_digit_not_colon c E). simpl. eauto.
    + intros [= _ _ <-]. auto.
Qed.

Lemma lower_no_colon (s : string) :
  no_colon (PyFloat.lower_s s) = true -> no_colon s = true.
Proof.
  induction s as [|c s IH]; [auto|]. simpl PyFloat.lower_s.
  rewrite !no_colon_cons. intros H. apply andb_true_iff in H. destruct H as [Hc H].
  rewrite (IH H), andb_true_r.
  destruct (Ascii.eqb_spec c ":") as [->|]; [discriminate Hc | reflexivity].
Qed.

Lemma sign_no_colon (s : string) :
  no_colon (snd (PyFloat.sign s)) = true -> no_colon s = true.
Proof.
  destruct s as [|c s]; [auto|].
  unfold PyFloat.sign.
  destruct (Ascii.eqb_spec c "-") as [->|H1]; [auto|].
  destruct (Ascii.eqb_spec c "+") as [->|H2]; [auto|].
  destruct c as [[] [] [] [] [] [] [] []]; auto; congruence.
Qed.

Lemma exponent_no_colon (s : string) (e : Z) :
  PyFloat.exponent s = Some e -> no_colon s = true.
Proof.
  destruct s as [|c s]; [auto|]. unfold PyFloat.exponent.
  destruct (Ascii.eqb (PyFloat.lower c) "e") eqn:Ec; [|discriminate].
  pose proof (sign_no_colon s) as Hs.
  destruct (PyFloat.sign s) as [neg s1]. simpl in Hs.
  destruct (PyFloat.digits 0 0 s1) as [[v n] rest] eqn:Ed.
  destruct rest; [|discriminate]. intros _.
  rewrite no_colon_cons, Hs by (eapply digits_no_colon; eauto).
  rewrite andb_true_r.
  destruct (Ascii.eqb_spec c ":") as [->|]; [discriminate Ec | reflexivity].
Qed.

Lemma number_no_colon (neg : bool) (s : string) (x : float) :
  PyFloat.number neg s = Some x -> no_colon s = true.
Proof.
  unfold PyFloat.number.
  destruct (PyFloat.digits 0 0 s) as [[i ni] s1] eqn:E1.
  assert (Hs1 : no_colon s1 = true -> no_colon s = true)
    by (eapply digits_no_colon; eauto).
  assert (Hfrac : forall m nf s2,
             match s1 with
             | String "." s1' => PyFloat.digits i 0 s1'
             | _ => (i, 0%Z, s1)
             end = (m, nf, s2) ->
             no_colon s2 = true -> no_colon s1 = true).
  { intros m nf s2. destruct s1 as [|c s1']; [intros [= _ _ <-]; auto|].
    destruct (Ascii.eqb_spec c ".") as [->|Hc].
    - intros Hd H2. rewrite no_colon_cons. simpl. eapply digits_no_colon; eauto.
    - destruct c as [[] [] [] [] [] [] [] []]; try congruence;
        intros [= _ _ <-]; auto. }
  destruct (match s1 with
            | String "." s1' => PyFloat.digits i 0 s1'
            | _ => (i, 0%Z, s1)
            end) as [[m nf] s2] eqn:E2.
  destruct (0 <? ni + nf)%Z; [|discriminate].
  destruct (PyFloat.exponent s2) as [e|] eqn:Ee; [|discriminate].
  intros _. apply Hs1. eapply Hfrac; [reflexivity|].
  eapply exponent_no_colon; eauto.
Qed.

Lemma parse_no_colon (s : string) (x : float) :
  PyFloat.parse s = Some x -> no_colon s = true.
Proof.
  unfold PyFloat.parse. pose proof (sign_no_colon s) as Hs.
  destruct (PyFloat.sign s) as [neg body]. simpl in Hs.
  destruct (String.eqb_spec (PyFloat.lower_s body) "inf") as [E|_].
  { intros _. apply Hs, lower_no_colon. rewrite E. reflexivity. }
  destruct (String.eqb_spec (PyFloat.lower_s body) "infinity") as [E|_].
  { intros _. apply Hs, lower_no_colon. rewrite E. reflexivity. }
  simpl orb. cbv iota.
  destruct (String.eqb_spec (PyFloat.lower_s body) "nan") as [E|_].
  { intros _. apply Hs, lower_no_colon. rewrite E. reflexivity. }
  intros H. apply Hs. eapply number_no_colon; eauto.
Qed.

(** A text that [float] accepts holds no colon. *)
Lemma float_no_colon (s : string) (x : float) :
  PyFloat.float s = Ok x -> no_colon s = true.
Proof.
  unfold PyFloat.float.
  destruct (PyFloat.drop_underscores " " (PyFloat.rstrip (PyFloat.lstrip s)))
    as [t|] eqn:Ed; [|discriminate].
  destruct (PyFloat.parse t) as [y|] eqn:Ep; [|discriminate].
  intros _. apply float_lstrip_no_colon, float_rstrip_no_colon.
  eapply drop_underscores_no_colon; eauto. eapply parse_no_colon; eauto.
Qed.

Lemma prefix_inv (p s : string) :
  String.prefix p s = true -> exists t, s = p ++ t.
Proof.
  revert s. induction p as [|c p IH]; intros s.
  - simpl. eauto.
  - destruct s as [|d s]; simpl; [discriminate|].
    destruct (ascii_dec c d) as [->|]; [|discriminate].
    intros H. destruct (IH s H) as [t ->]. eauto.
Qed.

Lemma replace_no_colon (s : string) :
  no_colon s = true -> PyStr.replace s "Price:" "" = s.
Proof.
  unfold PyStr.replace. induction s as [|c s IH]; [reflexivity|].
  intros H. cbn [PyStr.replace_from].
  destruct (String.prefix "Price:" (String c s)) eqn:E.
  - apply prefix_inv in E. destruct E as [t E]. rewrite E in H. discriminate H.
  - rewrite no_colon_cons in H. apply andb_true_iff in H. destruct H as [_ H].
    rewrite (IH H). reflexivity.
Qed.

Lemma startswith_app (p t : string) : PyStr.startswith (p ++ t) p = true.
Proof.
  unfold PyStr.startswith. induction p as [|c p IH]; simpl.
  - destruct t; reflexivity.
  - destruct (ascii_dec c c); [exact IH | congruence].
Qed.

(** C5, where the code keeps its word: when the text after the prefix is
    a number, the line sets the price to that number. *)
Lemma valid_price_line_recovered (st : Shared.fields) (rest : string) (x : float) :
  PyFloat.float (PyStr.strip rest) = Ok x ->
  Shared.scan_line st ("Price:" ++ rest) = Ok (Some x, snd st).
Proof.
  intros Hx. destruct st as [price timestamp]. unfold Shared.scan_line.
  rewrite startswith_app.
  assert (Hrep : PyStr.replace ("Price:" ++ rest) "Price:" ""
                 = PyStr.replace rest "Price:" "").
  { unfold PyStr.replace. simpl. destruct rest; reflexivity. }
  rewrite Hrep, replace_no_colon.
  - rewrite Hx. reflexivity.
  - apply str_lstrip_no_colon, str_rstrip_no_colon.
    apply (float_no_colon _ _ Hx).
Qed.

End ValidPriceLines.

(** ** Discovery of the stock files *)

Lemma get_all_stock_files_not_main (r : Git.repo) :
  Forall (fun f => f <> "main.txt" /\ f <> EmptyString) (Shared.get_all_stock_files r).
Proof.
  apply Forall_forall. intros f H.
  unfold Shared.get_all_stock_files in H.
  apply filter_In in H. destruct H as [_ H].
  apply andb_true_iff in H. destruct H as [Ht Hm].
  split; intros ->.
  - rewrite String.eqb_refl in Hm. discriminate.
  - discriminate.
Qed.

(** C9 as stated fails: with [data/main.txt] tracked, a path that is not
    [main.txt] and reduces to the ticker [main], the diff report has a
    change record for the ticker [main], and the HTML report has a chart
    for it. *)
Lemma ticker_main_reported :
  Shared.get_all_stock_files repo_nested_main = ["data/main.txt"]
  /\ (exists rep c,
         IO.files (snd (GenerateDiff.run [] repo_nested_main))
         = [(GenerateDiff.output_file, rep)]
         /\ GenerateDiff.detailed rep = [c]
         /\ GenerateDiff.ticker c = "main"
         /\ GenerateDiff.percent_change c = -50)
  /\ (exists rep,
         IO.files (snd (GenerateReport.run repo_nested_main))
         = [(GenerateReport.output_file, rep)]
         /\ map GenerateReport.s_ticker (GenerateReport.gallery rep) = ["main"]
         /\ GenerateReport.dict_get "main" (GenerateReport.chart_data rep)
            = Some {| GenerateReport.labels := ["2024-01-01 10:00"; "2024-01-02 10:00"];
                      GenerateReport.prices := [2; 3] |}).
Proof.
  split; [reflexivity|]. split.
  - do 2 eexists. vm_compute. repeat split.
  - eexists. vm_compute. repeat split.
Qed.

(** ** The history builder *)

Lemma timestamp_or_source (ts : option string) (commit_ts : string) :
  timestamp_source ts commit_ts (GenerateReport.timestamp_or ts commit_ts).
Proof.
  destruct ts as [[|c t]|]; simpl.
  - left. auto.
  - right. exists (String c t). repeat split. discriminate.
  - left. auto.
Qed.

Lemma bind_assoc {A B C : Type} (m : result A) (f : A -> result B) (g : B -> result C) :
  bind (bind m f) g = bind m (fun a => bind (f a) g).
Proof. destruct m; reflexivity. Qed.

(** What [git show] comes to decides whether the fields are read. *)
Lemma fields_at_cases (r : Git.repo) (commit_hash filepath : string) :
  (readable r [object commit_hash filepath] = true
   /\ exists f, fields_at r commit_hash filepath = Ok f)
  \/ (readable r [object commit_hash filepath] = false
      /\ fields_at r commit_hash filepath = Raise UnicodeDecodeError).
Proof.
  unfold fields_at, Shared.get_file_content, readable, object. cbn [forallb].
  destruct (Git.show r (commit_hash ++ ":" ++ filepath)%string) as [c| |]; cbn [bind].
  - left. split; [reflexivity | apply parse_price_file_ok].
  - left. split; [reflexivity | apply parse_price_file_ok].
  - right. split; reflexivity.
Qed.

Lemma get_price_history_cons (r : Git.repo) (ticker : string)
      (commit : GenerateReport.commit_entry) (rest : list GenerateReport.commit_entry) :
  GenerateReport.get_price_history r ticker (commit :: rest)
  = (f <- fields_at r (GenerateReport.c_hash commit) (ticker ++ ".txt")%string ;;
     hs <- GenerateReport.get_price_history r ticker rest ;;
     Ok (match fst f with
         | Some p =>
             {| GenerateReport.timestamp :=
                  GenerateReport.timestamp_or (snd f) (GenerateReport.c_timestamp commit);
                GenerateReport.price := p |} :: hs
         | None => hs
         end)).
Proof. unfold fields_at. rewrite bind_assoc. reflexivity. Qed.

Lemma readable_cons (r : Git.repo) (o : string) (l : list string) :
  readable r (o :: l) = readable r [o] && readable r l.
Proof. unfold readable. cbn [forallb]. rewrite andb_true_r. reflexivity. Qed.

Lemma readable_app (r : Git.repo) (l1 l2 : list string) :
  readable r (l1 ++ l2) = readable r l1 && readable r l2.
Proof. apply forallb_app. Qed.

(** The history builder returns when every file it reads decodes, and
    raises [UnicodeDecodeError] otherwise. *)
Lemma get_price_history_cases (r : Git.repo) (ticker : string)
      (commits : list GenerateReport.commit_entry) :
  (readable r (history_reads ticker commits) = true
   /\ exists h, GenerateReport.get_price_history r ticker commits = Ok h)
  \/ (readable r (history_reads ticker commits) = false
      /\ GenerateReport.get_price_history r ticker commits = Raise UnicodeDecodeError).
Proof.
  induction commits as [|c rest IH]; [left; split; [reflexivity | simpl; eauto]|].
  rewrite get_price_history_cons.
  change (history_reads ticker (c :: rest))
    with (object (GenerateReport.c_hash c) (ticker ++ ".txt")%string
          :: history_reads ticker rest).
  rewrite readable_cons.
  destruct (fields_at_cases r (GenerateReport.c_hash c) (ticker ++ ".txt")%string)
    as [(-> & f & ->)|(-> & ->)]; cbn [bind andb]; [|right; split; reflexivity].
  destruct IH as [(-> & hs & ->)|(-> & ->)]; cbn [bind].
  - left. split; [reflexivity | eauto].
  - right. split; reflexivity.
Qed.

(** Each entry of a history comes from a commit whose file parses to the
    entry's price, with the timestamp of the file or of the commit. *)
Lemma get_price_history_entries (r : Git.repo) (ticker : string)
      (commits : list GenerateReport.commit_entry) :
  forall h,
    GenerateReport.get_price_history r ticker commits = Ok h ->
    Forall
      (fun e =>
         exists commit ts,
           In commit commits
           /\ fields_at r (GenerateReport.c_hash commit) (ticker ++ ".txt")%string
              = Ok (Some (GenerateReport.price e), ts)
           /\ timestamp_source ts (GenerateReport.c_timestamp commit)
                (GenerateReport.timestamp e))
      h.
Proof.
  induction commits as [|commit rest IH]; intros h.
  - intros [= <-]. constructor.
  - rewrite get_price_history_cons.
    destruct (fields_at r (GenerateReport.c_hash commit) (ticker ++ ".txt")%string)
      as [[p ts]|e] eqn:Hf; cbn [bind]; [|discriminate].
    destruct (GenerateReport.get_price_history r ticker rest) as [hs|e] eqn:Hhs;
      cbn [bind]; [|discriminate].
    specialize (IH hs eq_refl).
    assert (Hrest : Forall
         (fun e =>
            exists commit0 ts0,
              In commit0 (commit :: rest)
              /\ fields_at r (GenerateReport.c_hash commit0) (ticker ++ ".txt")%string
                 = Ok (Some (GenerateReport.price e), ts0)
              /\ timestamp_source ts0 (GenerateReport.c_timestamp commit0)
                   (GenerateReport.timestamp e)) hs).
    { eapply Forall_impl; [|exact IH].
      intros e (c0 & ts0 & Hin & H1 & H2). exists c0, ts0. simpl. auto. }
    cbn [fst snd]. destruct p as [p|]; intros [= <-]; [|exact Hrest].
    constructor; [|exact Hrest].
    exists commit, ts. cbn [GenerateReport.price GenerateReport.timestamp].
    split; [now left|]. split; [exact Hf|]. apply timestamp_or_source.
Qed.

(** C10, as the code has it: when every file it reads decodes,
    [get_price_history] returns, and each entry comes from a commit whose
    file parses to the entry's price; its timestamp is the parsed
    [Updated:] text when that is present and not empty, and the commit's
    timestamp otherwise.  When the output of [git show] does not decode for
    one of the files, it raises [UnicodeDecodeError] and has no entry. *)
Theorem get_price_history_timestamps :
  forall (r : Git.repo) (ticker : string) (commits : list GenerateReport.commit_entry),
    if readable r (history_reads ticker commits)
    then
      exists h,
        GenerateReport.get_price_history r ticker commits = Ok h
        /\ Forall
             (fun e =>
                exists commit ts,
                  In commit commits
                  /\ fields_at r (GenerateReport.c_hash commit) (ticker ++ ".txt")%string
                     = Ok (Some (GenerateReport.price e), ts)
                  /\ timestamp_source ts (GenerateReport.c_timestamp commit)
                       (GenerateReport.timestamp e))
             h
    else GenerateReport.get_price_history r ticker commits = Raise UnicodeDecodeError.
Proof.
  intros r ticker commits.
  destruct (get_price_history_cases r ticker commits) as [(-> & h & Hh)|(-> & Hh)];
    [|exact Hh].
  exists h. split; [exact Hh|]. apply get_price_history_entries. exact Hh.
Qed.

(** C10 as stated fails: the file parses to a present timestamp, the empty
    string, and the history entry carries the commit's timestamp instead. *)
Lemma empty_updated_falls_back :
  fields_at repo_empty_updated "c2" "AAA.txt" = Ok (Some 1, Some EmptyString)
  /\ GenerateReport.get_price_history repo_empty_updated "AAA"
       [ {| GenerateReport.c_hash := "c2";
            GenerateReport.c_timestamp := "2024-01-02 10:00:00 +0000" |} ]
     = Ok [ {| GenerateReport.timestamp := "2024-01-02 10:00:00 +0000";
               GenerateReport.price := 1 |} ].
Proof. split; reflexivity. Qed.

(** ** Facts on binary64 arithmetic *)

Lemma finite_nonzero_SF (p : float) :
  is_finite p = true -> (p =? 0) = false ->
  exists s m e, Prim2SF p = S754_finite s m e.
Proof.
  unfold is_finite, is_nan, is_infinity.
  rewrite !eqb_spec, abs_spec.
  change (Prim2SF 0) with (S754_zero false).
  change (Prim2SF infinity) with (S754_infinity false).
  destruct (Prim2SF p) as [s|s| |s m e]; simpl; try discriminate.
  - destruct s; discriminate.
  - eauto.
Qed.

(** For a finite price [p] other than zero, [(p - p) / p * 100 == 0]. *)
Lemma percent_of_equal_prices (p : float) :
  is_finite p = true -> (p =? 0) = false ->
  ((p - p) / p * 100 =? 0) = true.
Proof.
  intros Hf Hz. destruct (finite_nonzero_SF p Hf Hz) as (s & m & e & Hp).
  rewrite eqb_spec, mul_spec, div_spec, sub_spec, Hp.
  change (Prim2SF 0) with (S754_zero false).
  change (Prim2SF 100) with (S754_finite false 7036874417766400 (-46)).
  unfold SF64sub, SFsub. cbv zeta. rewrite Z.sub_diag.
  destruct s; reflexivity.
Qed.

(** ** The history aggregator *)

Lemma percent_guarded (c p : float) :
  (if negb (p =? 0)
   then q <- PyNum.truediv (c - p) p ;; Ok (q * 100)
   else Ok 0)
  = Ok (if p =? 0 then 0 else (c - p) / p * 100).
Proof. unfold PyNum.truediv. destruct (p =? 0); reflexivity. Qed.

(** On a history that is not empty, [calculate_statistics] returns the
    statistics; it does not raise. *)
Lemma calculate_statistics_cons (e : GenerateReport.entry)
      (rest : list GenerateReport.entry) :
  let prices := map GenerateReport.price (e :: rest) in
  let c := GenerateReport.price e in
  let p := match rest with e1 :: _ => GenerateReport.price e1 | [] => c end in
  GenerateReport.calculate_statistics (e :: rest)
  = Ok (Some {| GenerateReport.current := c;
                GenerateReport.previous := p;
                GenerateReport.min := PyNum.min_from c (map GenerateReport.price rest);
                GenerateReport.max := PyNum.max_from c (map GenerateReport.price rest);
                GenerateReport.avg := PyNum.sum prices / PyNum.of_nat (List.length prices);
                GenerateReport.change := c - p;
                GenerateReport.percent_change :=
                  if p =? 0 then 0 else (c - p) / p * 100 |}).
Proof.
  unfold GenerateReport.calculate_statistics. simpl map. cbv iota.
  unfold PyNum.truediv_int. simpl List.length. cbv iota. simpl bind.
  rewrite percent_guarded. simpl bind.
  destruct rest; reflexivity.
Qed.

Lemma calculate_statistics_ok (history : list GenerateReport.entry) :
  exists st, GenerateReport.calculate_statistics history = Ok st.
Proof.
  destruct history as [|e rest]; [exists None; reflexivity|].
  rewrite calculate_statistics_cons. eauto.
Qed.

(** The history is empty exactly when no sampled commit has a price for
    the ticker. *)
Lemma get_price_history_nil (r : Git.repo) (ticker : string)
      (commits : list GenerateReport.commit_entry) :
  GenerateReport.get_price_history r ticker commits = Ok []
  <-> Forall (fun c =>
                exists ts,
                  fields_at r (GenerateReport.c_hash c) (ticker ++ ".txt")%string
                  = Ok (None, ts))
             commits.
Proof.
  induction commits as [|c rest IH].
  - split; [constructor | reflexivity].
  - rewrite get_price_history_cons.
    destruct (fields_at r (GenerateReport.c_hash c) (ticker ++ ".txt")%string)
      as [[p ts]|e] eqn:Hf; cbn [bind].
    2:{ split; [discriminate|]. intros H. inversion H as [|? ? [ts' Hts] _]. congruence. }
    destruct (GenerateReport.get_price_history r ticker rest) as [hs|e] eqn:Hhs;
      cbn [bind fst].
    2:{ split; [discriminate|]. intros H. inversion H as [|? ? _ Hrest]; subst.
        apply IH in Hrest. congruence. }
    destruct p as [p|]; split.
    + discriminate.
    + intros H. inversion H as [|? ? [ts' Hts] _]; subst. congruence.
    + intros H. constructor; [eauto | apply IH; exact H].
    + intros H. inversion H; subst. apply IH. assumption.
Qed.

(** C2, as the code has it: [calculate_statistics] gives nothing exactly
    when the history, the sequence of the entries with a price, is empty,
    which is when no sampled commit has a price for the ticker; on a
    history of one entry the previous price is the current one, and when
    that price is finite the percent change is equal to zero. *)
Theorem calculate_statistics_absent_or_single :
  (forall history : list GenerateReport.entry,
      GenerateReport.calculate_statistics history = Ok None <-> history = [])
  /\ (forall (r : Git.repo) (ticker : string) (commits : list GenerateReport.commit_entry),
         bind (GenerateReport.get_price_history r ticker commits)
              GenerateReport.calculate_statistics = Ok None
         <-> Forall (fun c =>
                       exists ts,
                         fields_at r (GenerateReport.c_hash c) (ticker ++ ".txt")%string
                         = Ok (None, ts))
                    commits)
  /\ (forall e : GenerateReport.entry,
         is_finite (GenerateReport.price e) = true ->
         exists st,
           GenerateReport.calculate_statistics [e] = Ok (Some st)
           /\ GenerateReport.current st = GenerateReport.price e
           /\ GenerateReport.previous st = GenerateReport.current st
           /\ (GenerateReport.previous st =? GenerateReport.current st) = true
           /\ (GenerateReport.percent_change st =? 0) = true).
Proof.
  assert (Hnil : forall history : list GenerateReport.entry,
             GenerateReport.calculate_statistics history = Ok None <-> history = []).
  { intros [|e rest]; split; try reflexivity; try discriminate.
    rewrite calculate_statistics_cons. discriminate. }
  split; [exact Hnil|]. split.
  - intros r ticker commits. rewrite <- get_price_history_nil.
    destruct (GenerateReport.get_price_history r ticker commits) as [h|e]; cbn [bind].
    + rewrite Hnil. split; congruence.
    + split; discriminate.
  - intros e Hfin. rewrite calculate_statistics_cons. eexists.
    split; [reflexivity|]. simpl.
    repeat split.
    + unfold is_finite, is_nan in Hfin.
      destruct (GenerateReport.price e =? GenerateReport.price e);
        [reflexivity | discriminate].
    + destruct (GenerateReport.price e =? 0) eqn:Hz; [reflexivity|].
      apply percent_of_equal_prices; assumption.
Qed.

Lemma calculate_statistics_absent_or_single_witness :
  exists st,
    GenerateReport.calculate_statistics
      [ {| GenerateReport.timestamp := "2024-01-02 10:00"; GenerateReport.price := 5 |} ]
    = Ok (Some st)
    /\ GenerateReport.current st = 5
    /\ GenerateReport.previous st = GenerateReport.current st
    /\ (GenerateReport.previous st =? GenerateReport.current st) = true
    /\ (GenerateReport.percent_change st =? 0) = true.
Proof.
  apply (proj2 (proj2 calculate_statistics_absent_or_single)
           {| GenerateReport.timestamp := "2024-01-02 10:00"; GenerateReport.price := 5 |}).
  reflexivity.
Defined.

(** C2 as stated fails: the one-entry history parsed from [Price: inf] has
    a percent change that is not a number, so it is not equal to zero. *)
Lemma infinite_single_price_percent_nan :
  Shared.parse_price_file (Some "Price: inf") = Ok (Some infinity, None)
  /\ exists st,
      GenerateReport.calculate_statistics
        [ {| GenerateReport.timestamp := "2024-01-02 10:00";
             GenerateReport.price := infinity |} ]
      = Ok (Some st)
      /\ GenerateReport.percent_change st = nan
      /\ (GenerateReport.percent_change st =? 0) = false.
Proof.
  split; [reflexivity|]. eexists. split; [reflexivity|]. split; reflexivity.
Qed.

(** ** Comparisons of binary64 values *)

Section Lexicographic.

Local Open Scope Z_scope.

Lemma SFcompare_ord3 (x y : spec_float) :
  SFcompare x y
  = match ord3 x, ord3 y with
    | Some a, Some b => Some (lexcmp a b)
    | _, _ => None
    end.
Proof.
  destruct x as [sx|sx| |sx mx ex], y as [sy|sy| |sy my ey];
    try destruct sx; try destruct sy; try reflexivity.
  simpl. rewrite Z.compare_opp, (Z.compare_antisym ex ey).
  destruct (ex ?= ey); reflexivity.
Qed.

Lemma lexcmp_spec (a b : Z * Z * Z) :
  match lexcmp a b with
  | Lt => lt3 a b
  | Eq => a = b
  | Gt => lt3 b a
  end.
Proof.
  destruct a as [[a1 a2] a3], b as [[b1 b2] b3]. unfold lexcmp, lt3.
  destruct (Z.compare_spec a1 b1); [|lia|lia].
  destruct (Z.compare_spec a2 b2); [|lia|lia].
  destruct (Z.compare_spec a3 b3); [subst; reflexivity|lia|lia].
Qed.

Lemma lt3_irrefl a : ~ lt3 a a.
Proof. destruct a as [[a1 a2] a3]. unfold lt3. lia. Qed.

Lemma lt3_trans a b c : lt3 a b -> lt3 b c -> lt3 a c.
Proof.
  destruct a as [[a1 a2] a3], b as [[b1 b2] b3], c as [[c1 c2] c3].
  unfold lt3. lia.
Qed.

Lemma lexcmp_refl (r : Z * Z * Z) : lexcmp r r = Eq.
Proof.
  pose proof (lexcmp_spec r r) as H.
  destruct (lexcmp r r); auto; exfalso; eapply lt3_irrefl; eauto.
Qed.

End Lexicographic.

Lemma ltb_ord3 (a b : float) :
  (a <? b) = true <->
  exists ra rb, ord3 (Prim2SF a) = Some ra /\ ord3 (Prim2SF b) = Some rb /\ lt3 ra rb.
Proof.
  rewrite ltb_spec. unfold SFltb. rewrite SFcompare_ord3.
  destruct (ord3 (Prim2SF a)) as [ra|], (ord3 (Prim2SF b)) as [rb|];
    try (split; [discriminate | intros (x & y & H1 & H2 & _); discriminate]).
  pose proof (lexcmp_spec ra rb) as H.
  destruct (lexcmp ra rb); split; try discriminate; eauto;
    intros (x & y & [= <-] & [= <-] & Hlt); try reflexivity; exfalso.
  - subst. eapply lt3_irrefl; eauto.
  - eapply lt3_irrefl. eapply lt3_trans; eauto.
Qed.

Lemma leb_ord3 (a b : float) :
  (a <=? b) = true <->
  exists ra rb, ord3 (Prim2SF a) = Some ra /\ ord3 (Prim2SF b) = Some rb
                /\ (lt3 ra rb \/ ra = rb).
Proof.
  rewrite leb_spec. unfold SFleb. rewrite SFcompare_ord3.
  destruct (ord3 (Prim2SF a)) as [ra|], (ord3 (Prim2SF b)) as [rb|];
    try (split; [discriminate | intros (x & y & H1 & H2 & _); discriminate]).
  pose proof (lexcmp_spec ra rb) as H.
  destruct (lexcmp ra rb); split; try discriminate; eauto 6;
    intros (x & y & [= <-] & [= <-] & [Hlt|Heq]); try reflexivity; exfalso.
  - eapply lt3_irrefl. eapply lt3_trans; eauto.
  - subst. eapply lt3_irrefl; eauto.
Qed.

Lemma eqb_ord3 (a b : float) :
  (a =? b) = true <->
  exists ra, ord3 (Prim2SF a) = Some ra /\ ord3 (Prim2SF b) = Some ra.
Proof.
  rewrite eqb_spec. unfold SFeqb. rewrite SFcompare_ord3.
  destruct (ord3 (Prim2SF a)) as [ra|], (ord3 (Prim2SF b)) as [rb|];
    try (split; [discriminate | intros (x & H1 & H2); discriminate]).
  pose proof (lexcmp_spec ra rb) as H.
  destruct (lexcmp ra rb); split; try discriminate; subst; eauto;
    intros (x & [= <-] & [= <-]); exfalso; eapply lt3_irrefl; eauto.
Qed.

Lemma not_nan_ord3 (a : float) :
  is_nan a = false <-> exists ra, ord3 (Prim2SF a) = Some ra.
Proof.
  unfold is_nan. rewrite negb_false_iff, eqb_ord3.
  split; intros (ra & H); eauto. destruct H. eauto.
Qed.

Lemma ltb_false_leb (a b : float) :
  is_nan a = false -> is_nan b = false -> (a <? b) = false -> (b <=? a) = true.
Proof.
  intros Ha Hb Hlt.
  apply not_nan_ord3 in Ha. destruct Ha as [ra Ha].
  apply not_nan_ord3 in Hb. destruct Hb as [rb Hb].
  apply leb_ord3. exists rb, ra. repeat split; auto.
  pose proof (lexcmp_spec ra rb) as H.
  destruct (lexcmp ra rb) eqn:E; auto.
  exfalso. assert ((a <? b) = true); [|congruence].
  apply ltb_ord3. eauto.
Qed.

Lemma ltb_leb (a b : float) : (a <? b) = true -> (a <=? b) = true.
Proof.
  intros H. apply ltb_ord3 in H. destruct H as (ra & rb & Ha & Hb & Hlt).
  apply leb_ord3. eauto 6.
Qed.

Lemma leb_trans (a b c : float) :
  (a <=? b) = true -> (b <=? c) = true -> (a <=? c) = true.
Proof.
  intros H1 H2.
  apply leb_ord3 in H1. destruct H1 as (ra & rb & Ha & Hb & H1).
  apply leb_ord3 in H2. destruct H2 as (rb' & rc & Hb' & Hc & H2).
  rewrite Hb in Hb'. injection Hb' as <-.
  apply leb_ord3. exists ra, rc. repeat split; auto.
  destruct H1 as [H1| ->], H2 as [H2| <-]; auto.
  left. eapply lt3_trans; eauto.
Qed.

Lemma eqb_eqb_ltb (a b k : float) :
  (a =? k) = true -> (b =? k) = true -> (a <? b) = false.
Proof.
  intros H1 H2.
  apply eqb_ord3 in H1. destruct H1 as (r1 & Ha & Hk).
  apply eqb_ord3 in H2. destruct H2 as (r2 & Hb & Hk').
  rewrite Hk in Hk'. injection Hk' as <-.
  destruct (a <? b) eqn:E; [|reflexivity].
  apply ltb_ord3 in E. destruct E as (ra & rb & Ha' & Hb' & Hlt).
  rewrite Ha in Ha'. rewrite Hb in Hb'.
  injection Ha' as <-. injection Hb' as <-.
  exfalso. eapply lt3_irrefl; eauto.
Qed.

Lemma is_nan_abs (a : float) : is_nan (abs a) = is_nan a.
Proof.
  unfold is_nan. rewrite !eqb_spec, abs_spec. f_equal.
  unfold SFeqb. rewrite !SFcompare_ord3.
  destruct (Prim2SF a) as [s|s| |s m e]; try destruct s;
    cbn [ord3 SFabs]; rewrite ?lexcmp_refl; reflexivity.
Qed.

(** ** The ranking sort *)

Section SortFacts.

Context {A : Type}.
Variable unordered : list float -> list nat.
Variable key : A -> float.

Lemma insert_reverse_perm (x : A) (l : list A) :
  Permutation (x :: l) (PyList.insert_reverse key x l).
Proof.
  induction l as [|y ys IH]; simpl; [reflexivity|].
  destruct (key x <? key y); [|reflexivity].
  rewrite perm_swap. constructor. exact IH.
Qed.

Lemma sort_ordered_perm (l : list A) :
  Permutation l (PyList.sort_ordered key l).
Proof.
  induction l as [|x xs IH]; simpl; [reflexivity|].
  rewrite <- insert_reverse_perm. constructor. exact IH.
Qed.

Lemma exchange_perm (i : nat) (l : list A) : Permutation l (PyList.exchange i l).
Proof.
  revert l. induction i as [|j IH]; intros l.
  - destruct l as [|x [|y rest]]; simpl; try reflexivity. apply perm_swap.
  - destruct l as [|x rest]; simpl; [reflexivity|]. constructor. apply IH.
Qed.

Lemma arrange_perm (exchanges : list nat) (l : list A) :
  Permutation l (PyList.arrange exchanges l).
Proof.
  unfold PyList.arrange. revert l.
  induction exchanges as [|i rest IH]; intros l; simpl; [reflexivity|].
  rewrite <- IH. apply exchange_perm.
Qed.

(** Whatever the keys, the sorted list is an arrangement of the list. *)
Lemma sort_reverse_perm (l : list A) :
  Permutation l (PyList.sort_reverse unordered key l).
Proof.
  unfold PyList.sort_reverse.
  destruct (forallb _ l); [apply sort_ordered_perm | apply arrange_perm].
Qed.

(** Without a NaN among the keys the sort is the insertion sort. *)
Lemma sort_reverse_ordered (l : list A) :
  Forall (fun y => is_nan (key y) = false) l ->
  PyList.sort_reverse unordered key l = PyList.sort_ordered key l.
Proof.
  intros H. unfold PyList.sort_reverse.
  replace (forallb (fun x => negb (is_nan (key x))) l) with true; [reflexivity|].
  symmetry. apply forallb_forall. intros x Hx.
  rewrite Forall_forall in H. now rewrite (H x Hx).
Qed.

Lemma insert_reverse_descending (x : A) (l : list A) :
  is_nan (key x) = false ->
  Forall (fun y => is_nan (key y) = false) l ->
  descending key l -> descending key (PyList.insert_reverse key x l).
Proof.
  intros Hx Hl Hs. induction Hs as [|y ys Hys IH Hy]; simpl.
  - repeat constructor.
  - inversion Hl as [|? ? Hny Hnys]; subst.
    destruct (key x <? key y) eqn:E.
    + constructor; [apply IH; assumption|].
      apply (Permutation_Forall (insert_reverse_perm x ys)).
      constructor; [apply ltb_leb; exact E | exact Hy].
    + assert (Hyx : (key y <=? key x) = true) by (apply ltb_false_leb; assumption).
      constructor; [constructor; assumption|].
      constructor; [exact Hyx|].
      eapply Forall_impl; [|exact Hy].
      intros z Hz. simpl in Hz. eapply leb_trans; eassumption.
Qed.

Lemma sort_ordered_descending (l : list A) :
  Forall (fun y => is_nan (key y) = false) l ->
  descending key (PyList.sort_ordered key l).
Proof.
  induction l as [|x xs IH]; simpl; intros H.
  - constructor.
  - inversion H; subst. apply insert_reverse_descending; auto.
    apply (Permutation_Forall (sort_ordered_perm xs)). assumption.
Qed.

Lemma sort_reverse_descending (l : list A) :
  Forall (fun y => is_nan (key y) = false) l ->
  descending key (PyList.sort_reverse unordered key l).
Proof.
  intros H. rewrite (sort_reverse_ordered l H). apply sort_ordered_descending, H.
Qed.

Lemma insert_reverse_with_key (k : float) (x : A) (l : list A) :
  with_key key k (PyList.insert_reverse key x l) = with_key key k (x :: l).
Proof.
  unfold with_key. induction l as [|y ys IH]; [reflexivity|].
  simpl PyList.insert_reverse. destruct (key x <? key y) eqn:E; [|reflexivity].
  simpl in *. rewrite IH.
  destruct (key x =? k) eqn:Ex, (key y =? k) eqn:Ey; try reflexivity.
  rewrite (eqb_eqb_ltb _ _ _ Ex Ey) in E. discriminate.
Qed.

Lemma sort_ordered_stable (k : float) (l : list A) :
  with_key key k (PyList.sort_ordered key l) = with_key key k l.
Proof.
  induction l as [|x xs IH]; [reflexivity|].
  simpl PyList.sort_ordered. rewrite insert_reverse_with_key.
  unfold with_key in *. simpl. rewrite IH. reflexivity.
Qed.

(** Without a NaN among the keys the sort is stable. *)
Lemma sort_reverse_stable (k : float) (l : list A) :
  Forall (fun y => is_nan (key y) = false) l ->
  with_key key k (PyList.sort_reverse unordered key l) = with_key key k l.
Proof.
  intros H. rewrite (sort_reverse_ordered l H). apply sort_ordered_stable.
Qed.

End SortFacts.

Lemma StronglySorted_related {A : Type} (R : A -> A -> Prop) (l : list A) (x y : A) :
  StronglySorted R l -> In x l -> In y l -> x = y \/ R x y \/ R y x.
Proof.
  induction 1 as [|z l Hs IH Hall]; simpl; [contradiction|].
  rewrite Forall_forall in Hall.
  intros [->|Hx] [->|Hy]; auto.
Qed.

(** C6, as the code has it: when no percent change is a NaN, the ranking
    sort of either pipeline permutes the records into descending order of
    absolute percent change, and it is stable: the records of any one
    absolute percent change keep their input order.  This holds on every
    host. *)
Theorem rank_descending_stable :
  forall (h : Host.t) (changes : list GenerateDiff.change)
         (stocks : list GenerateReport.stock),
    Forall (fun c => is_nan (GenerateDiff.percent_change c) = false) changes ->
    Forall (fun s => is_nan (GenerateReport.percent_change (GenerateReport.stats s)) = false)
           stocks ->
    (Permutation changes (GenerateDiff.rank h changes)
     /\ descending GenerateDiff.abs_percent (GenerateDiff.rank h changes)
     /\ forall k, with_key GenerateDiff.abs_percent k (GenerateDiff.rank h changes)
                  = with_key GenerateDiff.abs_percent k changes)
    /\ (Permutation stocks (GenerateReport.rank h stocks)
        /\ descending GenerateReport.abs_percent (GenerateReport.rank h stocks)
        /\ forall k, with_key GenerateReport.abs_percent k (GenerateReport.rank h stocks)
                     = with_key GenerateReport.abs_percent k stocks).
Proof.
  intros h changes stocks Hc Hs.
  assert (Hc' : Forall (fun c => is_nan (GenerateDiff.abs_percent c) = false) changes).
  { eapply Forall_impl; [|exact Hc].
    intros c H. unfold GenerateDiff.abs_percent. now rewrite is_nan_abs. }
  assert (Hs' : Forall (fun s => is_nan (GenerateReport.abs_percent s) = false) stocks).
  { eapply Forall_impl; [|exact Hs].
    intros s H. unfold GenerateReport.abs_percent. now rewrite is_nan_abs. }
  split; (split; [|split]).
  - apply sort_reverse_perm.
  - apply sort_reverse_descending, Hc'.
  - intros k. apply sort_reverse_stable, Hc'.
  - apply sort_reverse_perm.
  - apply sort_reverse_descending, Hs'.
  - intros k. apply sort_reverse_stable, Hs'.
Qed.

Lemma rank_descending_stable_witness :
  (Permutation sample_changes (GenerateDiff.rank repo_scenarios sample_changes)
   /\ descending GenerateDiff.abs_percent (GenerateDiff.rank repo_scenarios sample_changes)
   /\ forall k, with_key GenerateDiff.abs_percent k
                  (GenerateDiff.rank repo_scenarios sample_changes)
                = with_key GenerateDiff.abs_percent k sample_changes)
  /\ (Permutation sample_stocks (GenerateReport.rank repo_scenarios sample_stocks)
      /\ descending GenerateReport.abs_percent
           (GenerateReport.rank repo_scenarios sample_stocks)
      /\ forall k, with_key GenerateReport.abs_percent k
                     (GenerateReport.rank repo_scenarios sample_stocks)
                   = with_key GenerateReport.abs_percent k sample_stocks).
Proof.
  apply (rank_descending_stable repo_scenarios sample_changes sample_stocks).
  - repeat constructor.
  - repeat constructor.
Defined.

(** The two records of an absolute percent change of 1 keep their input
    order: [AAA], which gained, stays ahead of [CCC], which lost. *)
Example rank_sample :
  forall h : Host.t,
    map GenerateDiff.ticker (GenerateDiff.rank h sample_changes)
    = ["DDD"; "BBB"; "AAA"; "CCC"].
Proof. intros h. reflexivity. Qed.

(** C6 as stated fails: a price that reads [nan] gives a percent change
    that no order compares.  The list of the three records of the report
    has the 1 percent mover ahead of the 2 percent mover; and on no host
    is it in descending order, since no arrangement of the three records
    is. *)
Lemma rank_with_nan_not_descending :
  exists rep a b c,
    IO.files (snd (GenerateDiff.run [] repo_nan_price)) = [(GenerateDiff.output_file, rep)]
    /\ GenerateDiff.detailed rep = [a; b; c]
    /\ map GenerateDiff.ticker [a; b; c] = ["AAA"; "BBB"; "CCC"]
    /\ map GenerateDiff.abs_percent [a; b; c] = [1; nan; 2]
    /\ (GenerateDiff.abs_percent c <=? GenerateDiff.abs_percent a) = false
    /\ forall (h : Host.t) (l : list GenerateDiff.change),
        l = GenerateDiff.rank h [a; b; c] \/ Permutation [a; b; c] l ->
        ~ descending GenerateDiff.abs_percent l.
Proof.
  do 4 eexists.
  split; [vm_compute; reflexivity|]. split; [reflexivity|].
  split; [reflexivity|]. split; [reflexivity|]. split; [reflexivity|].
  intros h l Hl Hd.
  assert (Hp : Permutation
                 [ {| GenerateDiff.ticker := "AAA"; GenerateDiff.previous_price := 100;
                      GenerateDiff.current_price := 101; GenerateDiff.price_change := 1;
                      GenerateDiff.percent_change := 1;
                      GenerateDiff.previous_time := None;
                      GenerateDiff.current_time := None |};
                   {| GenerateDiff.ticker := "BBB"; GenerateDiff.previous_price := 50;
                      GenerateDiff.current_price := nan; GenerateDiff.price_change := nan;
                      GenerateDiff.percent_change := nan;
                      GenerateDiff.previous_time := None;
                      GenerateDiff.current_time := None |};
                   {| GenerateDiff.ticker := "CCC"; GenerateDiff.previous_price := 100;
                      GenerateDiff.current_price := 102; GenerateDiff.price_change := 2;
                      GenerateDiff.percent_change := 2;
                      GenerateDiff.previous_time := None;
                      GenerateDiff.current_time := None |} ] l).
  { destruct Hl as [->|Hp]; [apply sort_reverse_perm | exact Hp]. }
  match type of Hp with Permutation [?a; ?b; _] _ =>
    destruct (StronglySorted_related _ l a b Hd) as [E|[H|H]] end.
  - apply (Permutation_in _ Hp). simpl. auto.
  - apply (Permutation_in _ Hp). simpl. auto.
  - discriminate E.
  - vm_compute in H. discriminate H.
  - vm_compute in H. discriminate H.
Qed.

(** ** Splitting and stripping well-formed texts *)

Section Texts.

Local Open Scope string_scope.

Lemma split_without (sep : ascii) (s : string) :
  all_chars (fun c => negb (Ascii.eqb c sep)) s = true -> PyStr.split sep s = [s].
Proof.
  induction s as [|c s IH]; simpl; [reflexivity|].
  intros H. apply andb_true_iff in H. destruct H as [Hc Hs].
  apply negb_true_iff in Hc. rewrite Hc, (IH Hs). reflexivity.
Qed.

Lemma split_app (sep : ascii) (a b : string) :
  all_chars (fun c => negb (Ascii.eqb c sep)) a = true ->
  PyStr.split sep (a ++ String sep b) = a :: PyStr.split sep b.
Proof.
  induction a as [|c a IH]; simpl.
  - intros _. rewrite Ascii.eqb_refl. reflexivity.
  - intros H. apply andb_true_iff in H. destruct H as [Hc Hs].
    apply negb_true_iff in Hc. rewrite Hc, (IH Hs). reflexivity.
Qed.

Lemma rstrip_ends_clean (s : string) : ends_clean s = true -> PyStr.rstrip s = s.
Proof.
  induction s as [|c s IH]; [reflexivity|].
  intros H. simpl. destruct s as [|d t].
  - simpl in *. apply negb_true_iff in H. rewrite H. reflexivity.
  - rewrite IH by exact H. reflexivity.
Qed.

Lemma ends_clean_app (a b : string) :
  b <> EmptyString -> ends_clean (a ++ b) = ends_clean b.
Proof.
  intros Hb. induction a as [|c a IH]; [reflexivity|].
  simpl. rewrite <- IH. destruct (a ++ b) eqn:E; [|reflexivity].
  destruct a; simpl in E; [contradiction | discriminate].
Qed.

Lemma ends_clean_cons (c : ascii) (s : string) :
  s <> EmptyString -> ends_clean (String c s) = ends_clean s.
Proof. destruct s; [contradiction | reflexivity]. Qed.

Lemma all_chars_impl (p q : ascii -> bool) (s : string) :
  (forall c, p c = true -> q c = true) -> all_chars p s = true -> all_chars q s = true.
Proof.
  intros Hpq. induction s as [|c s IH]; simpl; [reflexivity|].
  intros H. apply andb_true_iff in H. destruct H as [Hc Hs].
  rewrite (Hpq _ Hc), (IH Hs). reflexivity.
Qed.

Lemma all_chars_app (p : ascii -> bool) (a b : string) :
  all_chars p (a ++ b) = all_chars p a && all_chars p b.
Proof.
  induction a as [|c a IH]; simpl; [reflexivity|]. rewrite IH. apply andb_assoc.
Qed.






Lemma join_cons (x y : string) (l : list string) :
  PyStr.join PyStr.nl_s (x :: y :: l)
  = (x ++ String PyStr.nl (PyStr.join PyStr.nl_s (y :: l)))%string.
Proof. reflexivity. Qed.

Lemma split_join (l : list string) :
  l <> [] ->
  Forall (fun s => all_chars (fun c => negb (Ascii.eqb c PyStr.nl)) s = true) l ->
  PyStr.split PyStr.nl (PyStr.join PyStr.nl_s l) = l.
Proof.
  induction l as [|x [|y l] IH]; intros Hne Hall; [contradiction| |].
  - inversion Hall; subst. simpl. apply split_without. assumption.
  - inversion Hall; subst. rewrite join_cons, split_app by assumption.
    rewrite IH; [reflexivity | discriminate | assumption].
Qed.

Lemma join_nonempty (x : string) (l : list string) :
  x <> EmptyString -> PyStr.join PyStr.nl_s (x :: l) <> EmptyString.
Proof.
  intros Hx. destruct l; [exact Hx|]. rewrite join_cons.
  destruct x; [contradiction | discriminate].
Qed.

Lemma ends_clean_join (l : list string) :
  Forall (fun s => s <> EmptyString /\ ends_clean s = true) l ->
  ends_clean (PyStr.join PyStr.nl_s l) = true.
Proof.
  induction l as [|x [|y l] IH]; intros Hall; [reflexivity| |].
  - inversion Hall; subst. simpl. tauto.
  - inversion Hall as [|? ? Hx Hrest]; subst. rewrite join_cons.
    rewrite ends_clean_app by discriminate.
    specialize (IH Hrest). inversion Hrest as [|? ? [Hy _] _]; subst.
    pose proof (join_nonempty y l Hy) as Hne.
    rewrite ends_clean_cons by exact Hne. exact IH.
Qed.

Lemma In_firstn {A : Type} (n : nat) (l : list A) (x : A) :
  In x (firstn n l) -> In x l.
Proof.
  intros H. rewrite <- (firstn_skipn n l). apply in_or_app. now left.
Qed.

(** ** What [git log] is read back as *)







End Texts.

(** ** Steps of a run *)

Section Steps.

Context {artifact : Type}.
Implicit Types (w : IO.world artifact).

Lemma iobind_print {B} (s : string) (k : unit -> IO.io artifact B) w :
  IO.iobind (IO.print s) k w = k tt (printed s w).
Proof. reflexivity. Qed.

Lemma iobind_lift_ok {A B} (a : A) (k : A -> IO.io artifact B) w :
  IO.iobind (IO.lift (Ok a)) k w = k a w.
Proof. reflexivity. Qed.

Lemma iobind_ret {A B} (a : A) (k : A -> IO.io artifact B) w :
  IO.iobind (IO.ret a) k w = k a w.
Proof. reflexivity. Qed.

Lemma iobind_makedirs {B} (d : string) (k : unit -> IO.io artifact B) w :
  IO.iobind (IO.makedirs d) k w = k tt (fst (IO.makedirs d w)).
Proof. reflexivity. Qed.

Lemma iobind_write_file {B} (p : string) (a : artifact) (k : unit -> IO.io artifact B) w :
  IO.iobind (IO.write_file p a) k w = k tt (fst (IO.write_file p a w)).
Proof. reflexivity. Qed.

Lemma iobind_assoc {A B C} (m : IO.io artifact A) (f : A -> IO.io artifact B)
      (g : B -> IO.io artifact C) w :
  IO.iobind (IO.iobind m f) g w = IO.iobind m (fun a => IO.iobind (f a) g) w.
Proof. unfold IO.iobind. destruct (m w) as [w' [a|e]]; reflexivity. Qed.

Lemma fold_printed_files (l : list string) w :
  IO.files (fold_left (fun w s => printed s w) l w) = IO.files w
  /\ IO.console (fold_left (fun w s => printed s w) l w) = IO.console w ++ l.
Proof.
  revert w. induction l as [|s l IH]; intros w; simpl.
  - rewrite app_nil_r. auto.
  - destruct (IH (printed s w)) as [-> ->]. simpl. rewrite <- app_assoc. auto.
Qed.

End Steps.

(** ** Runs of the diff pipeline *)

(** The two files of a turn are read before either is parsed; the parse
    does not raise, so the turn is the one that reads and parses each in
    turn. *)
Lemma change_for_fields (r : Git.repo) (cur prev filepath : string) :
  GenerateDiff.change_for r cur prev filepath
  = (c <- fields_at r cur filepath ;;
     p <- fields_at r prev filepath ;;
     ch <- GenerateDiff.change_of (fst p) (fst c) ;;
     match ch, fst c, fst p with
     | Some (dp, pc), Some c0, Some p0 =>
         Ok (Some {| GenerateDiff.ticker := Shared.ticker_of filepath;
                     GenerateDiff.previous_price := p0;
                     GenerateDiff.current_price := c0;
                     GenerateDiff.price_change := dp;
                     GenerateDiff.percent_change := pc;
                     GenerateDiff.previous_time := snd p;
                     GenerateDiff.current_time := snd c |})
     | _, _, _ => Ok None
     end).
Proof.
  unfold GenerateDiff.change_for, fields_at.
  destruct (Shared.get_file_content r cur filepath) as [c1|e1]; cbn [bind];
    [|reflexivity].
  destruct (parse_price_file_ok c1) as [f1 ->]. cbn [bind].
  destruct (Shared.get_file_content r prev filepath) as [c2|e2]; reflexivity.
Qed.

Lemma change_for_cases (r : Git.repo) (cur prev filepath : string) :
  (readable r [object cur filepath; object prev filepath] = true
   /\ exists c, GenerateDiff.change_for r cur prev filepath = Ok c)
  \/ (readable r [object cur filepath; object prev filepath] = false
      /\ GenerateDiff.change_for r cur prev filepath = Raise UnicodeDecodeError).
Proof.
  rewrite change_for_fields, readable_cons.
  destruct (fields_at_cases r cur filepath) as [(-> & [cp ct] & ->)|(-> & ->)];
    cbn [bind andb]; [|right; split; reflexivity].
  destruct (fields_at_cases r prev filepath) as [(-> & [pp pt] & ->)|(-> & ->)];
    cbn [bind]; [|right; split; reflexivity].
  left. split; [reflexivity|].
  cbn [fst snd]. unfold GenerateDiff.change_of.
  destruct cp as [c|], pp as [p|]; try (cbn [bind]; eauto; fail).
  rewrite calculate_percentage_change_some. cbn [bind]. eauto.
Qed.

(** The objects that the loop over [stock_files] asks for. *)
Lemma collect_changes_cases (r : Git.repo) (cur prev : string) (stock_files : list string) :
  let reads := flat_map (fun f => [object cur f; object prev f]) stock_files in
  (readable r reads = true
   /\ exists cs, GenerateDiff.collect_changes r cur prev stock_files = Ok cs)
  \/ (readable r reads = false
      /\ GenerateDiff.collect_changes r cur prev stock_files = Raise UnicodeDecodeError).
Proof.
  cbv zeta. induction stock_files as [|f rest IH];
    [left; split; [reflexivity | simpl; eauto]|].
  cbn [flat_map GenerateDiff.collect_changes].
  rewrite (readable_app r [object cur f; object prev f]).
  destruct (change_for_cases r cur prev f) as [(-> & c & ->)|(-> & ->)];
    cbn [bind andb]; [|right; split; reflexivity].
  destruct IH as [(-> & cs & ->)|(-> & ->)]; cbn [bind].
  - left. split; [reflexivity | eauto].
  - right. split; reflexivity.
Qed.




Lemma diff_run_outside (argv : list string) (r : Host.t) :
  chdir_fails argv r = true \/ Git.rev_parse_ok r = false ->
  fst (GenerateDiff.run argv r) = 1%Z /\ IO.files (snd (GenerateDiff.run argv r)) = [].
Proof.
  unfold GenerateDiff.run, GenerateDiff.main, GenerateDiff.chdir, chdir_fails.
  destruct argv as [|a [|p rest]].
  - intros [H|H]; [discriminate|]. rewrite H. split; reflexivity.
  - intros [H|H]; [discriminate|]. rewrite H. split; reflexivity.
  - destruct (Host.chdir_ok r p); [|split; reflexivity].
    intros [H|H]; [discriminate|]. rewrite H. split; reflexivity.
Qed.

Lemma diff_run_inside (argv : list string) (r : Host.t) :
  chdir_fails argv r = false -> Git.rev_parse_ok r = true ->
  GenerateDiff.run argv r
  = (let '(w, res) := GenerateDiff.generate_diff_report r (diff_start argv) in
     (IO.exit_status (bind res (fun _ => Ok 0%Z)), w)).
Proof.
  intros Hc H.
  unfold GenerateDiff.run, GenerateDiff.main, GenerateDiff.chdir, diff_start.
  unfold chdir_fails in Hc. rewrite H.
  destruct argv as [|a [|p rest]];
    [| |apply negb_false_iff in Hc; rewrite Hc, iobind_assoc];
    rewrite ?iobind_print, ?iobind_lift_ok, ?iobind_ret;
    unfold IO.iobind;
    match goal with |- context [GenerateDiff.generate_diff_report r ?w] =>
      destruct (GenerateDiff.generate_diff_report r w) as [w' [[]|e]] end;
    reflexivity.
Qed.

Lemma diff_start_files (argv : list string) : IO.files (diff_start argv) = [].
Proof. destruct argv as [|a [|p rest]]; reflexivity. Qed.

(** ** Runs of the report pipeline *)

Lemma dict_get_set_same {V : Type} (k : string) (v : V) (d : list (string * V)) :
  GenerateReport.dict_get k (GenerateReport.dict_set k v d) = Some v.
Proof.
  induction d as [|[k' v'] d IH]; simpl.
  - rewrite String.eqb_refl. reflexivity.
  - destruct (String.eqb k' k) eqn:E; simpl.
    + rewrite String.eqb_refl. reflexivity.
    + rewrite E. exact IH.
Qed.

Lemma dict_get_set_other {V : Type} (k k0 : string) (v : V) (d : list (string * V)) :
  k0 <> k ->
  GenerateReport.dict_get k0 (GenerateReport.dict_set k v d) = GenerateReport.dict_get k0 d.
Proof.
  intros Hne. induction d as [|[k' v'] d IH]; simpl.
  - destruct (String.eqb_spec k k0); [congruence | reflexivity].
  - destruct (String.eqb_spec k' k) as [->|Hk]; simpl.
    + destruct (String.eqb_spec k k0); [congruence|].
      destruct (String.eqb_spec k k0); [congruence | reflexivity].
    + destruct (String.eqb k' k0); [reflexivity | exact IH].
Qed.

Lemma dict_set_length {V : Type} (k : string) (v : V) (d : list (string * V)) :
  List.length (GenerateReport.dict_set k v d) <= S (List.length d).
Proof.
  induction d as [|[k' v'] d IH]; simpl; [lia|].
  destruct (String.eqb k' k); simpl; lia.
Qed.

Section Collect.

Variable r : Git.repo.
Variable commits : list GenerateReport.commit_entry.

(** The loop over the tickers returns when every file it reads decodes,
    and raises [UnicodeDecodeError] otherwise. *)
Lemma collect_cases (tickers : list string) :
  forall (acc : list GenerateReport.stock) (d : list (string * GenerateReport.chart)),
    (readable r (flat_map (fun t => history_reads t commits) tickers) = true
     /\ exists acc' d', GenerateReport.collect r commits tickers acc d = Ok (acc', d'))
    \/ (readable r (flat_map (fun t => history_reads t commits) tickers) = false
        /\ GenerateReport.collect r commits tickers acc d = Raise UnicodeDecodeError).
Proof.
  induction tickers as [|t rest IH]; intros acc d;
    [left; split; [reflexivity | simpl; eauto]|].
  cbn [flat_map GenerateReport.collect]. rewrite readable_app.
  destruct (get_price_history_cases r t commits) as [(-> & h & ->)|(-> & ->)];
    cbn [bind andb]; [|right; split; reflexivity].
  destruct (calculate_statistics_ok h) as [[st|] ->]; cbn [bind]; apply IH.
Qed.

Lemma collect_spec (among tickers : list string) :
  forall (acc : list GenerateReport.stock) (d : list (string * GenerateReport.chart))
         (acc' : list GenerateReport.stock) (d' : list (string * GenerateReport.chart)),
    incl tickers among ->
    Forall (collected r commits among d) acc ->
    List.length d <= List.length acc ->
    GenerateReport.collect r commits tickers acc d = Ok (acc', d') ->
    Forall (collected r commits among d') acc'
    /\ List.length acc' <= List.length acc + List.length tickers
    /\ List.length d' <= List.length acc'.
Proof.
  induction tickers as [|t rest IH]; intros acc d acc' d' Hincl Hacc Hlen; simpl.
  - intros [= <- <-]. repeat split; auto. lia.
  - destruct (GenerateReport.get_price_history r t commits) as [h|e] eqn:Hh;
      cbn [bind]; [|discriminate].
    destruct (calculate_statistics_ok h) as [[st|] Hst]; rewrite Hst; cbn [bind];
      intros E.
    + destruct (IH (acc ++ [{| GenerateReport.s_ticker := t; GenerateReport.stats := st;
                               GenerateReport.history := h |}])
                   (GenerateReport.dict_set t (GenerateReport.chart_of h) d) acc' d')
        as (Hall & Hl & Hd); auto.
      * intros x Hx. apply Hincl. now right.
      * apply Forall_app. split.
        -- eapply Forall_impl; [|exact Hacc].
           intros s (Hin & Hhist & Hstat & Hget). repeat split; auto.
           destruct (String.eqb_spec (GenerateReport.s_ticker s) t) as [Heq|Hne].
           ++ rewrite Heq in *. rewrite dict_get_set_same. congruence.
           ++ rewrite dict_get_set_other by exact Hne. exact Hget.
        -- constructor; [|constructor]. repeat split; simpl; auto.
           ++ apply Hincl. now left.
           ++ apply dict_get_set_same.
      * rewrite length_app. simpl.
        pose proof (dict_set_length t (GenerateReport.chart_of h) d). lia.
      * repeat split; auto.
        rewrite length_app in Hl. simpl in Hl. lia.
    + destruct (IH acc d acc' d') as (Hall & Hl & Hd); auto.
      * intros x Hx. apply Hincl. now right.
      * repeat split; auto. lia.
Qed.

Lemma count_totals_cases (commits2 : list GenerateReport.commit_entry)
      (all_tickers : list string) :
  forall t,
    (readable r (flat_map (fun x => history_reads x commits2) all_tickers) = true
     /\ exists t', GenerateReport.count_totals r commits2 all_tickers t = Ok t')
    \/ (readable r (flat_map (fun x => history_reads x commits2) all_tickers) = false
        /\ GenerateReport.count_totals r commits2 all_tickers t = Raise UnicodeDecodeError).
Proof.
  induction all_tickers as [|x rest IH]; intros t;
    [left; split; [reflexivity | simpl; eauto]|].
  cbn [flat_map GenerateReport.count_totals]. rewrite readable_app.
  destruct (get_price_history_cases r x commits2) as [(-> & h & ->)|(-> & ->)];
    cbn [bind andb]; [|right; split; reflexivity].
  destruct (calculate_statistics_ok h) as [st ->]. cbn [bind]. apply IH.
Qed.

End Collect.

Lemma collect_complete (r : Git.repo) (commits : list GenerateReport.commit_entry)
      (tickers : list string) :
  forall acc d acc' d',
    GenerateReport.collect r commits tickers acc d = Ok (acc', d') ->
    incl acc acc'
    /\ forall t h st,
        In t tickers ->
        GenerateReport.get_price_history r t commits = Ok h ->
        GenerateReport.calculate_statistics h = Ok (Some st) ->
        In {| GenerateReport.s_ticker := t; GenerateReport.stats := st;
              GenerateReport.history := h |} acc'.
Proof.
  induction tickers as [|x rest IH]; intros acc d acc' d'; simpl.
  - intros [= <- <-]. split; [apply incl_refl | contradiction].
  - destruct (GenerateReport.get_price_history r x commits) as [hx|] eqn:Hx;
      simpl; [|discriminate].
    destruct (GenerateReport.calculate_statistics hx) as [[sx|]|] eqn:Sx;
      simpl; try discriminate; intros Hcol;
      destruct (IH _ _ _ _ Hcol) as [Hincl Hin].
    + split.
      * intros s Hs. apply Hincl. apply in_or_app. now left.
      * intros t h st [<-|Ht] Hh Hst; [|eauto].
        rewrite Hx in Hh. injection Hh as <-.
        rewrite Sx in Hst. injection Hst as <-.
        apply Hincl. apply in_or_app. right. now left.
    + split; [exact Hincl|].
      intros t h st [<-|Ht] Hh Hst; [|eauto].
      rewrite Hx in Hh. injection Hh as <-. congruence.
Qed.

Lemma generate_html_report_cases (r : Host.t) (w0 : IO.world GenerateReport.html_report) :
  let w1 := printed "Generating HTML report..." (fst (IO.makedirs "artifacts" w0)) in
  (exists e, GenerateReport.get_commit_history r 10 = Raise e
             /\ GenerateReport.generate_html_report r w0 = (w1, Raise e))
  \/ (GenerateReport.get_commit_history r 10 = Ok []
      /\ GenerateReport.generate_html_report r w0 = (printed "No commits found" w1, Ok tt))
  \/ (exists commits,
         GenerateReport.get_commit_history r 10 = Ok commits /\ commits <> []
         /\ Shared.get_all_stock_files r = []
         /\ GenerateReport.generate_html_report r w0
            = (printed "No stock files found" w1, Ok tt))
  \/ (exists commits,
         GenerateReport.get_commit_history r 10 = Ok commits /\ commits <> []
         /\ Shared.get_all_stock_files r <> []
         /\ readable r (report_reads r) = false
         /\ GenerateReport.generate_html_report r w0
            = (html_start r w0, Raise UnicodeDecodeError))
  \/ (exists commits acc d t,
         GenerateReport.get_commit_history r 10 = Ok commits /\ commits <> []
         /\ Shared.get_all_stock_files r <> []
         /\ readable r (report_reads r) = true
         /\ GenerateReport.collect r commits (candidates r) [] [] = Ok (acc, d)
         /\ Forall (collected r commits (candidates r) d) acc
         /\ List.length acc <= List.length (candidates r)
         /\ List.length d <= List.length acc
         /\ GenerateReport.generate_html_report r w0
            = (fold_left (fun w s => printed s w) (html_counts (html_of r acc d t))
                 (printed ("HTML report generated: " ++ GenerateReport.output_file)
                    (fst (IO.write_file GenerateReport.output_file (html_of r acc d t)
                       (html_start r w0)))), Ok tt)).
Proof.
  intros w1. unfold GenerateReport.generate_html_report, report_reads, html_start.
  rewrite iobind_makedirs, iobind_print. fold w1.
  destruct (GenerateReport.get_commit_history r 10) as [commits|e] eqn:Ec.
  2:{ left. exists e. split; reflexivity. }
  rewrite iobind_lift_ok.
  destruct commits as [|c cs]; [right; left; split; reflexivity|].
  right. right.
  destruct (Shared.get_all_stock_files r) as [|f fs] eqn:Ef.
  { left. exists (c :: cs). repeat split; auto. discriminate. }
  right. fold (candidates r) in *.
  assert (Ecand : map Shared.ticker_of (firstn 20 (f :: fs)) = candidates r).
  { unfold candidates. rewrite Ef. reflexivity. }
  rewrite Ecand, iobind_print, readable_app.
  destruct (collect_cases r (c :: cs) (candidates r) [] [])
    as [(-> & acc & d & Hcol)|(-> & Hcol)]; rewrite Hcol; cbn [andb].
  2:{ left. exists (c :: cs). repeat split; auto; discriminate. }
  destruct (collect_spec r (c :: cs) (candidates r) (candidates r) [] [] acc d)
    as (Hall & Hlen & Hd); [apply incl_refl | constructor | simpl; lia | exact Hcol |].
  rewrite iobind_lift_ok. cbv zeta. cbn [fst snd].
  destruct (count_totals_cases r (firstn 2 (c :: cs)) (map Shared.ticker_of (f :: fs))
              {| GenerateReport.t_gainers := 0; GenerateReport.t_losers := 0;
                 GenerateReport.t_unchanged := 0 |}) as [(-> & t & Ht)|(-> & Ht)];
    rewrite Ht.
  2:{ left. exists (c :: cs). repeat split; auto; discriminate. }
  right. exists (c :: cs), acc, d, t.
  repeat split; auto; discriminate.
Qed.

Lemma report_run (r : Host.t) :
  GenerateReport.run r
  = (let '(w, res) := GenerateReport.generate_html_report r IO.empty in
     (IO.exit_status (bind res (fun _ => Ok 0%Z)), w)).
Proof.
  unfold GenerateReport.run, GenerateReport.main, IO.iobind.
  destruct (GenerateReport.generate_html_report r IO.empty) as [w' [[]|e]]; reflexivity.
Qed.


(** ** Early returns and exit status *)




(** ** The chart gallery *)

Lemma StronglySorted_app_inv {A : Type} (R : A -> A -> Prop) (l1 l2 : list A) :
  StronglySorted R (l1 ++ l2) -> Forall (fun a => Forall (R a) l2) l1.
Proof.
  induction l1 as [|x l1 IH]; simpl; intros H; [constructor|].
  inversion H as [|? ? Hs Hall]; subst. constructor; [|apply IH; exact Hs].
  apply Forall_app in Hall. tauto.
Qed.

Lemma candidates_length (r : Git.repo) : List.length (candidates r) <= 20.
Proof.
  unfold candidates. rewrite length_map. apply firstn_le_length.
Qed.




(** * Further properties of the code *)

(** ** Log lines by their bars *)

Lemma length_split (sep : ascii) (s : string) :
  List.length (PyStr.split sep s) = S (count_char sep s).
Proof.
  induction s as [|c s IH]; [reflexivity|]. simpl.
  destruct (Ascii.eqb c sep); simpl; [now rewrite IH|].
  destruct (PyStr.split sep s); simpl in *; [discriminate | exact IH].
Qed.

Lemma join_split (sep : ascii) (s : string) :
  PyStr.join (String sep EmptyString) (PyStr.split sep s) = s.
Proof.
  induction s as [|c s IH]; [reflexivity|]. simpl.
  destruct (Ascii.eqb_spec c sep) as [->|Hc].
  - pose proof (split_nonempty sep s) as Hne.
    destruct (PyStr.split sep s) as [|x xs]; [contradiction|].
    change (PyStr.join (String sep "") (EmptyString :: x :: xs))
      with (String sep (PyStr.join (String sep "") (x :: xs))).
    now rewrite IH.
  - pose proof (split_nonempty sep s) as Hne.
    destruct (PyStr.split sep s) as [|x xs]; [contradiction|].
    destruct xs as [|y ys].
    + simpl in *. now rewrite IH.
    + change (PyStr.join (String sep "") (String c x :: y :: ys))
        with (String c (PyStr.join (String sep "") (x :: y :: ys))).
      now rewrite IH.
Qed.

(** X1: a log line without a bar is skipped, a line with one bar gives the
    commit with the text before and after it, and a line with more bars
    raises [ValueError], the failed unpacking of [line.split('|')]. *)
Theorem commit_of_line_by_bars :
  forall line : string,
    match count_char "|" line with
    | O => GenerateReport.commit_of_line line = Ok None
    | S O =>
        exists h t,
          line = (h ++ "|" ++ t)%string
          /\ GenerateReport.commit_of_line line
             = Ok (Some {| GenerateReport.c_hash := h; GenerateReport.c_timestamp := t |})
    | S (S _) => GenerateReport.commit_of_line line = Raise ValueError
    end.
Proof.
  intros line. pose proof (length_split "|" line) as Hlen.
  pose proof (join_split "|" line) as Hjoin.
  unfold GenerateReport.commit_of_line.
  destruct (PyStr.split "|" line) as [|a [|b [|c l]]]; simpl in Hlen;
    try discriminate Hlen; injection Hlen as Hlen; rewrite <- Hlen.
  - reflexivity.
  - exists a, b. split; [symmetry; exact Hjoin | reflexivity].
  - reflexivity.
Qed.

(** ** What the readers of the history and of the files return *)





Lemma lstrip_blank (s : string) :
  all_chars PyStr.isspace s = true -> PyStr.lstrip s = EmptyString.
Proof.
  induction s as [|c s IH]; [reflexivity|]. simpl.
  intros H. apply andb_true_iff in H. destruct H as [Hc Hs]. rewrite Hc. auto.
Qed.

(** X4: a file that is missing at a commit, so that [git show] fails, and
    a file that holds only white space parse alike, to no price and no
    timestamp. *)
Theorem missing_or_blank_file_has_no_fields :
  forall (r : Git.repo) (commit_hash filepath : string),
    Git.show r (commit_hash ++ ":" ++ filepath)%string = Git.CalledProcessError
    \/ (exists s, Git.show r (commit_hash ++ ":" ++ filepath)%string = Git.Stdout s
                  /\ all_chars PyStr.isspace s = true) ->
    bind (Shared.get_file_content r commit_hash filepath) Shared.parse_price_file
    = Ok (None, None).
Proof.
  intros r h p [H|(s & H & Hs)]; unfold Shared.get_file_content;
    rewrite H; cbn [bind].
  - reflexivity.
  - unfold PyStr.strip. rewrite (lstrip_blank s Hs). reflexivity.
Qed.

Lemma missing_or_blank_file_has_no_fields_witness :
  bind (Shared.get_file_content repo_scenarios "c1" "CCC.txt") Shared.parse_price_file
  = Ok (None, None).
Proof.
  apply (missing_or_blank_file_has_no_fields repo_scenarios "c1" "CCC.txt").
  left. reflexivity.
Defined.

Lemma scan_lines_skipped (lines : list string) :
  forall st,
    (forall l, In l lines ->
               PyStr.startswith l "Price:" = false \/ malformed_price_line l) ->
    exists st', Shared.scan_lines st lines = Ok st' /\ fst st' = fst st.
Proof.
  induction lines as [|l rest IH]; intros st Hall; simpl; [eauto|].
  destruct (Hall l (or_introl eq_refl)) as [Hp|Hbad].
  - destruct (scan_line_ok st l) as [st1 H1]. rewrite H1. simpl.
    destruct (IH st1) as (st' & H' & Hfst); [intros; apply Hall; now right|].
    exists st'. split; [exact H'|].
    rewrite Hfst. eapply scan_line_price_kept; eauto.
  - rewrite (scan_line_malformed st l Hbad). simpl.
    apply IH. intros; apply Hall; now right.
Qed.

Lemma scan_line_number (p : option float) (ts : option string) (line : string) (x : float) :
  PyStr.startswith line "Price:" = true ->
  PyFloat.float (PyStr.strip (PyStr.replace line "Price:" "")) = Ok x ->
  Shared.scan_line (p, ts) line = Ok (Some x, ts).
Proof. intros Hp Hx. unfold Shared.scan_line. rewrite Hp, Hx. reflexivity. Qed.

(** X5: the last [Price:] line that holds a number sets the price, whatever
    the lines before it hold: of several price lines the last one wins, and
    malformed price lines after it change nothing. *)
Theorem last_price_line_wins :
  forall (content : string) (pre post : list string) (line : string) (x : float),
    PyStr.split PyStr.nl content = pre ++ line :: post ->
    PyStr.startswith line "Price:" = true ->
    PyFloat.float (PyStr.strip (PyStr.replace line "Price:" "")) = Ok x ->
    (forall l, In l post ->
               PyStr.startswith l "Price:" = false \/ malformed_price_line l) ->
    exists ts, Shared.parse_price_file (Some content) = Ok (Some x, ts).
Proof.
  intros content pre post line x Hsplit Hp Hx Hpost.
  assert (Htruthy : PyStr.truthy content = true).
  { destruct content; [|reflexivity]. simpl in Hsplit.
    destruct pre as [|y pre]; simpl in Hsplit.
    - injection Hsplit as <- _. discriminate.
    - injection Hsplit as _ H. destruct pre; discriminate. }
  unfold Shared.parse_price_file. rewrite Htruthy, Hsplit, scan_lines_app.
  destruct (scan_lines_ok pre (None, None)) as [[p ts] ->].
  cbn [bind Shared.scan_lines]. rewrite (scan_line_number p ts line x Hp Hx).
  cbn [bind].
  destruct (scan_lines_skipped post (Some x, ts) Hpost) as ([p' ts'] & -> & Hfst).
  simpl in Hfst. subst p'. eauto.
Qed.

Lemma last_price_line_wins_witness :
  exists ts,
    Shared.parse_price_file
      (Some ("Price: 1" ++ PyStr.nl_s ++ "Price: 2" ++ PyStr.nl_s ++ "Price: n/a")%string)
    = Ok (Some 2, ts).
Proof.
  apply (last_price_line_wins
           ("Price: 1" ++ PyStr.nl_s ++ "Price: 2" ++ PyStr.nl_s ++ "Price: n/a")%string
           ["Price: 1"] ["Price: n/a"] "Price: 2" 2).
  - reflexivity.
  - reflexivity.
  - reflexivity.
  - intros l [<-|[]]. right. split; reflexivity.
Defined.

Lemma updated_not_price (l : string) :
  PyStr.startswith l "Updated:" = true -> PyStr.startswith l "Price:" = false.
Proof.
  unfold PyStr.startswith. intros H. apply prefix_inv in H. destruct H as [t ->].
  reflexivity.
Qed.

Lemma last_cons {A : Type} (x d : A) (l : list A) : last (x :: l) d = last l x.
Proof.
  revert x d. induction l as [|y l IH]; intros x d; [reflexivity|].
  change (last (x :: y :: l) d) with (last (y :: l) d). now rewrite !IH.
Qed.

Lemma scan_lines_timestamp (lines : list string) :
  forall p ts,
    exists p',
      Shared.scan_lines (p, ts) lines = Ok (p', last_updated ts lines).
Proof.
  unfold last_updated.
  induction lines as [|l rest IH]; intros p ts; [simpl; eauto|].
  cbn [Shared.scan_lines filter].
  destruct (PyStr.startswith l "Updated:") eqn:Eu.
  - unfold Shared.scan_line. rewrite (updated_not_price l Eu), Eu. cbn [bind map].
    destruct (IH p (Some (PyStr.strip (PyStr.replace l "Updated:" "")))) as [p' ->].
    exists p'. now rewrite last_cons.
  - destruct (scan_line_ok (p, ts) l) as [[p1 ts1] H1].
    assert (ts1 = ts).
    { revert H1. unfold Shared.scan_line. rewrite Eu.
      destruct (PyStr.startswith l "Price:"); [|congruence].
      destruct (PyFloat.float _) as [y|[]]; simpl; congruence. }
    subst ts1. rewrite H1. cbn [bind]. apply IH.
Qed.

(** X6: the parsed timestamp is the text, stripped, of the last line that
    begins with [Updated:], and is absent when there is no such line; no
    price line changes it. *)
Theorem timestamp_is_last_updated_line :
  forall content : string,
    exists p,
      Shared.parse_price_file (Some content)
      = Ok (p, if PyStr.truthy content
               then last_updated None (PyStr.split PyStr.nl content)
               else None).
Proof.
  intros content. simpl. destruct (PyStr.truthy content); [|eauto].
  apply scan_lines_timestamp.
Qed.

(** ** Histories and their statistics *)

Lemma get_price_history_app (r : Git.repo) (ticker : string)
      (c1 c2 : list GenerateReport.commit_entry) :
  GenerateReport.get_price_history r ticker (c1 ++ c2)
  = (h1 <- GenerateReport.get_price_history r ticker c1 ;;
     h2 <- GenerateReport.get_price_history r ticker c2 ;;
     Ok (h1 ++ h2)).
Proof.
  induction c1 as [|c rest IH].
  - cbn [app GenerateReport.get_price_history bind].
    destruct (GenerateReport.get_price_history r ticker c2); reflexivity.
  - change ((c :: rest) ++ c2) with (c :: (rest ++ c2)).
    rewrite !get_price_history_cons, IH.
    destruct (fields_at r (GenerateReport.c_hash c) (ticker ++ ".txt")%string)
      as [[p ts]|e]; cbn [bind]; [|reflexivity].
    destruct (GenerateReport.get_price_history r ticker rest) as [h1|e];
      cbn [bind]; [|reflexivity].
    destruct (GenerateReport.get_price_history r ticker c2) as [h2|e];
      cbn [bind]; [|reflexivity].
    destruct p; reflexivity.
Qed.

Lemma get_price_history_length (r : Git.repo) (ticker : string)
      (commits : list GenerateReport.commit_entry) :
  forall h,
    GenerateReport.get_price_history r ticker commits = Ok h ->
    List.length h <= List.length commits.
Proof.
  induction commits as [|c rest IH]; intros h.
  - intros [= <-]. reflexivity.
  - rewrite get_price_history_cons.
    destruct (fields_at r (GenerateReport.c_hash c) (ticker ++ ".txt")%string)
      as [[p ts]|e]; cbn [bind]; [|discriminate].
    destruct (GenerateReport.get_price_history r ticker rest) as [hs|e];
      cbn [bind]; [|discriminate].
    specialize (IH hs eq_refl).
    cbn [fst]. destruct p; intros [= <-]; simpl; lia.
Qed.

(** X7: when the history builder returns, which it does when every file it
    reads decodes, the history has at most one entry per sampled commit,
    and the history over the first [k] commits is the beginning of the
    history over all of them: sampling more commits only appends entries.
    It raises nothing but [UnicodeDecodeError]. *)
Theorem get_price_history_prefix :
  forall (r : Git.repo) (ticker : string) (commits : list GenerateReport.commit_entry)
         (k : nat) (h : list GenerateReport.entry),
    GenerateReport.get_price_history r ticker commits = Ok h ->
    readable r (history_reads ticker commits) = true
    /\ exists hk rest,
        GenerateReport.get_price_history r ticker (firstn k commits) = Ok hk
        /\ h = hk ++ rest
        /\ List.length hk <= k
        /\ List.length h <= List.length commits.
Proof.
  intros r ticker commits k h Hh. split.
  - destruct (get_price_history_cases r ticker commits) as [(Hr & _)|(_ & E)];
      [exact Hr | congruence].
  - pose proof (get_price_history_length r ticker commits h Hh) as Hlen.
    pose proof (get_price_history_app r ticker (firstn k commits) (skipn k commits))
      as Happ.
    rewrite firstn_skipn, Hh in Happ.
    destruct (GenerateReport.get_price_history r ticker (firstn k commits))
      as [hk|e] eqn:Hk; cbn [bind] in Happ; [|discriminate].
    destruct (GenerateReport.get_price_history r ticker (skipn k commits))
      as [rest|e]; cbn [bind] in Happ; [|discriminate].
    injection Happ as ->. exists hk, rest.
    repeat split; auto.
    pose proof (get_price_history_length r ticker _ hk Hk) as Hl.
    rewrite length_firstn in Hl. lia.
Qed.

Lemma get_price_history_prefix_witness :
  readable repo_scenarios
    (history_reads "AAA" (map entry_of (Git.log repo_scenarios))) = true
  /\ exists hk rest,
      GenerateReport.get_price_history repo_scenarios "AAA"
        (firstn 2 (map entry_of (Git.log repo_scenarios))) = Ok hk
      /\ sample_history = hk ++ rest
      /\ List.length hk <= 2
      /\ List.length sample_history <= List.length (map entry_of (Git.log repo_scenarios)).
Proof.
  apply (get_price_history_prefix repo_scenarios "AAA"
           (map entry_of (Git.log repo_scenarios)) 2 sample_history).
  reflexivity.
Defined.

(** X8: the change and percent change of the statistics are the ones the
    diff pipeline computes from the same previous and current price: the
    two scripts agree on their numbers. *)
Theorem statistics_agree_with_change_of :
  forall (e : GenerateReport.entry) (rest : list GenerateReport.entry),
  exists st,
    GenerateReport.calculate_statistics (e :: rest) = Ok (Some st)
    /\ GenerateDiff.change_of (Some (GenerateReport.previous st))
                              (Some (GenerateReport.current st))
       = Ok (Some (GenerateReport.change st, GenerateReport.percent_change st)).
Proof.
  intros e rest. rewrite calculate_statistics_cons. eexists. split; [reflexivity|].
  cbn [GenerateReport.previous GenerateReport.current GenerateReport.change
       GenerateReport.percent_change].
  unfold GenerateDiff.change_of. rewrite calculate_percentage_change_some. reflexivity.
Qed.

Lemma leb_refl (a : float) : is_nan a = false -> (a <=? a) = true.
Proof.
  intros H. apply not_nan_ord3 in H. destruct H as [ra Ha].
  apply leb_ord3. exists ra, ra. auto.
Qed.

Lemma min_from_bounds (l : list float) :
  forall cur,
    is_nan cur = false -> Forall (fun p => is_nan p = false) l ->
    In (PyNum.min_from cur l) (cur :: l)
    /\ Forall (fun p => (PyNum.min_from cur l <=? p) = true) (cur :: l).
Proof.
  induction l as [|x xs IH]; intros cur Hc Hl; simpl.
  - split; [auto|]. constructor; [apply leb_refl; exact Hc | constructor].
  - inversion Hl as [|? ? Hx Hxs]; subst.
    set (c' := if x <? cur then x else cur).
    assert (Hc' : is_nan c' = false) by (unfold c'; destruct (x <? cur); assumption).
    assert (H1 : (c' <=? cur) = true).
    { unfold c'. destruct (x <? cur) eqn:E; [apply ltb_leb; exact E | apply leb_refl; exact Hc]. }
    assert (H2 : (c' <=? x) = true).
    { unfold c'. destruct (x <? cur) eqn:E;
        [apply leb_refl; exact Hx | apply ltb_false_leb; assumption]. }
    destruct (IH c' Hc' Hxs) as [Hin Hall].
    inversion Hall as [|? ? Hm Hrest]; subst. split.
    + destruct Hin as [Hin|Hin]; [|auto].
      rewrite <- Hin. unfold c'. destruct (x <? cur); auto.
    + constructor; [eapply leb_trans; eauto|].
      constructor; [eapply leb_trans; eauto | exact Hrest].
Qed.

Lemma max_from_bounds (l : list float) :
  forall cur,
    is_nan cur = false -> Forall (fun p => is_nan p = false) l ->
    In (PyNum.max_from cur l) (cur :: l)
    /\ Forall (fun p => (p <=? PyNum.max_from cur l) = true) (cur :: l).
Proof.
  induction l as [|x xs IH]; intros cur Hc Hl; simpl.
  - split; [auto|]. constructor; [apply leb_refl; exact Hc | constructor].
  - inversion Hl as [|? ? Hx Hxs]; subst.
    set (c' := if cur <? x then x else cur).
    assert (Hc' : is_nan c' = false) by (unfold c'; destruct (cur <? x); assumption).
    assert (H1 : (cur <=? c') = true).
    { unfold c'. destruct (cur <? x) eqn:E; [apply ltb_leb; exact E | apply leb_refl; exact Hc]. }
    assert (H2 : (x <=? c') = true).
    { unfold c'. destruct (cur <? x) eqn:E;
        [apply leb_refl; exact Hx | apply ltb_false_leb; assumption]. }
    destruct (IH c' Hc' Hxs) as [Hin Hall].
    inversion Hall as [|? ? Hm Hrest]; subst. split.
    + destruct Hin as [Hin|Hin]; [|auto].
      rewrite <- Hin. unfold c'. destruct (cur <? x); auto.
    + constructor; [eapply leb_trans; eauto|].
      constructor; [eapply leb_trans; eauto | exact Hrest].
Qed.

(** X9: when no price of the history is a NaN, the minimum and the maximum
    of the statistics are prices of the history, and every price of the
    history lies between them. *)
Theorem statistics_min_max_bound :
  forall (e : GenerateReport.entry) (rest : list GenerateReport.entry),
    Forall (fun h => is_nan (GenerateReport.price h) = false) (e :: rest) ->
    exists st,
      GenerateReport.calculate_statistics (e :: rest) = Ok (Some st)
      /\ In (GenerateReport.min st) (map GenerateReport.price (e :: rest))
      /\ In (GenerateReport.max st) (map GenerateReport.price (e :: rest))
      /\ Forall (fun h => (GenerateReport.min st <=? GenerateReport.price h) = true
                          /\ (GenerateReport.price h <=? GenerateReport.max st) = true)
                (e :: rest).
Proof.
  intros e rest Hnan. rewrite calculate_statistics_cons. eexists.
  split; [reflexivity|].
  cbn [GenerateReport.min GenerateReport.max].
  inversion Hnan as [|? ? He Hrest]; subst.
  assert (Hp : Forall (fun p => is_nan p = false) (map GenerateReport.price rest)).
  { apply Forall_map. exact Hrest. }
  destruct (min_from_bounds _ _ He Hp) as [Hmin Hmins].
  destruct (max_from_bounds _ _ He Hp) as [Hmax Hmaxs].
  split; [exact Hmin|]. split; [exact Hmax|].
  change (GenerateReport.price e :: map GenerateReport.price rest)
    with (map GenerateReport.price (e :: rest)) in Hmins, Hmaxs.
  rewrite Forall_map in Hmins, Hmaxs.
  rewrite Forall_forall in *. intros h Hh. split; auto.
Qed.

Lemma statistics_min_max_bound_witness :
  exists st,
    GenerateReport.calculate_statistics
      (map (fun p => {| GenerateReport.timestamp := "t"; GenerateReport.price := p |})
           [100; 90; 80])
    = Ok (Some st)
    /\ In (GenerateReport.min st) [100; 90; 80]
    /\ In (GenerateReport.max st) [100; 90; 80]
    /\ Forall (fun h => (GenerateReport.min st <=? GenerateReport.price h) = true
                        /\ (GenerateReport.price h <=? GenerateReport.max st) = true)
              (map (fun p => {| GenerateReport.timestamp := "t"; GenerateReport.price := p |})
                   [100; 90; 80]).
Proof.
  apply (statistics_min_max_bound
           {| GenerateReport.timestamp := "t"; GenerateReport.price := 100 |}
           [ {| GenerateReport.timestamp := "t"; GenerateReport.price := 90 |};
             {| GenerateReport.timestamp := "t"; GenerateReport.price := 80 |} ]).
  repeat constructor.
Defined.

(** ** Counts of the two summaries *)

(** A float is above zero, below zero, equal to zero or a NaN, and only
    one of these. *)
Lemma sign_cases (x : float) :
  ((if (0 <? x)%float then 1 else 0) + (if (x <? 0)%float then 1 else 0)
   + (if (x =? 0)%float then 1 else 0) + (if is_nan x then 1 else 0) = 1)%nat.
Proof.
  unfold is_nan. rewrite !ltb_spec, !eqb_spec.
  change (Prim2SF 0) with (S754_zero false).
  unfold SFltb, SFeqb. rewrite !SFcompare_ord3.
  destruct (Prim2SF x) as [s|s| |s m e]; try destruct s;
    cbn [ord3]; rewrite ?lexcmp_refl; reflexivity.
Qed.

(** X10: the gainers, the losers and the unchanged records of the diff
    report, with the records whose percent change is a NaN, which are in
    none of the three, add up to the total of the report. *)
Theorem summary_counts_add_up :
  forall changes : list GenerateDiff.change,
    let rep := GenerateDiff.render changes in
    (List.length (GenerateDiff.gainers rep) + List.length (GenerateDiff.losers rep)
     + List.length (GenerateDiff.unchanged rep) + List.length (undefined_changes changes)
     = GenerateDiff.total_stocks rep)%nat.
Proof.
  intros changes. cbv zeta. unfold GenerateDiff.render, undefined_changes.
  cbn [GenerateDiff.gainers GenerateDiff.losers GenerateDiff.unchanged
       GenerateDiff.total_stocks].
  induction changes as [|c cs IH]; [reflexivity|]. cbn [filter List.length].
  pose proof (sign_cases (GenerateDiff.percent_change c)) as H.
  destruct (0 <? GenerateDiff.percent_change c),
           (GenerateDiff.percent_change c <? 0),
           (GenerateDiff.percent_change c =? 0),
           (is_nan (GenerateDiff.percent_change c));
    simpl in H; try discriminate H; cbn [List.length]; lia.
Qed.

Lemma percent_of_history (r : Git.repo) (commits : list GenerateReport.commit_entry)
      (ticker : string) (h : list GenerateReport.entry) :
  GenerateReport.get_price_history r ticker commits = Ok h ->
  percent_of r commits ticker
  = match GenerateReport.calculate_statistics h with
    | Ok (Some st) => Some (GenerateReport.percent_change st)
    | _ => None
    end.
Proof. intros H. unfold percent_of. rewrite H. reflexivity. Qed.

(** X11: when every file it reads decodes, the loop that counts for the
    HTML summary returns, and it has added to its three counters the
    number of tickers whose percent change over the two commits is above
    zero, the number of those below zero, and the number of those equal to
    zero or a NaN; a ticker without a price in either commit is not
    counted.  When a file does not decode it raises [UnicodeDecodeError]. *)
Theorem count_totals_counts_priced_tickers :
  forall (r : Git.repo) (commits2 : list GenerateReport.commit_entry)
         (all_tickers : list string) (t : GenerateReport.totals),
    if readable r (flat_map (fun x => history_reads x commits2) all_tickers)
    then
      exists t',
        GenerateReport.count_totals r commits2 all_tickers t = Ok t'
        /\ (GenerateReport.t_gainers t'
            = GenerateReport.t_gainers t
              + count_where (fun pc => (0 <? pc)%float) r commits2 all_tickers)%nat
        /\ (GenerateReport.t_losers t'
            = GenerateReport.t_losers t
              + count_where (fun pc => (pc <? 0)%float) r commits2 all_tickers)%nat
        /\ (GenerateReport.t_unchanged t'
            = GenerateReport.t_unchanged t
              + count_where (fun pc => (pc =? 0)%float || is_nan pc) r commits2 all_tickers)%nat
    else GenerateReport.count_totals r commits2 all_tickers t = Raise UnicodeDecodeError.
Proof.
  intros r commits2 all_tickers.
  induction all_tickers as [|x rest IH]; intros t.
  - cbn. exists t. unfold count_where. cbn. repeat split; lia.
  - cbn [flat_map GenerateReport.count_totals]. rewrite readable_app.
    destruct (get_price_history_cases r x commits2) as [(-> & h & Hh)|(-> & Hh)];
      rewrite Hh; cbn [bind andb]; [|reflexivity].
    pose proof (percent_of_history r commits2 x h Hh) as Hp.
    destruct (calculate_statistics_ok h) as [[st|] Hst];
      rewrite Hst in Hp |- *; cbn [bind].
    + match goal with |- context [GenerateReport.count_totals r commits2 rest ?t0] =>
        specialize (IH t0) end.
      destruct (readable r (flat_map (fun x0 => history_reads x0 commits2) rest));
        [|exact IH].
      destruct IH as (t' & Ht' & Hg & Hl & Hu). exists t'. split; [exact Ht'|].
      unfold count_where in *. cbn [filter]. rewrite Hp.
      pose proof (sign_cases (GenerateReport.percent_change st)) as Hs.
      revert Hg Hl Hu.
      destruct (0 <? GenerateReport.percent_change st),
               (GenerateReport.percent_change st <? 0),
               (GenerateReport.percent_change st =? 0),
               (is_nan (GenerateReport.percent_change st));
        simpl in Hs; try discriminate Hs;
        cbn [orb List.length GenerateReport.t_gainers GenerateReport.t_losers
             GenerateReport.t_unchanged];
        intros; repeat split; lia.
    + specialize (IH t).
      destruct (readable r (flat_map (fun x0 => history_reads x0 commits2) rest));
        [|exact IH].
      destruct IH as (t' & Ht' & Hg & Hl & Hu). exists t'.
      unfold count_where in *. cbn [filter]. rewrite Hp. auto.
Qed.

(** ** Top movers of the diff report *)

Lemma abs_of_positive (x : float) : (0 <? x) = true -> abs x = x.
Proof.
  intros H. apply Prim2SF_inj. rewrite abs_spec.
  rewrite ltb_spec in H. change (Prim2SF 0) with (S754_zero false) in H.
  destruct (Prim2SF x) as [s|s| |s m e]; try destruct s; try discriminate H; reflexivity.
Qed.

Lemma abs_of_negative (x : float) : (x <? 0) = true -> abs x = (- x).
Proof.
  intros H. apply Prim2SF_inj. rewrite abs_spec, opp_spec.
  rewrite ltb_spec in H. change (Prim2SF 0) with (S754_zero false) in H.
  destruct (Prim2SF x) as [s|s| |s m e]; try destruct s; try discriminate H; reflexivity.
Qed.

Lemma leb_opp (x y : float) : (- y <=? - x) = (x <=? y).
Proof.
  rewrite !leb_spec, !opp_spec. unfold SFleb. rewrite !SFcompare_ord3.
  destruct (Prim2SF x) as [sx|sx| |sx mx ex], (Prim2SF y) as [sy|sy| |sy my ey];
    try destruct sx; try destruct sy; cbn [SFopp ord3 negb]; try reflexivity;
    unfold lexcmp; cbn [Z.compare Z.opp];
    rewrite ?Z.opp_involutive, ?Z.compare_opp; try reflexivity.
  - rewrite (Pos.compare_antisym mx my). reflexivity.
  - rewrite (Pos.compare_antisym my mx). reflexivity.
Qed.

Lemma StronglySorted_filter {A : Type} (R : A -> A -> Prop) (f : A -> bool) (l : list A) :
  StronglySorted R l -> StronglySorted R (filter f l).
Proof.
  induction 1 as [|x l Hs IH Hall]; simpl; [constructor|].
  destruct (f x); [|exact IH].
  constructor; [exact IH|].
  rewrite Forall_forall in *. intros y Hy. apply filter_In in Hy. apply Hall, Hy.
Qed.

Lemma StronglySorted_weaken {A : Type} (R R' : A -> A -> Prop) (P : A -> Prop)
      (l : list A) :
  (forall a b, P a -> P b -> R a b -> R' a b) ->
  Forall P l -> StronglySorted R l -> StronglySorted R' l.
Proof.
  intros HR HP Hs. induction Hs as [|x l Hs IH Hall]; [constructor|].
  inversion HP as [|? ? Hx Hl]; subst.
  constructor; [apply IH; exact Hl|].
  rewrite Forall_forall in *. intros y Hy. apply HR; auto.
Qed.

(** X12: when no percent change is a NaN, the gainers of the diff report
    stand in descending order of percent change and the losers in ascending
    order, the largest loss first; so the at most ten top gainers and top
    losers are the largest gains and losses there are.  This holds on
    every host. *)
Theorem top_movers_are_the_largest :
  forall (h : Host.t) (changes : list GenerateDiff.change),
    Forall (fun c => is_nan (GenerateDiff.percent_change c) = false) changes ->
    let rep := GenerateDiff.render (GenerateDiff.rank h changes) in
    descending GenerateDiff.percent_change (GenerateDiff.gainers rep)
    /\ ascending GenerateDiff.percent_change (GenerateDiff.losers rep)
    /\ (List.length (GenerateDiff.top_gainers rep) <= 10)%nat
    /\ (List.length (GenerateDiff.top_losers rep) <= 10)%nat
    /\ Forall (fun a =>
                 Forall (fun b => (GenerateDiff.percent_change b
                                   <=? GenerateDiff.percent_change a) = true)
                        (skipn 10 (GenerateDiff.gainers rep)))
              (GenerateDiff.top_gainers rep)
    /\ Forall (fun a =>
                 Forall (fun b => (GenerateDiff.percent_change a
                                   <=? GenerateDiff.percent_change b) = true)
                        (skipn 10 (GenerateDiff.losers rep)))
              (GenerateDiff.top_losers rep).
Proof.
  intros h changes Hnan. cbv zeta.
  assert (Hd : descending GenerateDiff.abs_percent (GenerateDiff.rank h changes)).
  { apply sort_reverse_descending. eapply Forall_impl; [|exact Hnan].
    intros c H. unfold GenerateDiff.abs_percent. now rewrite is_nan_abs. }
  unfold GenerateDiff.render.
  cbn [GenerateDiff.gainers GenerateDiff.losers GenerateDiff.top_gainers
       GenerateDiff.top_losers].
  set (g := filter (fun c => 0 <? GenerateDiff.percent_change c) (GenerateDiff.rank h changes)).
  set (l := filter (fun c => GenerateDiff.percent_change c <? 0) (GenerateDiff.rank h changes)).
  assert (Hg : descending GenerateDiff.percent_change g).
  { apply (StronglySorted_weaken
             (fun a b => (GenerateDiff.abs_percent b <=? GenerateDiff.abs_percent a) = true)
             (fun a b => (GenerateDiff.percent_change b <=? GenerateDiff.percent_change a) = true)
             (fun c => (0 <? GenerateDiff.percent_change c) = true)).
    - intros a b Ha Hb. unfold GenerateDiff.abs_percent.
      now rewrite (abs_of_positive _ Ha), (abs_of_positive _ Hb).
    - apply Forall_forall. intros c Hc. apply filter_In in Hc. apply Hc.
    - apply StronglySorted_filter. exact Hd. }
  assert (Hl : ascending GenerateDiff.percent_change l).
  { apply (StronglySorted_weaken
             (fun a b => (GenerateDiff.abs_percent b <=? GenerateDiff.abs_percent a) = true)
             (fun a b => (GenerateDiff.percent_change a <=? GenerateDiff.percent_change b) = true)
             (fun c => (GenerateDiff.percent_change c <? 0) = true)).
    - intros a b Ha Hb. unfold GenerateDiff.abs_percent.
      now rewrite (abs_of_negative _ Ha), (abs_of_negative _ Hb), leb_opp.
    - apply Forall_forall. intros c Hc. apply filter_In in Hc. apply Hc.
    - apply StronglySorted_filter. exact Hd. }
  split; [exact Hg|]. split; [exact Hl|].
  split; [apply firstn_le_length|]. split; [apply firstn_le_length|].
  split.
  - apply StronglySorted_app_inv. rewrite firstn_skipn. exact Hg.
  - apply (StronglySorted_app_inv
             (fun a b => (GenerateDiff.percent_change a <=? GenerateDiff.percent_change b) = true)).
    rewrite firstn_skipn. exact Hl.
Qed.

Lemma top_movers_are_the_largest_witness :
  let rep := GenerateDiff.render (GenerateDiff.rank repo_scenarios sample_changes) in
  descending GenerateDiff.percent_change (GenerateDiff.gainers rep)
  /\ ascending GenerateDiff.percent_change (GenerateDiff.losers rep)
  /\ (List.length (GenerateDiff.top_gainers rep) <= 10)%nat
  /\ (List.length (GenerateDiff.top_losers rep) <= 10)%nat
  /\ Forall (fun a =>
               Forall (fun b => (GenerateDiff.percent_change b
                                 <=? GenerateDiff.percent_change a) = true)
                      (skipn 10 (GenerateDiff.gainers rep)))
            (GenerateDiff.top_gainers rep)
  /\ Forall (fun a =>
               Forall (fun b => (GenerateDiff.percent_change a
                                 <=? GenerateDiff.percent_change b) = true)
                      (skipn 10 (GenerateDiff.losers rep)))
            (GenerateDiff.top_losers rep).
Proof.
  apply (top_movers_are_the_largest repo_scenarios sample_changes). repeat constructor.
Defined.

(** ** The records of the diff report and the status of its run *)

Lemma change_for_spec (r : Git.repo) (cur prev f : string) :
  (readable r [object cur f; object prev f] = true
   /\ both_priced r cur prev f = true
   /\ exists c, GenerateDiff.change_for r cur prev f = Ok (Some c)
                /\ record_of r cur prev f c)
  \/ (readable r [object cur f; object prev f] = true
      /\ both_priced r cur prev f = false
      /\ GenerateDiff.change_for r cur prev f = Ok None)
  \/ (readable r [object cur f; object prev f] = false
      /\ GenerateDiff.change_for r cur prev f = Raise UnicodeDecodeError).
Proof.
  rewrite change_for_fields, readable_cons. unfold both_priced, record_of.
  destruct (fields_at_cases r cur f) as [(-> & [cp ct] & ->)|(-> & ->)];
    cbn [bind andb]; [|right; right; split; reflexivity].
  destruct (fields_at_cases r prev f) as [(-> & [pp pt] & ->)|(-> & ->)];
    cbn [bind]; [|right; right; split; reflexivity].
  cbn [fst snd]. unfold GenerateDiff.change_of.
  destruct cp as [c|], pp as [p|];
    try (right; left; split; [reflexivity|]; split; reflexivity).
  left. split; [reflexivity|]. split; [reflexivity|].
  rewrite calculate_percentage_change_some. cbn [bind].
  eexists. split; [reflexivity|]. cbn. repeat split.
Qed.

(** X13: when every file it reads decodes, the loop over the stock files
    returns one change record for each stock file whose two snapshots both
    have a price, in the order of the files, and none for the others; each
    record holds the ticker and the parsed fields of its file, the
    difference of the two prices and their percent change.  When a file
    does not decode the loop raises [UnicodeDecodeError]. *)
Theorem collect_changes_records :
  forall (r : Git.repo) (current_commit previous_commit : string)
         (stock_files : list string),
    if readable r (flat_map (fun f => [object current_commit f; object previous_commit f])
                            stock_files)
    then
      exists changes,
        GenerateDiff.collect_changes r current_commit previous_commit stock_files
        = Ok changes
        /\ Forall2 (record_of r current_commit previous_commit)
                   (filter (both_priced r current_commit previous_commit) stock_files)
                   changes
    else
      GenerateDiff.collect_changes r current_commit previous_commit stock_files
      = Raise UnicodeDecodeError.
Proof.
  intros r cur prev files.
  induction files as [|f rest IH].
  - cbn. exists []. split; [reflexivity | constructor].
  - cbn [flat_map GenerateDiff.collect_changes filter].
    rewrite (readable_app r [object cur f; object prev f]).
    destruct (change_for_spec r cur prev f)
      as [(-> & Hb & c & Hc & Hrec)|[(-> & Hb & Hc)|(-> & Hc)]];
      rewrite Hc; cbn [bind andb]; [| |reflexivity]; rewrite Hb;
      (destruct (readable r (flat_map (fun f0 => [object cur f0; object prev f0]) rest));
       [destruct IH as (cs & -> & Hall)|rewrite IH; reflexivity]); cbn [bind].
    + exists (c :: cs). split; [reflexivity|]. constructor; assumption.
    + exists cs. split; [reflexivity | exact Hall].
Qed.

(** The tickers of the change records are tickers of stock files. *)
Lemma collect_changes_tickers (r : Git.repo) (cur prev : string) (stock_files : list string) :
  forall changes,
    GenerateDiff.collect_changes r cur prev stock_files = Ok changes ->
    incl (map GenerateDiff.ticker changes) (map Shared.ticker_of stock_files).
Proof.
  induction stock_files as [|f rest IH]; intros changes.
  - intros [= <-]. apply incl_refl.
  - cbn [GenerateDiff.collect_changes].
    destruct (change_for_spec r cur prev f)
      as [(_ & _ & c & Hc & Hrec)|[(_ & _ & Hc)|(_ & Hc)]];
      rewrite Hc; cbn [bind]; [| |discriminate];
      (destruct (GenerateDiff.collect_changes r cur prev rest) as [cs|e];
       cbn [bind]; [|discriminate]); intros [= <-]; specialize (IH cs eq_refl).
    + destruct Hrec as (Ht & _). cbn [map]. rewrite Ht.
      intros x [<-|Hx]; [now left | right; apply IH; exact Hx].
    + intros x Hx. right. apply IH. exact Hx.
Qed.

(** What [generate_diff_report] comes to on any repository. *)
Lemma generate_diff_report_any (r : Host.t) (w0 : IO.world GenerateDiff.diff_report) :
  exists w,
    GenerateDiff.generate_diff_report r w0
    = (w, if readable r (diff_reads r) then Ok tt else Raise UnicodeDecodeError)
    /\ IO.dirs w = IO.dirs (fst (IO.makedirs "artifacts" w0))
    /\ (IO.files w = IO.files w0
        \/ exists h0 h1 changes,
            readable r (diff_reads r) = true
            /\ GenerateDiff.collect_changes r h0 h1 (Shared.get_all_stock_files r)
               = Ok changes
            /\ IO.files w
               = (GenerateDiff.output_file, GenerateDiff.render (GenerateDiff.rank r changes))
                 :: filter (fun f => negb (String.eqb (fst f) GenerateDiff.output_file))
                           (IO.files w0)).
Proof.
  unfold GenerateDiff.generate_diff_report, diff_reads. rewrite iobind_makedirs.
  destruct (GenerateDiff.get_last_two_commits r) as [[h0|] [h1|]];
    try (eexists; split; [reflexivity|]; split; [reflexivity | left; reflexivity]).
  destruct (PyStr.truthy h0 && PyStr.truthy h1);
    try (eexists; split; [reflexivity|]; split; [reflexivity | left; reflexivity]).
  rewrite !iobind_print.
  destruct (Shared.get_all_stock_files r) as [|f fs] eqn:Ef;
    try (eexists; split; [reflexivity|]; split; [reflexivity | left; reflexivity]).
  destruct (collect_changes_cases r h0 h1 (f :: fs)) as [(Hr & cs & Hcs)|(Hr & Hcs)];
    cbv zeta in Hr; rewrite Hr, Hcs.
  - rewrite iobind_lift_ok. cbv zeta.
    rewrite iobind_write_file, !iobind_print.
    eexists. split; [reflexivity|]. split; [reflexivity|].
    right. exists h0, h1, cs. repeat split. exact Hcs.
  - eexists. split; [reflexivity|]. split; [reflexivity|]. left. reflexivity.
Qed.

(** What the diff script writes, on any repository. *)
Lemma diff_run_files (argv : list string) (r : Host.t) :
  IO.files (snd (GenerateDiff.run argv r)) = []
  \/ exists h0 h1 changes,
      GenerateDiff.collect_changes r h0 h1 (Shared.get_all_stock_files r) = Ok changes
      /\ IO.files (snd (GenerateDiff.run argv r))
         = [(GenerateDiff.output_file, GenerateDiff.render (GenerateDiff.rank r changes))].
Proof.
  destruct (chdir_fails argv r) eqn:Hc.
  { left. apply (diff_run_outside argv r (or_introl Hc)). }
  destruct (Git.rev_parse_ok r) eqn:Hin.
  2:{ left. apply (diff_run_outside argv r (or_intror Hin)). }
  rewrite (diff_run_inside argv r Hc Hin).
  destruct (generate_diff_report_any r (diff_start argv)) as (w & -> & _ & Hf).
  cbn [fst snd]. rewrite diff_start_files in Hf.
  destruct Hf as [->|(h0 & h1 & cs & _ & Hcs & ->)]; [now left|].
  right. exists h0, h1, cs. split; [exact Hcs | reflexivity].
Qed.


(** ** The chart data, the table and the status of the report run *)

Lemma dict_set_keys {V : Type} (k : string) (v : V) (d : list (string * V)) :
  map fst (GenerateReport.dict_set k v d)
  = if existsb (String.eqb k) (map fst d) then map fst d else map fst d ++ [k].
Proof.
  induction d as [|[k' v'] d IH]; [reflexivity|]. simpl.
  rewrite (String.eqb_sym k k').
  destruct (String.eqb_spec k' k) as [->|Hne]; simpl; [reflexivity|].
  rewrite IH. destruct (existsb (String.eqb k) (map fst d)); reflexivity.
Qed.

Lemma existsb_eqb_In (k : string) (l : list string) :
  existsb (String.eqb k) l = true <-> In k l.
Proof.
  rewrite existsb_exists. split.
  - intros (x & Hx & E). apply String.eqb_eq in E. now subst.
  - intros H. exists k. split; [exact H | apply String.eqb_refl].
Qed.

Lemma dict_set_NoDup {V : Type} (k : string) (v : V) (d : list (string * V)) :
  NoDup (map fst d) -> NoDup (map fst (GenerateReport.dict_set k v d)).
Proof.
  intros H. rewrite dict_set_keys.
  destruct (existsb (String.eqb k) (map fst d)) eqn:E; [exact H|].
  apply NoDup_app; [exact H | repeat constructor; auto |].
  intros x Hx [<-|[]].
  apply existsb_eqb_In in Hx. congruence.
Qed.

Lemma dict_set_In {V : Type} (k k0 : string) (v : V) (d : list (string * V)) :
  In k0 (map fst (GenerateReport.dict_set k v d)) <-> k0 = k \/ In k0 (map fst d).
Proof.
  rewrite dict_set_keys.
  destruct (existsb (String.eqb k) (map fst d)) eqn:E.
  - apply existsb_eqb_In in E. split; [auto|]. intros [->|H]; auto.
  - rewrite in_app_iff. simpl. split; intros [H|H]; auto.
    + destruct H as [<-|[]]. auto.
Qed.

Lemma collect_keys (r : Git.repo) (commits : list GenerateReport.commit_entry)
      (tickers : list string) :
  forall acc d acc' d',
    NoDup (map fst d) ->
    (forall k, In k (map fst d) <-> In k (map GenerateReport.s_ticker acc)) ->
    GenerateReport.collect r commits tickers acc d = Ok (acc', d') ->
    NoDup (map fst d')
    /\ (forall k, In k (map fst d') <-> In k (map GenerateReport.s_ticker acc')).
Proof.
  induction tickers as [|t rest IH]; intros acc d acc' d' Hnd Hkeys; simpl.
  - intros [= <- <-]. auto.
  - destruct (GenerateReport.get_price_history r t commits) as [h|]; simpl; [|discriminate].
    destruct (GenerateReport.calculate_statistics h) as [[st|]|]; simpl; try discriminate.
    + apply IH; [apply dict_set_NoDup; exact Hnd|].
      intros k. rewrite dict_set_In, map_app, in_app_iff, Hkeys. simpl.
      split; intros [H|H]; auto. destruct H as [H|[]]; auto.
    + apply IH; assumption.
Qed.

Lemma written_report (r : Host.t) (rep : GenerateReport.html_report) :
  In (GenerateReport.output_file, rep) (IO.files (snd (GenerateReport.run r))) ->
  exists commits acc d t,
    GenerateReport.get_commit_history r 10 = Ok commits
    /\ GenerateReport.collect r commits (candidates r) [] [] = Ok (acc, d)
    /\ Forall (collected r commits (candidates r) d) acc
    /\ (List.length acc <= 20)%nat
    /\ rep = html_of r acc d t.
Proof.
  rewrite report_run.
  destruct (generate_html_report_cases r IO.empty)
    as [(e & _ & ->)|[(_ & ->)|[(cs & _ & _ & _ & ->)|[(cs & _ & _ & _ & _ & ->)
       |(cs & acc & d & t & Hch & _ & _ & _ & Hcol & Hall & Hlen & _ & ->)]]]];
    cbn [fst snd]; try contradiction.
  match goal with |- context [fold_left _ ?l ?w] =>
    destruct (fold_printed_files l w) as [-> _] end.
  cbn [IO.files IO.write_file fst printed IO.makedirs IO.empty filter html_start].
  intros [[= <-]|[]]. exists cs, acc, d, t.
  pose proof (candidates_length r). repeat split; auto. lia.
Qed.

Lemma report_run_files (r : Host.t) :
  IO.files (snd (GenerateReport.run r)) = []
  \/ exists rep,
      IO.files (snd (GenerateReport.run r)) = [(GenerateReport.output_file, rep)].
Proof.
  rewrite report_run.
  destruct (generate_html_report_cases r IO.empty)
    as [(e & _ & ->)|[(_ & ->)|[(cs & _ & _ & _ & ->)|[(cs & _ & _ & _ & _ & ->)
       |(cs & acc & d & t & _ & _ & _ & _ & _ & _ & _ & _ & ->)]]]];
    cbn [fst snd]; try (left; reflexivity).
  right. match goal with |- context [fold_left _ ?l ?w] =>
    destruct (fold_printed_files l w) as [-> _] end.
  eexists. reflexivity.
Qed.

Lemma table_is_the_ranking (h : Host.t) (acc : list GenerateReport.stock) :
  (List.length acc <= 20)%nat ->
  firstn 20 (GenerateReport.rank h acc) = GenerateReport.rank h acc.
Proof.
  intros H. apply firstn_all2. unfold GenerateReport.rank.
  rewrite <- (Permutation_length
                (sort_reverse_perm (Host.unordered h) GenerateReport.abs_percent acc)).
  exact H.
Qed.

(** C9, as the code has it: the path [main.txt] itself is never among the
    discovered stock files, nor is the empty path.  Every change record
    that the diff script writes, and every chart, table row and entry of
    the chart data that the report script writes, is for the ticker of a
    discovered stock file, for the report script one of the first 20.  So
    no change record and no chart is for the ticker [main] unless a
    discovered path, which is not [main.txt], reduces to that ticker. *)
Theorem main_txt_not_discovered :
  forall (argv : list string) (r : Host.t),
    Forall (fun f => f <> "main.txt" /\ f <> EmptyString) (Shared.get_all_stock_files r)
    /\ incl (diff_tickers argv r) (map Shared.ticker_of (Shared.get_all_stock_files r))
    /\ incl (report_tickers r)
            (map Shared.ticker_of (firstn 20 (Shared.get_all_stock_files r)))
    /\ (Forall (fun f => Shared.ticker_of f <> "main") (Shared.get_all_stock_files r) ->
        Forall (fun t => t <> "main") (diff_tickers argv r ++ report_tickers r)).
Proof.
  intros argv r.
  assert (Hd : incl (diff_tickers argv r)
                    (map Shared.ticker_of (Shared.get_all_stock_files r))).
  { unfold diff_tickers.
    destruct (diff_run_files argv r) as [->|(h0 & h1 & cs & Hcs & ->)];
      [intros x []|].
    cbn [flat_map snd GenerateDiff.render GenerateDiff.detailed]. rewrite app_nil_r.
    intros x Hx. apply (collect_changes_tickers r h0 h1 _ cs Hcs).
    apply (Permutation_in x
             (Permutation_sym
                (Permutation_map GenerateDiff.ticker
                   (sort_reverse_perm (Host.unordered r) GenerateDiff.abs_percent cs)))).
    exact Hx. }
  assert (Hr : incl (report_tickers r)
                    (map Shared.ticker_of (firstn 20 (Shared.get_all_stock_files r)))).
  { unfold report_tickers.
    destruct (report_run_files r) as [E|(rep & E)]; [rewrite E; intros x []|].
    assert (Hin : In (GenerateReport.output_file, rep)
                     (IO.files (snd (GenerateReport.run r))))
      by (rewrite E; now left).
    rewrite E. cbn [flat_map snd]. rewrite app_nil_r.
    destruct (written_report r rep Hin) as (cs & acc & d & t & _ & Hcol & Hall & _ & ->).
    destruct (collect_keys r cs (candidates r) [] [] acc d) as [_ Hkeys];
      [constructor | reflexivity | exact Hcol |].
    assert (Hacc : forall x, In x (map GenerateReport.s_ticker acc) ->
                             In x (candidates r)).
    { intros x Hx. apply in_map_iff in Hx. destruct Hx as (s & <- & Hs).
      eapply Forall_forall in Hall; [|exact Hs]. apply Hall. }
    assert (Hrank : forall n x,
               In x (map GenerateReport.s_ticker (firstn n (GenerateReport.rank r acc))) ->
               In x (candidates r)).
    { intros n x Hx. apply Hacc. apply in_map_iff in Hx. destruct Hx as (s & <- & Hs).
      apply in_map. apply In_firstn in Hs.
      apply (Permutation_in s
               (Permutation_sym
                  (sort_reverse_perm (Host.unordered r) GenerateReport.abs_percent acc))).
      exact Hs. }
    cbn [html_of GenerateReport.gallery GenerateReport.table GenerateReport.chart_data].
    intros x Hx. apply in_app_or in Hx. destruct Hx as [Hx|Hx]; [exact (Hrank 12%nat x Hx)|].
    apply in_app_or in Hx. destruct Hx as [Hx|Hx]; [exact (Hrank 20%nat x Hx)|].
    apply Hacc, Hkeys, Hx. }
  split; [apply get_all_stock_files_not_main|]. split; [exact Hd|]. split; [exact Hr|].
  intros Hmain. apply Forall_forall. intros x Hx Ex. subst x.
  assert (Hin : In "main" (map Shared.ticker_of (Shared.get_all_stock_files r))).
  { apply in_app_or in Hx. destruct Hx as [Hx|Hx]; [exact (Hd _ Hx)|].
    apply Hr in Hx. apply in_map_iff in Hx. destruct Hx as (f & Ef & Hf).
    apply in_map_iff. exists f. split; [exact Ef | exact (In_firstn _ _ _ Hf)]. }
  apply in_map_iff in Hin. destruct Hin as (f & Ef & Hf).
  rewrite Forall_forall in Hmain. exact (Hmain f Hf Ef).
Qed.

(** X15: in a written report the chart data has one entry for each ticker
    of the table and no other, and no ticker twice, also when two stock
    files reduce to the same ticker: the later history replaces the
    earlier one. *)
Theorem chart_data_keys_are_the_table_tickers :
  forall (r : Host.t) (rep : GenerateReport.html_report),
    In (GenerateReport.output_file, rep) (IO.files (snd (GenerateReport.run r))) ->
    NoDup (map fst (GenerateReport.chart_data rep))
    /\ (forall k, In k (map fst (GenerateReport.chart_data rep))
                  <-> In k (map GenerateReport.s_ticker (GenerateReport.table rep))).
Proof.
  intros r rep Hin.
  destruct (written_report r rep Hin) as (cs & acc & d & t & _ & Hcol & _ & Hlen & ->).
  destruct (collect_keys r cs (candidates r) [] [] acc d) as [Hnd Hkeys];
    [constructor | reflexivity | exact Hcol |].
  cbn [html_of GenerateReport.chart_data GenerateReport.table].
  split; [exact Hnd|]. intros k.
  rewrite Hkeys, (table_is_the_ranking r acc Hlen).
  pose proof (Permutation_map GenerateReport.s_ticker
                (sort_reverse_perm (Host.unordered r) GenerateReport.abs_percent acc))
    as Hp.
  split; intros H.
  - apply (Permutation_in _ Hp H).
  - apply (Permutation_in _ (Permutation_sym Hp) H).
Qed.

Lemma chart_data_keys_are_the_table_tickers_witness :
  NoDup (map fst (GenerateReport.chart_data (report_of repo_nan_price)))
  /\ (forall k, In k (map fst (GenerateReport.chart_data (report_of repo_nan_price)))
                <-> In k (map GenerateReport.s_ticker
                              (GenerateReport.table (report_of repo_nan_price)))).
Proof.
  apply (chart_data_keys_are_the_table_tickers repo_nan_price (report_of repo_nan_price)).
  left. reflexivity.
Defined.

(** X16: the table of a written report holds every candidate that has a
    price, ranked: the cut at 20 rows drops none, since the candidates are
    the tickers of at most 20 files.  The gallery is the first 12 rows of
    the table. *)
Theorem table_holds_every_candidate :
  forall (r : Host.t) (rep : GenerateReport.html_report),
    In (GenerateReport.output_file, rep) (IO.files (snd (GenerateReport.run r))) ->
    GenerateReport.gallery rep = firstn 12 (GenerateReport.table rep)
    /\ exists commits acc d,
        GenerateReport.get_commit_history r 10 = Ok commits
        /\ GenerateReport.collect r commits (candidates r) [] [] = Ok (acc, d)
        /\ GenerateReport.table rep = GenerateReport.rank r acc
        /\ Permutation acc (GenerateReport.table rep)
        /\ forall t h st,
            In t (candidates r) ->
            GenerateReport.get_price_history r t commits = Ok h ->
            GenerateReport.calculate_statistics h = Ok (Some st) ->
            In {| GenerateReport.s_ticker := t; GenerateReport.stats := st;
                  GenerateReport.history := h |} (GenerateReport.table rep).
Proof.
  intros r rep Hin.
  destruct (written_report r rep Hin) as (cs & acc & d & t & Hch & Hcol & _ & Hlen & ->).
  cbn [html_of GenerateReport.gallery GenerateReport.table].
  rewrite (table_is_the_ranking r acc Hlen). split; [reflexivity|].
  exists cs, acc, d. repeat split; auto.
  - apply sort_reverse_perm.
  - intros tk h st Ht Hh Hst.
    apply (Permutation_in _ (sort_reverse_perm (Host.unordered r)
                               GenerateReport.abs_percent acc)).
    apply (proj2 (collect_complete _ _ _ _ _ _ _ Hcol) tk h st Ht Hh Hst).
Qed.

Lemma table_holds_every_candidate_witness :
  GenerateReport.gallery (report_of repo_nan_price)
  = firstn 12 (GenerateReport.table (report_of repo_nan_price))
  /\ exists commits acc d,
      GenerateReport.get_commit_history repo_nan_price 10 = Ok commits
      /\ GenerateReport.collect repo_nan_price commits (candidates repo_nan_price) [] []
         = Ok (acc, d)
      /\ GenerateReport.table (report_of repo_nan_price)
         = GenerateReport.rank repo_nan_price acc
      /\ Permutation acc (GenerateReport.table (report_of repo_nan_price))
      /\ forall t h st,
          In t (candidates repo_nan_price) ->
          GenerateReport.get_price_history repo_nan_price t commits = Ok h ->
          GenerateReport.calculate_statistics h = Ok (Some st) ->
          In {| GenerateReport.s_ticker := t; GenerateReport.stats := st;
                GenerateReport.history := h |}
             (GenerateReport.table (report_of repo_nan_price)).
Proof.
  apply (table_holds_every_candidate repo_nan_price (report_of repo_nan_price)).
  left. reflexivity.
Defined.










(** ** Discovered paths and their tickers *)

Section Paths.

Local Open Scope string_scope.

Lemma append_assoc (a b c : string) : (a ++ b) ++ c = a ++ b ++ c.
Proof. induction a as [|x a IH]; simpl; [reflexivity | now rewrite IH]. Qed.

Lemma length_append (a b : string) :
  String.length (a ++ b) = (String.length a + String.length b)%nat.
Proof. induction a as [|x a IH]; simpl; [reflexivity | now rewrite IH]. Qed.

Lemma concat_lines (p : string) (ps : list string) :
  String.concat "" (map (fun p => p ++ PyStr.nl_s) (p :: ps))
  = PyStr.join PyStr.nl_s (p :: ps) ++ PyStr.nl_s.
Proof.
  revert p. induction ps as [|q ps IH]; intros p.
  - simpl. reflexivity.
  - rewrite join_cons.
    change (String.concat "" (map (fun p => p ++ PyStr.nl_s) (p :: q :: ps)))
      with ((p ++ PyStr.nl_s) ++ ""
            ++ String.concat "" (map (fun p => p ++ PyStr.nl_s) (q :: ps))).
    rewrite IH. simpl. rewrite !append_assoc. reflexivity.
Qed.

Lemma rstrip_app_nl (s : string) :
  PyStr.rstrip (s ++ PyStr.nl_s) = PyStr.rstrip s.
Proof.
  induction s as [|c s IH]; [reflexivity|].
  simpl. rewrite IH. reflexivity.
Qed.

Lemma c_quote_plain (p : string) :
  all_chars (fun c => negb (Git.must_quote c)) p = true -> Git.c_quote p = p.
Proof.
  intros H. unfold Git.c_quote.
  replace (Git.any_char Git.must_quote p) with false; [reflexivity|].
  induction p as [|c p IH]; [reflexivity|]. simpl in *.
  apply andb_true_iff in H. destruct H as [Hc Hp].
  apply negb_true_iff in Hc. rewrite Hc, <- (IH Hp). reflexivity.
Qed.

Lemma path_ok_inv (p : string) :
  path_ok p = true ->
  (exists c t, p = String c t /\ PyStr.isspace c = false)
  /\ all_chars (fun c => negb (Ascii.eqb c PyStr.nl)) p = true
  /\ ends_clean p = true
  /\ Git.c_quote p = p.
Proof.
  unfold path_ok. intros H.
  apply andb_true_iff in H. destruct H as [H He].
  apply andb_true_iff in H. destruct H as [Hs Hn].
  split; [|split; [|split]]; auto.
  - destruct p as [|c t]; [discriminate|]. exists c, t.
    split; [reflexivity|]. now apply negb_true_iff.
  - revert Hn. apply all_chars_impl. intros c Hc.
    destruct (Ascii.eqb_spec c PyStr.nl) as [->|]; [discriminate Hc | reflexivity].
  - apply c_quote_plain. exact Hn.
Qed.

Lemma ls_files_lines (r : Git.repo) :
  forallb path_ok (Git.tracked_txt r) = true ->
  Git.tracked_txt r <> [] ->
  PyStr.split PyStr.nl (PyStr.strip (Git.ls_files_stdout r)) = Git.tracked_txt r.
Proof.
  unfold Git.ls_files_stdout. intros Hok Hne.
  destruct (Git.tracked_txt r) as [|p ps]; [contradiction|].
  assert (Hall : forall q, In q (p :: ps) -> path_ok q = true).
  { intros q Hq. eapply forallb_forall in Hok; eauto. }
  rewrite (map_ext_in (fun q => Git.c_quote q ++ PyStr.nl_s) (fun q => q ++ PyStr.nl_s))
    by (intros q Hq; now rewrite (proj2 (proj2 (proj2 (path_ok_inv q (Hall q Hq)))))).
  rewrite concat_lines.
  destruct (path_ok_inv p (Hall p (or_introl eq_refl))) as ((c & t & E & Hc) & _ & _).
  assert (Ej : exists u, PyStr.join PyStr.nl_s (p :: ps) = String c u).
  { destruct ps as [|q ps']; [exists t; exact E|].
    rewrite join_cons, E. eexists. reflexivity. }
  destruct Ej as [u Eu].
  unfold PyStr.strip. rewrite Eu.
  change (String c u ++ PyStr.nl_s) with (String c (u ++ PyStr.nl_s)).
  cbn [PyStr.lstrip]. rewrite Hc.
  change (String c (u ++ PyStr.nl_s)) with (String c u ++ PyStr.nl_s).
  rewrite rstrip_app_nl, <- Eu.
  rewrite rstrip_ends_clean.
  - apply split_join; [discriminate|].
    apply Forall_forall. intros q Hq.
    apply (path_ok_inv q (Hall q Hq)).
  - apply ends_clean_join. apply Forall_forall. intros q Hq.
    destruct (path_ok_inv q (Hall q Hq)) as ((a & b & -> & _) & _ & He & _).
    split; [discriminate | exact He].
Qed.

Lemma split_append (sep : ascii) (a b : string) :
  PyStr.split sep (a ++ String sep b) = (PyStr.split sep a ++ PyStr.split sep b)%list.
Proof.
  induction a as [|c a IH]; simpl.
  - rewrite Ascii.eqb_refl. reflexivity.
  - destruct (Ascii.eqb c sep); [now rewrite IH|].
    rewrite IH. pose proof (split_nonempty sep a) as Hne.
    destruct (PyStr.split sep a) as [|x xs]; [contradiction | reflexivity].
Qed.

Lemma basename_app (d s : string) :
  all_chars (fun c => negb (Ascii.eqb c "/")) s = true ->
  PyStr.basename (d ++ "/" ++ s) = s.
Proof.
  intros Hs. unfold PyStr.basename.
  change (d ++ "/" ++ s) with (d ++ String "/" s).
  rewrite split_append, (split_without "/" s Hs).
  apply last_last.
Qed.

Lemma replace_suffix (t : string) :
  all_chars (fun c => negb (Ascii.eqb c ".")) t = true ->
  PyStr.replace (t ++ ".txt") ".txt" "" = t.
Proof.
  unfold PyStr.replace. induction t as [|c t IH]; [reflexivity|].
  intros H. simpl in H. apply andb_true_iff in H. destruct H as [Hc Ht].
  apply negb_true_iff in Hc.
  change (String c t ++ ".txt") with (String c (t ++ ".txt")).
  cbn [PyStr.replace_from String.prefix].
  destruct (ascii_dec "." c) as [E|_]; [subst c; discriminate|].
  rewrite (IH Ht). reflexivity.
Qed.

End Paths.

(** X18: when every tracked path is one that [git ls-files] prints as it
    is (no byte that it quotes) and begins and ends with no white space,
    discovery returns the tracked paths in the order of the listing, but
    for [main.txt]; with no tracked path it returns none. *)
Theorem get_all_stock_files_round_trip :
  forall r : Git.repo,
    forallb path_ok (Git.tracked_txt r) = true ->
    Shared.get_all_stock_files r
    = filter (fun f => negb (String.eqb f "main.txt")) (Git.tracked_txt r).
Proof.
  intros r Hok. unfold Shared.get_all_stock_files.
  destruct (Git.tracked_txt r) as [|p ps] eqn:E.
  - unfold Git.ls_files_stdout. rewrite E. reflexivity.
  - rewrite (ls_files_lines r); rewrite E; [|exact Hok|discriminate].
    apply filter_ext_in. intros q Hq.
    eapply forallb_forall in Hok; eauto.
    destruct (path_ok_inv q Hok) as ((a & b & -> & _) & _). reflexivity.
Qed.

Lemma get_all_stock_files_round_trip_witness :
  forallb path_ok (Git.tracked_txt repo_nested_main) = true
  /\ Shared.get_all_stock_files repo_nested_main
     = filter (fun f => negb (String.eqb f "main.txt")) (Git.tracked_txt repo_nested_main).
Proof.
  split; [reflexivity|].
  apply (get_all_stock_files_round_trip repo_nested_main). reflexivity.
Defined.

(** X19: the ticker of a stock file is its name without the directories and
    without [.txt]: for a name with no slash and no dot, the file
    [name.txt] has the ticker [name] at the top level and in any directory.
    The report pipeline reads [name.txt] back for it, which is the
    discovered path at the top level only. *)
Theorem ticker_of_path :
  forall t d : string,
    name_ok t = true ->
    Shared.ticker_of (t ++ ".txt") = t
    /\ Shared.ticker_of (d ++ "/" ++ t ++ ".txt") = t
    /\ (Shared.ticker_of (t ++ ".txt") ++ ".txt" = t ++ ".txt")%string
    /\ (Shared.ticker_of (d ++ "/" ++ t ++ ".txt") ++ ".txt"
          =? d ++ "/" ++ t ++ ".txt")%string = false.
Proof.
  intros t d Hn. unfold name_ok in Hn.
  assert (Hslash : all_chars (fun c => negb (Ascii.eqb c "/")) (t ++ ".txt") = true).
  { rewrite all_chars_app. apply andb_true_iff. split; [|reflexivity].
    revert Hn. apply all_chars_impl. intros c Hc.
    apply andb_true_iff in Hc. tauto. }
  assert (Hdot : all_chars (fun c => negb (Ascii.eqb c ".")) t = true).
  { revert Hn. apply all_chars_impl. intros c Hc.
    apply andb_true_iff in Hc. tauto. }
  assert (E1 : Shared.ticker_of (t ++ ".txt") = t).
  { unfold Shared.ticker_of, PyStr.basename.
    rewrite (split_without "/" _ Hslash). simpl last. apply replace_suffix, Hdot. }
  assert (E2 : Shared.ticker_of (d ++ "/" ++ t ++ ".txt") = t).
  { unfold Shared.ticker_of. rewrite (basename_app d _ Hslash).
    apply replace_suffix, Hdot. }
  rewrite E1, E2. repeat split.
  apply String.eqb_neq. intros E.
  assert (Hl : String.length (t ++ ".txt") = String.length (d ++ "/" ++ t ++ ".txt"))
    by (rewrite <- E; reflexivity).
  rewrite (length_append d) in Hl. simpl in Hl. lia.
Qed.

Lemma ticker_of_path_witness :
  Shared.ticker_of ("AAPL" ++ ".txt") = "AAPL"
  /\ Shared.ticker_of ("data" ++ "/" ++ "AAPL" ++ ".txt") = "AAPL"
  /\ (Shared.ticker_of ("AAPL" ++ ".txt") ++ ".txt" = "AAPL" ++ ".txt")%string
  /\ (Shared.ticker_of ("data" ++ "/" ++ "AAPL" ++ ".txt") ++ ".txt"
        =? "data" ++ "/" ++ "AAPL" ++ ".txt")%string = false.
Proof.
  apply (ticker_of_path "AAPL" "data"). reflexivity.
Defined.

(** ** A stock file read back *)

Section StockFiles.

Local Open Scope string_scope.

Lemma replace_absent (c : ascii) (old new s : string) :
  all_chars (fun d => negb (Ascii.eqb d c)) s = true ->
  PyStr.replace s (String c old) new = s.
Proof.
  unfold PyStr.replace. induction s as [|d s IH]; [reflexivity|].
  intros H. simpl in H. apply andb_true_iff in H. destruct H as [Hd Hs].
  apply negb_true_iff in Hd.
  cbn [PyStr.replace_from String.prefix].
  destruct (ascii_dec c d) as [E|_].
  - subst d. rewrite Ascii.eqb_refl in Hd. discriminate.
  - rewrite (IH Hs). reflexivity.
Qed.

Lemma updated_line (st : Shared.fields) (ts : string) :
  all_chars (fun c => negb (Ascii.eqb c "U")) ts = true ->
  Shared.scan_line st ("Updated:" ++ ts) = Ok (fst st, Some (PyStr.strip ts)).
Proof.
  intros Hts. destruct st as [price timestamp]. unfold Shared.scan_line.
  rewrite (updated_not_price _ (startswith_app "Updated:" ts)).
  rewrite (startswith_app "Updated:" ts).
  assert (Hrep : PyStr.replace ("Updated:" ++ ts) "Updated:" ""
                 = PyStr.replace ts "Updated:" "").
  { unfold PyStr.replace. simpl. destruct ts; reflexivity. }
  rewrite Hrep, (replace_absent "U" _ _ ts Hts). reflexivity.
Qed.

End StockFiles.

(** X20: a stock file of the two lines [Price:] with a number and
    [Updated:] with a text is read back as that number and that text,
    stripped: the text after [Price:] is the one [float] receives, and the
    text after [Updated:], holding no capital U, is kept as it is. *)
Theorem price_file_round_trip :
  forall (rest ts : string) (x : float),
    all_chars (fun c => negb (Ascii.eqb c PyStr.nl)) rest = true ->
    all_chars (fun c => negb (Ascii.eqb c PyStr.nl) && negb (Ascii.eqb c "U")) ts = true ->
    PyFloat.float (PyStr.strip rest) = Ok x ->
    Shared.parse_price_file
      (Some ("Price:" ++ rest ++ PyStr.nl_s ++ "Updated:" ++ ts)%string)
    = Ok (Some x, Some (PyStr.strip ts)).
Proof.
  intros rest ts x Hrest Hts Hx.
  assert (Hnl : all_chars (fun c => negb (Ascii.eqb c PyStr.nl)) ts = true).
  { revert Hts. apply all_chars_impl. intros c Hc. apply andb_true_iff in Hc. tauto. }
  assert (HU : all_chars (fun c => negb (Ascii.eqb c "U")) ts = true).
  { revert Hts. apply all_chars_impl. intros c Hc. apply andb_true_iff in Hc. tauto. }
  assert (E : ("Price:" ++ rest ++ PyStr.nl_s ++ "Updated:" ++ ts
               = ("Price:" ++ rest) ++ String PyStr.nl ("Updated:" ++ ts))%string)
    by reflexivity.
  rewrite E. unfold Shared.parse_price_file.
  change (PyStr.truthy (("Price:" ++ rest) ++ String PyStr.nl ("Updated:" ++ ts))%string)
    with true. cbv iota.
  rewrite split_app.
  - rewrite (split_without PyStr.nl ("Updated:" ++ ts)).
    + cbn [Shared.scan_lines].
      rewrite (valid_price_line_recovered (None, None) rest x Hx). cbn [bind snd].
      rewrite (updated_line (Some x, None) ts HU). reflexivity.
    + rewrite all_chars_app, Hnl. reflexivity.
  - rewrite all_chars_app, Hrest. reflexivity.
Qed.

Lemma price_file_round_trip_witness :
  Shared.parse_price_file
    (Some ("Price:" ++ " 101.5" ++ PyStr.nl_s ++ "Updated:" ++ " 2024-01-02 10:00:00")%string)
  = Ok (Some 101.5, Some (PyStr.strip " 2024-01-02 10:00:00")).
Proof.
  apply (price_file_round_trip " 101.5" " 2024-01-02 10:00:00" 101.5); reflexivity.
Defined.
